(** * rlgym-learn: trajectory aggregation, value backfill and checkpointing

    A shallow embedding of [env_trajectories.py] and of the bookkeeping
    half of [ppo_agent_controller.py], with the properties of the
    trajectory tracker, the reset/step decision, the learning step, the
    value backfill and the checkpoint save/load/prune code. *)

From Stdlib Require Import ZArith Lia DecimalString DecimalZ.
From stdpp Require Import base option list gmap strings sorting.

Open Scope Z_scope.

(** ** Python runtime: exceptions, mutation, loops, slices *)

Module Py.

Inductive exc :=
| KeyError | IndexError | ValueError | AttributeError
| RuntimeError | FileNotFoundError | TypeError.

Inductive res (A : Type) :=
| Ok (a : A)
| Raise (e : exc).
Arguments Ok {A} a.
Arguments Raise {A} e.

(** A method of an object of state [S]: it returns or raises, and in
    both cases leaves the (possibly half-updated) object behind. *)
Definition M (S A : Type) : Type := S -> res A * S.

Definition ret {S A} (a : A) : M S A := fun s => (Ok a, s).
Definition bind {S A B} (m : M S A) (k : A -> M S B) : M S B :=
  fun s => match m s with
           | (Ok a, s') => k a s'
           | (Raise e, s') => (Raise e, s')
           end.
Definition raise {S A} (e : exc) : M S A := fun s => (Raise e, s).
Definition get {S} : M S S := fun s => (Ok s, s).
Definition gets {S A} (f : S -> A) : M S A := fun s => (Ok (f s), s).
Definition modify {S} (f : S -> S) : M S unit := fun s => (Ok tt, f s).
Definition lift {S A} (r : res A) : M S A := fun s => (r, s).

Declare Scope py_scope.
Delimit Scope py_scope with py.
Notation "x <- m ;; k" := (bind m (fun x => k))
  (at level 100, m at next level, right associativity) : py_scope.
Notation "m ;;; k" := (bind m (fun _ => k))
  (at level 100, right associativity) : py_scope.

(** [for x in l: body x] *)
Fixpoint for_each {S A} (l : list A) (body : A -> M S unit) : M S unit :=
  match l with
  | [] => ret tt
  | x :: l' => bind (body x) (fun _ => for_each l' body)
  end.

(** A [for] loop that updates local variables, held in [acc]. *)
Fixpoint for_fold {S A B} (l : list A) (acc : B) (body : B -> A -> M S B)
  : M S B :=
  match l with
  | [] => ret acc
  | x :: l' => bind (body acc x) (fun acc' => for_fold l' acc' body)
  end.

(** Run a method of a sub-object held in a field of the object; the
    sub-object is mutated in place, also when the method raises. *)
Definition zoom {S T A} (proj : S -> T) (put : T -> S -> S) (m : M T A)
  : M S A :=
  fun s => let '(r, t') := m (proj s) in (r, put t' s).

(** [d[k]] on a dict held in field [proj] of the object. *)
Definition getitem {S} `{Countable K} {V} (proj : S -> gmap K V) (k : K)
  : M S V :=
  fun s => match proj s !! k with
           | Some v => (Ok v, s)
           | None => (Raise KeyError, s)
           end.

(** [l[i]] for an integer [i], negative indices counting from the end. *)
Definition index {A} (l : list A) (i : Z) : res A :=
  let len := Z.of_nat (length l) in
  let j := if i <? 0 then i + len else i in
  if (0 <=? j) && (j <? len) then
    match l !! Z.to_nat j with Some x => Ok x | None => Raise IndexError end
  else Raise IndexError.

(** Slice bounds are clamped, negative ones count from the end. *)
Definition clamp (len i : Z) : Z :=
  if i <? 0 then Z.max 0 (i + len) else Z.min i len.

(** [l[start:stop]]; [None] is an omitted bound. *)
Definition slice {A} (l : list A) (start stop : option Z) : list A :=
  let len := Z.of_nat (length l) in
  let a := match start with Some i => clamp len i | None => 0 end in
  let b := match stop with Some j => clamp len j | None => len end in
  take (Z.to_nat (b - a)) (drop (Z.to_nat a) l).

(** [all(bs)] *)
Definition all (bs : list bool) : bool := forallb id bs.

(** A [dict] whose iteration order is observed: the items in insertion
    order, every key once. *)
Fixpoint odict_get `{EqDecision K} {V} (k : K) (d : list (K * V)) : option V :=
  match d with
  | [] => None
  | (k', v) :: d' => if decide (k' = k) then Some v else odict_get k d'
  end.

(** [d[k] = v]: an old key keeps its place, a new one goes last. *)
Fixpoint odict_set `{EqDecision K} {V} (k : K) (v : V) (d : list (K * V))
  : list (K * V) :=
  match d with
  | [] => [(k, v)]
  | (k', v') :: d' =>
      if decide (k' = k) then (k, v) :: d' else (k', v') :: odict_set k v d'
  end.

(** What [d.pop(k)] leaves in [d]. *)
Fixpoint odict_pop `{EqDecision K} {V} (k : K) (d : list (K * V))
  : list (K * V) :=
  match d with
  | [] => []
  | (k', v') :: d' =>
      if decide (k' = k) then d' else (k', v') :: odict_pop k d'
  end.

(** [int(s)] for a name [s]: blanks around the literal, an optional
    sign, then decimal digits, with single underscores between digits;
    any other name is a [ValueError].  Names are ASCII: the digits and
    blanks that Python knows beyond ASCII are not modelled, and neither
    is the refusal of literals of more than 4300 digits. *)

(** The blanks of C's [isspace]: tab to carriage return, and space. *)
Definition isspace (c : Ascii.ascii) : bool :=
  let n := Ascii.nat_of_ascii c in
  ((9 <=? n) && (n <=? 13) || (n =? 32))%nat.

Definition isdigit (c : Ascii.ascii) : bool :=
  let n := Ascii.nat_of_ascii c in ((48 <=? n) && (n <=? 57))%nat.

Fixpoint lstrip (s : string) : string :=
  match s with
  | String c rest => if isspace c then lstrip rest else s
  | EmptyString => s
  end.

Fixpoint all_space (s : string) : bool :=
  match s with
  | String c rest => isspace c && all_space rest
  | EmptyString => true
  end.

(** The digits of a literal without its sign, up to the blanks that end
    it: an underscore (code 95) stands between two digits only. *)
Fixpoint digits_of (after_digit : bool) (s : string) : option string :=
  match s with
  | EmptyString => if after_digit then Some EmptyString else None
  | String c rest =>
      if isdigit c then String c <$> digits_of true rest
      else if (Ascii.nat_of_ascii c =? 95)%nat then
        (if after_digit then digits_of false rest else None)
      else if after_digit && all_space s then Some EmptyString else None
  end.

(** The sign is a minus (code 45) or a plus (code 43). *)
Definition int (s : string) : res Z :=
  let s := lstrip s in
  let '(sign, s) :=
    match s with
    | String c rest =>
        if (Ascii.nat_of_ascii c =? 45)%nat then ("-"%string, rest)
        else if (Ascii.nat_of_ascii c =? 43)%nat then (EmptyString, rest)
        else (EmptyString, s)
    | EmptyString => (EmptyString, s)
    end in
  match digits_of false s with
  | Some digits =>
      match NilZero.int_of_string (sign +:+ digits) with
      | Some d => Ok (Z.of_int d)
      | None => Raise ValueError
      end
  | None => Raise ValueError
  end.

(** [str(z)] *)
Definition str (z : Z) : string := NilZero.string_of_int (Z.to_int z).

(** [[f(x) for x in l]] for an [f] that may raise. *)
Fixpoint map_res {A B} (f : A -> res B) (l : list A) : res (list B) :=
  match l with
  | [] => Ok []
  | x :: l' =>
      match f x with
      | Raise e => Raise e
      | Ok y => match map_res f l' with
                | Raise e => Raise e
                | Ok ys => Ok (y :: ys)
                end
      end
  end.

End Py.

Import Py.
Open Scope py_scope.

(** ** experience/timestep.py: one environment step of one agent *)

Module Timestep.
Section Def.
Context {AgentID Obs Action Reward : Type}.
Record t := mk {
  agent_id : AgentID;
  obs : Obs;
  next_obs : Obs;
  action : Action;
  reward : Reward;
  terminated : bool;
  truncated : bool
}.
End Def.
Arguments t : clear implicits.
End Timestep.

(** ** trajectory.py: the value object built by [get_trajectories]

    [log_probs] is the column of the stacked log-prob tensor, [val_preds]
    starts as [None], [final_val_pred] as the zero tensor. *)

Module Trajectory.
Section Def.
Context {AgentID Obs Action Reward LogProb Value : Type}.
Record t := mk {
  agent_id : AgentID;
  obs_list : list Obs;
  action_list : list Action;
  log_probs : list LogProb;
  reward_list : list Reward;
  val_preds : option (list Value);
  final_obs : option Obs;
  final_val_pred : Value;
  truncated : bool
}.
End Def.
Arguments t : clear implicits.
End Trajectory.

(** ** env_trajectories.py *)

Module EnvTrajectories.
Section Def.
Context {AgentID : Type} `{Countable AgentID}.
Context {Obs Action Reward LogProb Value : Type}.
(** [torch.tensor(0, dtype=torch.float32)] *)
Context (tensor0 : Value).

Record t := mk {
  agent_ids : list AgentID;
  obs_lists : gmap AgentID (list Obs);
  action_lists : gmap AgentID (list Action);
  reward_lists : gmap AgentID (list Reward);
  final_obs : gmap AgentID (option Obs);
  dones : gmap AgentID bool;
  truncateds : gmap AgentID bool;
  (** one 1-D tensor per [add_steps] call *)
  log_probs_list : list (list LogProb)
}.

Definition set_obs_lists f (s : t) :=
  mk (agent_ids s) (f (obs_lists s)) (action_lists s) (reward_lists s)
     (final_obs s) (dones s) (truncateds s) (log_probs_list s).
Definition set_action_lists f (s : t) :=
  mk (agent_ids s) (obs_lists s) (f (action_lists s)) (reward_lists s)
     (final_obs s) (dones s) (truncateds s) (log_probs_list s).
Definition set_reward_lists f (s : t) :=
  mk (agent_ids s) (obs_lists s) (action_lists s) (f (reward_lists s))
     (final_obs s) (dones s) (truncateds s) (log_probs_list s).
Definition set_final_obs f (s : t) :=
  mk (agent_ids s) (obs_lists s) (action_lists s) (reward_lists s)
     (f (final_obs s)) (dones s) (truncateds s) (log_probs_list s).
Definition set_dones f (s : t) :=
  mk (agent_ids s) (obs_lists s) (action_lists s) (reward_lists s)
     (final_obs s) (f (dones s)) (truncateds s) (log_probs_list s).
Definition set_truncateds f (s : t) :=
  mk (agent_ids s) (obs_lists s) (action_lists s) (reward_lists s)
     (final_obs s) (dones s) (f (truncateds s)) (log_probs_list s).
Definition set_log_probs_list f (s : t) :=
  mk (agent_ids s) (obs_lists s) (action_lists s) (reward_lists s)
     (final_obs s) (dones s) (truncateds s) (f (log_probs_list s)).

(** [__init__]: the loop body, then the loop over [agent_ids]. *)
Definition init_agent (agent_id : AgentID) (s : t) : t :=
  set_truncateds <[agent_id := false]>
    (set_dones <[agent_id := false]>
       (set_final_obs <[agent_id := None]>
          (set_reward_lists <[agent_id := []]>
             (set_action_lists <[agent_id := []]>
                (set_obs_lists <[agent_id := []]> s))))).

Definition init (ids : list AgentID) : t :=
  set_log_probs_list (fun _ => [])
    (foldl (fun s agent_id => init_agent agent_id s)
           (mk ids ∅ ∅ ∅ ∅ ∅ ∅ []) ids).

(** [self.obs_lists[agent_id].append(x)] and its two siblings *)
Definition append_obs (agent_id : AgentID) (x : Obs) : M t unit :=
  l <- getitem obs_lists agent_id ;;
  modify (set_obs_lists <[agent_id := l ++ [x]]>).
Definition append_action (agent_id : AgentID) (x : Action) : M t unit :=
  l <- getitem action_lists agent_id ;;
  modify (set_action_lists <[agent_id := l ++ [x]]>).
Definition append_reward (agent_id : AgentID) (x : Reward) : M t unit :=
  l <- getitem reward_lists agent_id ;;
  modify (set_reward_lists <[agent_id := l ++ [x]]>).

(** The body of the loop of [add_steps]; the result is the new value
    of the local [steps_added]. *)
Definition add_step (steps_added : nat)
    (timestep : Timestep.t AgentID Obs Action Reward) : M t nat :=
  let agent_id := Timestep.agent_id timestep in
  done <- getitem dones agent_id ;;
  if negb done then
    append_obs agent_id (Timestep.obs timestep) ;;;
    append_action agent_id (Timestep.action timestep) ;;;
    append_reward agent_id (Timestep.reward timestep) ;;;
    modify (set_final_obs
              <[agent_id := Some (Timestep.next_obs timestep)]>) ;;;
    let now_done :=
      Timestep.terminated timestep || Timestep.truncated timestep in
    (if now_done then
       modify (set_dones <[agent_id := true]>) ;;;
       modify (set_truncateds
                 <[agent_id := Timestep.truncated timestep]>)
     else ret tt) ;;;
    ret (steps_added + 1)%nat
  else ret steps_added.

Definition add_steps
    (timesteps : list (Timestep.t AgentID Obs Action Reward))
    (log_probs : list LogProb) : M t nat :=
  steps_added <- for_fold timesteps 0%nat add_step ;;
  modify (set_log_probs_list (fun l => l ++ [log_probs])) ;;;
  ret steps_added.

(** [truncateds[a] or not dones[a]]: [or] reads its right operand only
    when the left one is false. *)
Definition finalize_agent (agent_id : AgentID) : M t unit :=
  tr <- getitem truncateds agent_id ;;
  v <- (if tr then ret true
        else d <- getitem dones agent_id ;; ret (negb d)) ;;
  modify (set_truncateds <[agent_id := v]>) ;;;
  modify (set_dones <[agent_id := true]>).

Definition finalize : M t unit :=
  ids <- gets agent_ids ;;
  for_each ids finalize_agent.

(** [torch.stack(rows)]: the rows must be there and agree in shape.
    The result is kept as the list of its rows. *)
Definition stack (rows : list (list LogProb)) : res (list (list LogProb)) :=
  match rows with
  | [] => Raise RuntimeError
  | r :: rest =>
      if forallb (fun r' => Nat.eqb (length r') (length r)) rest
      then Ok rows else Raise RuntimeError
  end.

(** [log_probs[:, idx]] on a stacked tensor *)
Definition column (log_probs : list (list LogProb)) (idx : nat)
  : res (list LogProb) :=
  match mapM (fun r : list LogProb => r !! idx) log_probs with
  | Some c => Ok c
  | None => Raise IndexError
  end.

Definition trajectory_of (s : t) (log_probs : list (list LogProb))
    (idx : nat) (agent_id : AgentID)
  : res (Trajectory.t AgentID Obs Action Reward LogProb Value) :=
  match obs_lists s !! agent_id with
  | None => Raise KeyError
  | Some obs_list =>
  match action_lists s !! agent_id with
  | None => Raise KeyError
  | Some action_list =>
  match column log_probs idx with
  | Raise e => Raise e
  | Ok col =>
  match reward_lists s !! agent_id with
  | None => Raise KeyError
  | Some reward_list =>
  match final_obs s !! agent_id with
  | None => Raise KeyError
  | Some fo =>
  match truncateds s !! agent_id with
  | None => Raise KeyError
  | Some tr =>
      Ok (Trajectory.mk agent_id obs_list action_list col reward_list
            None fo tensor0 tr)
  end end end end end end.

(** The loop over [enumerate(self.agent_ids)], from index [idx] on. *)
Fixpoint trajectories_from (s : t) (log_probs : list (list LogProb))
    (idx : nat) (ids : list AgentID)
  : res (list (Trajectory.t AgentID Obs Action Reward LogProb Value)) :=
  match ids with
  | [] => Ok []
  | agent_id :: rest =>
      match trajectory_of s log_probs idx agent_id with
      | Raise e => Raise e
      | Ok tr =>
          match trajectories_from s log_probs (S idx) rest with
          | Raise e => Raise e
          | Ok trs => Ok (tr :: trs)
          end
      end
  end.

Definition get_trajectories (s : t)
  : res (list (Trajectory.t AgentID Obs Action Reward LogProb Value)) :=
  match stack (log_probs_list s) with
  | Raise e => Raise e
  | Ok log_probs => trajectories_from s log_probs 0%nat (agent_ids s)
  end.

End Def.
Arguments t : clear implicits.
Arguments t AgentID {_ _} Obs Action Reward LogProb.
End EnvTrajectories.

(** ** ppo_agent_controller.py *)

Module PPOAgentController.

(** [rlgym_learn.agent.env_action] *)
Inductive EnvActionResponse := STEP_RESPONSE | RESET_RESPONSE.

(** The fields of [PPOAgentControllerConfigModel] (and of the outer
    config) that the modelled methods read. *)
Record Config := mkConfig {
  timesteps_per_iteration : Z;
  save_every_ts : Z;
  checkpoint_load_folder : option string;
  n_checkpoints_to_keep : Z;
  log_to_wandb : bool;
  agent_controller_name : string
}.

Record WandbRun := mkWandbRun { id : string }.

Section Def.
Context {AgentID : Type} `{Countable AgentID}.
Context {Obs Action Reward LogProb Value StateMetrics Time : Type}.
Context {Learner ExperienceBuffer MetricsLogger ObsStandardizer : Type}.
Context {PPOData TrajectoryProcessorData AgentMetrics CollectedMetrics : Type}.
Context {LearnerCheckpoint BufferCheckpoint MetricsCheckpoint : Type}.

Abbreviation Step := (Timestep.t AgentID Obs Action Reward).
Abbreviation Traj := (Trajectory.t AgentID Obs Action Reward LogProb Value).
Abbreviation Tracker := (EnvTrajectories.t AgentID Obs Action Reward LogProb).

Record PPOAgentControllerData := mkData {
  ppo_data : PPOData;
  trajectory_processor_data : TrajectoryProcessorData;
  data_cumulative_timesteps : Z;
  iteration_time : Time;
  timesteps_collected : Z;
  timestep_collection_time : Time
}.

(** What the controller calls and does not define: torch, the clocks, and
    the learner, critic, experience buffer, metrics logger and
    observation standardizer, each a method on the collaborator's own
    state. *)
Class Externals := {
  tensor0 : Value;
  time_sub : Time -> Time -> Time;
  (** the value of the n-th call of [time.perf_counter()], [time.time_ns()] *)
  perf_counter_at : nat -> Time;
  time_ns_at : nat -> Z;
  critic : list AgentID -> list (option Obs) -> M Learner (list Value);
  learn : M (Learner * ExperienceBuffer) PPOData;
  learner_save_checkpoint : M Learner LearnerCheckpoint;
  submit_experience : list Traj -> M ExperienceBuffer TrajectoryProcessorData;
  buffer_save_checkpoint : M ExperienceBuffer BufferCheckpoint;
  collect_agent_metrics : PPOAgentControllerData -> M MetricsLogger AgentMetrics;
  collect_state_metrics : list StateMetrics -> M MetricsLogger CollectedMetrics;
  report_metrics : string -> CollectedMetrics -> AgentMetrics ->
                   option WandbRun -> M MetricsLogger unit;
  metrics_save_checkpoint : M MetricsLogger MetricsCheckpoint;
  standardize : list AgentID -> list Obs -> M ObsStandardizer (list Obs)
}.
Context `{Externals}.

(** The object written to [ppo_agent.json]. *)
Record AgentJson := mkJson {
  json_cur_iteration : Z;
  json_iteration_timesteps : Z;
  json_cumulative_timesteps : Z;
  json_iteration_start_time : Time;
  json_timestep_collection_start_time : Time;
  json_wandb_run_id : option string
}.

(** One checkpoint directory: three folders and three files, each there
    or not. *)
Record CheckpointDir := mkDir {
  ppo_learner : option LearnerCheckpoint;
  experience_buffer_folder : option BufferCheckpoint;
  metrics_logger_folder : option MetricsCheckpoint;
  current_trajectories_pkl : option (list Traj);
  iteration_state_metrics_pkl : option (list StateMetrics);
  ppo_agent_json : option AgentJson
}.

Definition empty_dir : CheckpointDir := mkDir None None None None None None.

Definition set_ppo_learner v (d : CheckpointDir) :=
  mkDir v (experience_buffer_folder d) (metrics_logger_folder d)
        (current_trajectories_pkl d) (iteration_state_metrics_pkl d)
        (ppo_agent_json d).
Definition set_experience_buffer_folder v (d : CheckpointDir) :=
  mkDir (ppo_learner d) v (metrics_logger_folder d)
        (current_trajectories_pkl d) (iteration_state_metrics_pkl d)
        (ppo_agent_json d).
Definition set_metrics_logger_folder v (d : CheckpointDir) :=
  mkDir (ppo_learner d) (experience_buffer_folder d) v
        (current_trajectories_pkl d) (iteration_state_metrics_pkl d)
        (ppo_agent_json d).
Definition set_current_trajectories_pkl v (d : CheckpointDir) :=
  mkDir (ppo_learner d) (experience_buffer_folder d) (metrics_logger_folder d)
        v (iteration_state_metrics_pkl d) (ppo_agent_json d).
Definition set_iteration_state_metrics_pkl v (d : CheckpointDir) :=
  mkDir (ppo_learner d) (experience_buffer_folder d) (metrics_logger_folder d)
        (current_trajectories_pkl d) v (ppo_agent_json d).
Definition set_ppo_agent_json v (d : CheckpointDir) :=
  mkDir (ppo_learner d) (experience_buffer_folder d) (metrics_logger_folder d)
        (current_trajectories_pkl d) (iteration_state_metrics_pkl d) v.

(** The attributes of the controller object. *)
Record t := mk {
  config : Config;
  learner : Learner;
  experience_buffer : ExperienceBuffer;
  metrics_logger : option MetricsLogger;
  obs_standardizer : option ObsStandardizer;
  current_env_trajectories : list (string * Tracker);
  current_trajectories : list Traj;
  iteration_state_metrics : list StateMetrics;
  cur_iteration : Z;
  iteration_timesteps : Z;
  cumulative_timesteps : Z;
  iteration_start_time : Time;
  timestep_collection_start_time : Time;
  (** not set by [__init__] *)
  timestep_collection_end_time : option Time;
  ts_since_last_save : Z;
  wandb_run : option WandbRun;
  wandb_run_id : option string
}.

(** The controller and what is outside it: the directories under
    [checkpoints_save_folder], by name, and how often each clock was
    read. *)
Record state := mkState {
  self : t;
  fs : gmap string CheckpointDir;
  perf_counter_calls : nat;
  time_ns_calls : nat
}.

Definition on_self (f : t -> t) (s : state) : state :=
  mkState (f (self s)) (fs s) (perf_counter_calls s) (time_ns_calls s).
Definition on_fs (f : gmap string CheckpointDir -> gmap string CheckpointDir)
    (s : state) : state :=
  mkState (self s) (f (fs s)) (perf_counter_calls s) (time_ns_calls s).

Definition set_learner v (c : t) :=
  mk (config c) v (experience_buffer c) (metrics_logger c)
     (obs_standardizer c) (current_env_trajectories c)
     (current_trajectories c) (iteration_state_metrics c) (cur_iteration c)
     (iteration_timesteps c) (cumulative_timesteps c)
     (iteration_start_time c) (timestep_collection_start_time c)
     (timestep_collection_end_time c) (ts_since_last_save c) (wandb_run c)
     (wandb_run_id c).
Definition set_experience_buffer v (c : t) :=
  mk (config c) (learner c) v (metrics_logger c)
     (obs_standardizer c) (current_env_trajectories c)
     (current_trajectories c) (iteration_state_metrics c) (cur_iteration c)
     (iteration_timesteps c) (cumulative_timesteps c)
     (iteration_start_time c) (timestep_collection_start_time c)
     (timestep_collection_end_time c) (ts_since_last_save c) (wandb_run c)
     (wandb_run_id c).
Definition set_metrics_logger v (c : t) :=
  mk (config c) (learner c) (experience_buffer c) v
     (obs_standardizer c) (current_env_trajectories c)
     (current_trajectories c) (iteration_state_metrics c) (cur_iteration c)
     (iteration_timesteps c) (cumulative_timesteps c)
     (iteration_start_time c) (timestep_collection_start_time c)
     (timestep_collection_end_time c) (ts_since_last_save c) (wandb_run c)
     (wandb_run_id c).
Definition set_obs_standardizer v (c : t) :=
  mk (config c) (learner c) (experience_buffer c) (metrics_logger c)
     v (current_env_trajectories c)
     (current_trajectories c) (iteration_state_metrics c) (cur_iteration c)
     (iteration_timesteps c) (cumulative_timesteps c)
     (iteration_start_time c) (timestep_collection_start_time c)
     (timestep_collection_end_time c) (ts_since_last_save c) (wandb_run c)
     (wandb_run_id c).
Definition set_current_env_trajectories v (c : t) :=
  mk (config c) (learner c) (experience_buffer c) (metrics_logger c)
     (obs_standardizer c) v
     (current_trajectories c) (iteration_state_metrics c) (cur_iteration c)
     (iteration_timesteps c) (cumulative_timesteps c)
     (iteration_start_time c) (timestep_collection_start_time c)
     (timestep_collection_end_time c) (ts_since_last_save c) (wandb_run c)
     (wandb_run_id c).
Definition set_current_trajectories v (c : t) :=
  mk (config c) (learner c) (experience_buffer c) (metrics_logger c)
     (obs_standardizer c) (current_env_trajectories c)
     v (iteration_state_metrics c) (cur_iteration c)
     (iteration_timesteps c) (cumulative_timesteps c)
     (iteration_start_time c) (timestep_collection_start_time c)
     (timestep_collection_end_time c) (ts_since_last_save c) (wandb_run c)
     (wandb_run_id c).
Definition set_iteration_state_metrics v (c : t) :=
  mk (config c) (learner c) (experience_buffer c) (metrics_logger c)
     (obs_standardizer c) (current_env_trajectories c)
     (current_trajectories c) v (cur_iteration c)
     (iteration_timesteps c) (cumulative_timesteps c)
     (iteration_start_time c) (timestep_collection_start_time c)
     (timestep_collection_end_time c) (ts_since_last_save c) (wandb_run c)
     (wandb_run_id c).
Definition set_cur_iteration v (c : t) :=
  mk (config c) (learner c) (experience_buffer c) (metrics_logger c)
     (obs_standardizer c) (current_env_trajectories c)
     (current_trajectories c) (iteration_state_metrics c) v
     (iteration_timesteps c) (cumulative_timesteps c)
     (iteration_start_time c) (timestep_collection_start_time c)
     (timestep_collection_end_time c) (ts_since_last_save c) (wandb_run c)
     (wandb_run_id c).
Definition set_iteration_timesteps v (c : t) :=
  mk (config c) (learner c) (experience_buffer c) (metrics_logger c)
     (obs_standardizer c) (current_env_trajectories c)
     (current_trajectories c) (iteration_state_metrics c) (cur_iteration c)
     v (cumulative_timesteps c)
     (iteration_start_time c) (timestep_collection_start_time c)
     (timestep_collection_end_time c) (ts_since_last_save c) (wandb_run c)
     (wandb_run_id c).
Definition set_cumulative_timesteps v (c : t) :=
  mk (config c) (learner c) (experience_buffer c) (metrics_logger c)
     (obs_standardizer c) (current_env_trajectories c)
     (current_trajectories c) (iteration_state_metrics c) (cur_iteration c)
     (iteration_timesteps c) v
     (iteration_start_time c) (timestep_collection_start_time c)
     (timestep_collection_end_time c) (ts_since_last_save c) (wandb_run c)
     (wandb_run_id c).
Definition set_iteration_start_time v (c : t) :=
  mk (config c) (learner c) (experience_buffer c) (metrics_logger c)
     (obs_standardizer c) (current_env_trajectories c)
     (current_trajectories c) (iteration_state_metrics c) (cur_iteration c)
     (iteration_timesteps c) (cumulative_timesteps c)
     v (timestep_collection_start_time c)
     (timestep_collection_end_time c) (ts_since_last_save c) (wandb_run c)
     (wandb_run_id c).
Definition set_timestep_collection_start_time v (c : t) :=
  mk (config c) (learner c) (experience_buffer c) (metrics_logger c)
     (obs_standardizer c) (current_env_trajectories c)
     (current_trajectories c) (iteration_state_metrics c) (cur_iteration c)
     (iteration_timesteps c) (cumulative_timesteps c)
     (iteration_start_time c) v
     (timestep_collection_end_time c) (ts_since_last_save c) (wandb_run c)
     (wandb_run_id c).
Definition set_timestep_collection_end_time v (c : t) :=
  mk (config c) (learner c) (experience_buffer c) (metrics_logger c)
     (obs_standardizer c) (current_env_trajectories c)
     (current_trajectories c) (iteration_state_metrics c) (cur_iteration c)
     (iteration_timesteps c) (cumulative_timesteps c)
     (iteration_start_time c) (timestep_collection_start_time c)
     v (ts_since_last_save c) (wandb_run c)
     (wandb_run_id c).
Definition set_ts_since_last_save v (c : t) :=
  mk (config c) (learner c) (experience_buffer c) (metrics_logger c)
     (obs_standardizer c) (current_env_trajectories c)
     (current_trajectories c) (iteration_state_metrics c) (cur_iteration c)
     (iteration_timesteps c) (cumulative_timesteps c)
     (iteration_start_time c) (timestep_collection_start_time c)
     (timestep_collection_end_time c) v (wandb_run c)
     (wandb_run_id c).
Definition set_wandb_run_id v (c : t) :=
  mk (config c) (learner c) (experience_buffer c) (metrics_logger c)
     (obs_standardizer c) (current_env_trajectories c)
     (current_trajectories c) (iteration_state_metrics c) (cur_iteration c)
     (iteration_timesteps c) (cumulative_timesteps c)
     (iteration_start_time c) (timestep_collection_start_time c)
     (timestep_collection_end_time c) (ts_since_last_save c) (wandb_run c)
     v.

(** [self.x = v] and [self.x] *)
Definition assign (f : t -> t) : M state unit := modify (on_self f).
Definition attr {A} (f : t -> A) : M state A := gets (fun s => f (self s)).

(** [time.perf_counter()] and [time.time_ns()] *)
Definition perf_counter : M state Time :=
  fun s => (Ok (perf_counter_at (perf_counter_calls s)),
            mkState (self s) (fs s) (S (perf_counter_calls s))
                    (time_ns_calls s)).
Definition time_ns : M state Z :=
  fun s => (Ok (time_ns_at (time_ns_calls s)),
            mkState (self s) (fs s) (perf_counter_calls s)
                    (S (time_ns_calls s))).

(** [__init__], with the config that [load] stores in [self.config]; the
    learner, the buffer and what [metrics_logger_factory] returns are
    given. *)
Definition init (cfg : Config) (l : Learner) (b : ExperienceBuffer)
    (metrics : option MetricsLogger) (std : option ObsStandardizer)
    (files : gmap string CheckpointDir) (perf_calls ns_calls : nat) : state :=
  let cur_time := perf_counter_at perf_calls in
  mkState (mk cfg l b metrics std [] [] [] 0 0 0 cur_time cur_time None 0
              None None)
          files (S perf_calls) ns_calls.

(** Methods of the collaborators held in fields of [self]. *)
Definition with_learner {A} (m : M Learner A) : M state A :=
  zoom (fun s => learner (self s)) (fun l => on_self (set_learner l)) m.
Definition with_experience_buffer {A} (m : M ExperienceBuffer A) : M state A :=
  zoom (fun s => experience_buffer (self s))
       (fun b => on_self (set_experience_buffer b)) m.
Definition with_learner_and_buffer {A} (m : M (Learner * ExperienceBuffer) A)
  : M state A :=
  zoom (fun s => (learner (self s), experience_buffer (self s)))
       (fun lb s => on_self (set_experience_buffer lb.2)
                      (on_self (set_learner lb.1) s)) m.

(** [self.metrics_logger.f(...)]: on [None] the attribute lookup fails. *)
Definition with_metrics_logger {A} (m : M MetricsLogger A) : M state A :=
  fun s => match metrics_logger (self s) with
           | None => (Raise AttributeError, s)
           | Some l => let '(r, l') := m l in
                       (r, on_self (set_metrics_logger (Some l')) s)
           end.
Definition with_obs_standardizer {A} (m : M ObsStandardizer A) : M state A :=
  fun s => match obs_standardizer (self s) with
           | None => (Raise AttributeError, s)
           | Some l => let '(r, l') := m l in
                       (r, on_self (set_obs_standardizer (Some l')) s)
           end.

(** [self.current_env_trajectories[env_id].f(...)]: the tracker in the
    dict is the object that [f] mutates. *)
Definition with_env_trajectories {A} (env_id : string) (m : M Tracker A)
  : M state A :=
  fun s => match odict_get env_id (current_env_trajectories (self s)) with
           | None => (Raise KeyError, s)
           | Some tr =>
               let '(r, tr') := m tr in
               (r, on_self (fun c => set_current_env_trajectories
                              (odict_set env_id tr'
                                 (current_env_trajectories c)) c) s)
           end.

(** [self.current_trajectories += trajs] *)
Definition extend_current_trajectories (trajs : list Traj) : M state unit :=
  assign (fun c => set_current_trajectories (current_trajectories c ++ trajs) c).

Definition set_obs (o : Obs) (ts : Step) : Step :=
  Timestep.mk (Timestep.agent_id ts) o (Timestep.next_obs ts)
    (Timestep.action ts) (Timestep.reward ts) (Timestep.terminated ts)
    (Timestep.truncated ts).
Definition set_next_obs (o : Obs) (ts : Step) : Step :=
  Timestep.mk (Timestep.agent_id ts) (Timestep.obs ts) o
    (Timestep.action ts) (Timestep.reward ts) (Timestep.terminated ts)
    (Timestep.truncated ts).

(** The body of the second loop of [standardize_timestep_observations];
    the timesteps of the caller are rewritten in place. *)
Definition write_back (timesteps : list Step) (item : nat * Obs)
  : M state (list Step) :=
  let '(obs_idx, o) := item in
  match timesteps !! (obs_idx / 2)%nat with
  | None => raise IndexError
  | Some ts =>
      if Nat.eqb (obs_idx mod 2)%nat 0%nat
      then ret (<[(obs_idx / 2)%nat := set_obs o ts]> timesteps)
      else ret (<[(obs_idx / 2)%nat := set_next_obs o ts]> timesteps)
  end.

Definition standardize_timestep_observations (timesteps : list Step)
  : M state (list Step) :=
  let agent_id_list :=
    timesteps ≫= (fun ts => [Timestep.agent_id ts; Timestep.agent_id ts]) in
  let obs_list :=
    timesteps ≫= (fun ts => [Timestep.obs ts; Timestep.next_obs ts]) in
  standardized_obs <-
    with_obs_standardizer (standardize agent_id_list obs_list) ;;
  for_fold (imap pair standardized_obs) timesteps write_back.

(** [_update_value_predictions]: the first loop.  The locals are
    [start], the two critic inputs and [traj_timestep_idx_ranges]. *)
Definition flatten_step
    (acc : Z * list AgentID * list (option Obs) * list (Z * Z))
    (trajectory : Traj)
  : Z * list AgentID * list (option Obs) * list (Z * Z) :=
  let '(start, critic_agent_id_input, critic_obs_input, ranges) := acc in
  let obs_list :=
    (Some <$> Trajectory.obs_list trajectory)
      ++ [Trajectory.final_obs trajectory] in
  let traj_len := Z.of_nat (length obs_list) in
  let agent_id_list :=
    replicate (Z.to_nat traj_len) (Trajectory.agent_id trajectory) in
  let stop := start + traj_len in
  (stop, critic_agent_id_input ++ agent_id_list,
   critic_obs_input ++ obs_list, ranges ++ [(start, stop)]).

Definition flatten_request (trajectories : list Traj)
  : Z * list AgentID * list (option Obs) * list (Z * Z) :=
  foldl flatten_step (0, [], [], []) trajectories.

Definition set_val_preds v (tr : Traj) : Traj :=
  Trajectory.mk (Trajectory.agent_id tr) (Trajectory.obs_list tr)
    (Trajectory.action_list tr) (Trajectory.log_probs tr)
    (Trajectory.reward_list tr) v (Trajectory.final_obs tr)
    (Trajectory.final_val_pred tr) (Trajectory.truncated tr).
Definition set_final_val_pred v (tr : Traj) : Traj :=
  Trajectory.mk (Trajectory.agent_id tr) (Trajectory.obs_list tr)
    (Trajectory.action_list tr) (Trajectory.log_probs tr)
    (Trajectory.reward_list tr) (Trajectory.val_preds tr)
    (Trajectory.final_obs tr) v (Trajectory.truncated tr).

(** [self.current_trajectories[idx].x = v] *)
Definition update_trajectory (idx : nat) (f : Traj -> Traj) : M state unit :=
  trajs <- attr current_trajectories ;;
  match trajs !! idx with
  | None => raise IndexError
  | Some tr => assign (set_current_trajectories (<[idx := f tr]> trajs))
  end.

(** The body of the second loop. *)
Definition backfill (val_preds : list Value) (item : nat * (Z * Z))
  : M state unit :=
  let '(idx, (start, stop)) := item in
  update_trajectory idx
    (set_val_preds (Some (slice val_preds (Some start) (Some (stop - 1))))) ;;;
  v <- lift (index val_preds (stop - 1)) ;;
  update_trajectory idx (set_final_val_pred v).

Definition _update_value_predictions : M state unit :=
  trajectories <- attr current_trajectories ;;
  let '(_, critic_agent_id_input, critic_obs_input, ranges) :=
    flatten_request trajectories in
  val_preds <- with_learner (critic critic_agent_id_input critic_obs_input) ;;
  for_each (imap pair ranges) (backfill val_preds).

(** The body of the loop of [_learn].  The loop runs over the tracker
    objects that were in the dict when it started; they are reached here
    through their keys, which the loop does not change. *)
Definition finalize_env (env_id : string) : M state unit :=
  with_env_trajectories env_id EnvTrajectories.finalize ;;;
  trajs <- with_env_trajectories env_id
             (fun tr => (EnvTrajectories.get_trajectories tensor0 tr, tr)) ;;
  extend_current_trajectories trajs.

(** [_learn] in its three blocks.  First the trackers are closed, the
    values backfilled and the experience handed to the buffer and the
    learner. *)
Definition learn_collect : M state (TrajectoryProcessorData * PPOData) :=
  env_ids <- attr (fun c => (current_env_trajectories c).*1) ;;
  for_each env_ids finalize_env ;;;
  _update_value_predictions ;;;
  trajectories <- attr current_trajectories ;;
  trajectory_processor_data <-
    with_experience_buffer (submit_experience trajectories) ;;
  ppo_data <- with_learner_and_buffer learn ;;
  ret (trajectory_processor_data, ppo_data).

(** Then, under [if self.metrics_logger is not None], the metrics are
    collected and reported. *)
Definition learn_report (cur_time : Time)
    (trajectory_processor_data : TrajectoryProcessorData)
    (ppo_data : PPOData) : M state unit :=
  ml <- attr metrics_logger ;;
  match ml with
  | Some _ =>
      cumulative <- attr cumulative_timesteps ;;
      it_start <- attr iteration_start_time ;;
      it_ts <- attr iteration_timesteps ;;
      end_time <- attr timestep_collection_end_time ;;
      match end_time with
      | None => raise AttributeError
      | Some end_time =>
          coll_start <- attr timestep_collection_start_time ;;
          agent_metrics <-
            with_metrics_logger
              (collect_agent_metrics
                 (mkData ppo_data trajectory_processor_data cumulative
                    (time_sub cur_time it_start) it_ts
                    (time_sub end_time coll_start))) ;;
          metrics <- attr iteration_state_metrics ;;
          state_metrics <-
            with_metrics_logger (collect_state_metrics metrics) ;;
          name <- attr (fun c => agent_controller_name (config c)) ;;
          run <- attr wandb_run ;;
          with_metrics_logger
            (report_metrics name state_metrics agent_metrics run)
      end
  | None => ret tt
  end.

(** Last come the seven assignments that end [_learn]. *)
Definition learn_reset (cur_time : Time) : M state unit :=
  assign (set_iteration_state_metrics []) ;;;
  assign (set_current_env_trajectories []) ;;;
  assign (set_current_trajectories []) ;;;
  assign (fun c => set_ts_since_last_save
                     (ts_since_last_save c + iteration_timesteps c) c) ;;;
  assign (set_iteration_timesteps 0) ;;;
  assign (set_iteration_start_time cur_time) ;;;
  now <- perf_counter ;;
  assign (set_timestep_collection_start_time now).

Definition _learn : M state unit :=
  collected <- learn_collect ;;
  cur_time <- perf_counter ;;
  learn_report cur_time collected.1 collected.2 ;;;
  learn_reset cur_time.

(** File system calls on the directories under the save folder. *)
Definition makedirs_exist_ok (name : string) : M state unit :=
  modify (on_fs (fun files => match files !! name with
                              | Some _ => files
                              | None => <[name := empty_dir]> files
                              end)).

(** Writing a file or folder of directory [name]. *)
Definition write (name : string) (f : CheckpointDir -> CheckpointDir)
  : M state unit :=
  files <- gets fs ;;
  match files !! name with
  | None => raise FileNotFoundError
  | Some d => modify (on_fs <[name := f d]>)
  end.

(** Reading one; a missing directory or file is fatal. *)
Definition read {A} (name : string) (file : CheckpointDir -> option A)
  : M state A :=
  files <- gets fs ;;
  match files !! name with
  | None => raise FileNotFoundError
  | Some d => match file d with
              | None => raise FileNotFoundError
              | Some x => ret x
              end
  end.

Definition listdir : M state (list string) :=
  gets (fun s => (map_to_list (fs s)).*1).

Definition rmtree (name : string) : M state unit :=
  files <- gets fs ;;
  match files !! name with
  | None => raise FileNotFoundError
  | Some _ => modify (on_fs (delete name))
  end.

(** The last part of [save_checkpoint], from [# Prune old checkpoints]. *)
Definition prune : M state unit :=
  names <- listdir ;;
  existing_checkpoints <- lift (map_res int names) ;;
  n_keep <- attr (fun c => n_checkpoints_to_keep (config c)) ;;
  if Z.of_nat (length existing_checkpoints) >? n_keep then
    let existing_checkpoints := merge_sort Z.le existing_checkpoints in
    for_each (slice existing_checkpoints None (Some (- n_keep)))
             (fun checkpoint_name => rmtree (str checkpoint_name))
  else ret tt.

(** [save_checkpoint] up to [# Prune old checkpoints]; the result is the
    name of the new directory.  [open(..., "wt")] empties
    [ppo_agent.json] before [self.wandb_run.id] is read. *)
Definition write_checkpoint : M state string :=
  ns <- time_ns ;;
  let checkpoint_save_folder := str ns in
  makedirs_exist_ok checkpoint_save_folder ;;;
  lc <- with_learner learner_save_checkpoint ;;
  write checkpoint_save_folder (set_ppo_learner (Some lc)) ;;;
  bc <- with_experience_buffer buffer_save_checkpoint ;;
  write checkpoint_save_folder (set_experience_buffer_folder (Some bc)) ;;;
  mc <- with_metrics_logger metrics_save_checkpoint ;;
  write checkpoint_save_folder (set_metrics_logger_folder (Some mc)) ;;;
  trajectories <- attr current_trajectories ;;
  write checkpoint_save_folder
        (set_current_trajectories_pkl (Some trajectories)) ;;;
  metrics <- attr iteration_state_metrics ;;
  write checkpoint_save_folder
        (set_iteration_state_metrics_pkl (Some metrics)) ;;;
  write checkpoint_save_folder (set_ppo_agent_json None) ;;;
  c <- gets self ;;
  run_id <- (if log_to_wandb (config c) then
               match wandb_run c with
               | None => raise AttributeError
               | Some run => ret (Some (id run))
               end
             else ret None) ;;
  write checkpoint_save_folder
        (set_ppo_agent_json
           (Some (mkJson (cur_iteration c) (iteration_timesteps c)
                    (cumulative_timesteps c) (iteration_start_time c)
                    (timestep_collection_start_time c) run_id))) ;;;
  ret checkpoint_save_folder.

Definition save_checkpoint : M state unit :=
  write_checkpoint ;;;
  prune.

(** [_load_from_checkpoint]; the load folder is a directory of the
    modelled save folder. *)
Definition _load_from_checkpoint : M state unit :=
  folder <- attr (fun c => checkpoint_load_folder (config c)) ;;
  match folder with
  | None => raise TypeError
  | Some folder =>
      current_trajectories <- read folder current_trajectories_pkl ;;
      iteration_state_metrics <- read folder iteration_state_metrics_pkl ;;
      st <- read folder ppo_agent_json ;;
      assign (set_current_trajectories current_trajectories) ;;;
      assign (set_iteration_state_metrics iteration_state_metrics) ;;;
      assign (set_cur_iteration (json_cur_iteration st)) ;;;
      assign (set_iteration_timesteps (json_iteration_timesteps st)) ;;;
      assign (set_cumulative_timesteps (json_cumulative_timesteps st)) ;;;
      assign (set_iteration_start_time (json_iteration_start_time st)) ;;;
      assign (set_timestep_collection_start_time
                (json_timestep_collection_start_time st)) ;;;
      assign (set_wandb_run_id (json_wandb_run_id st))
  end.

(** The body of the loop of [process_timestep_data]; the locals are
    [timesteps_added] and [state_metrics].  The fourth component of an
    item is not read and is left out. *)
Definition process_env (acc : Z * list StateMetrics)
    (item : string * (list Step * list LogProb * StateMetrics))
  : M state (Z * list StateMetrics) :=
  let '(timesteps_added, state_metrics) := acc in
  let '(env_id, (env_timesteps, env_log_probs, env_state_metrics)) := item in
  std <- attr obs_standardizer ;;
  env_timesteps <- (match std with
                    | Some _ => standardize_timestep_observations env_timesteps
                    | None => ret env_timesteps
                    end) ;;
  timesteps_added <-
    (match env_timesteps with
     | [] => ret timesteps_added
     | _ :: _ =>
         trackers <- attr current_env_trajectories ;;
         (match odict_get env_id trackers with
          | None =>
              assign (set_current_env_trajectories
                        (odict_set env_id
                           (EnvTrajectories.init
                              (Timestep.agent_id <$> env_timesteps))
                           trackers))
          | Some _ => ret tt
          end) ;;;
         n <- with_env_trajectories env_id
                (EnvTrajectories.add_steps env_timesteps env_log_probs) ;;
         ret (timesteps_added + Z.of_nat n)
     end) ;;
  ret (timesteps_added, state_metrics ++ [env_state_metrics]).

Definition process_timestep_data
    (timestep_data : list (string * (list Step * list LogProb * StateMetrics)))
  : M state unit :=
  locals <- for_fold timestep_data (0, []) process_env ;;
  let '(timesteps_added, state_metrics) := locals in
  assign (fun c => set_iteration_timesteps
                     (iteration_timesteps c + timesteps_added) c) ;;;
  assign (fun c => set_cumulative_timesteps
                     (cumulative_timesteps c + timesteps_added) c) ;;;
  assign (fun c => set_iteration_state_metrics
                     (iteration_state_metrics c ++ state_metrics) c) ;;;
  c <- gets self ;;
  (if iteration_timesteps c >=? timesteps_per_iteration (config c) then
     now <- perf_counter ;;
     assign (set_timestep_collection_end_time (Some now)) ;;;
     _learn
   else ret tt) ;;;
  c <- gets self ;;
  if ts_since_last_save c >=? save_every_ts (config c) then
    save_checkpoint ;;;
    assign (set_ts_since_last_save 0)
  else ret tt.

(** The body of the loop of [choose_env_actions]; the local is
    [env_action_responses]. *)
Definition choose_env_action (env_action_responses : list (string * EnvActionResponse))
    (env_id : string) : M state (list (string * EnvActionResponse)) :=
  trackers <- attr current_env_trajectories ;;
  match odict_get env_id trackers with
  | None => ret (odict_set env_id STEP_RESPONSE env_action_responses)
  | Some tracker =>
      let done := all (map_to_list (EnvTrajectories.dones tracker)).*2 in
      if done then
        let env_action_responses :=
          odict_set env_id RESET_RESPONSE env_action_responses in
        assign (set_current_env_trajectories (odict_pop env_id trackers)) ;;;
        trajs <- lift (EnvTrajectories.get_trajectories tensor0 tracker) ;;
        extend_current_trajectories trajs ;;;
        ret env_action_responses
      else ret (odict_set env_id STEP_RESPONSE env_action_responses)
  end.

(** [state_info] is given by its keys. *)
Definition choose_env_actions (state_info : list string)
  : M state (list (string * EnvActionResponse)) :=
  for_fold state_info [] choose_env_action.

End Def.
End PPOAgentController.

(** * Vocabulary of the properties *)

Module TrackerSpec.
Import EnvTrajectories.
Section Def.
Context {AgentID : Type} `{Countable AgentID}.
Context {Obs Action Reward LogProb : Type}.

Abbreviation Step := (Timestep.t AgentID Obs Action Reward).
Abbreviation Tracker := (EnvTrajectories.t AgentID Obs Action Reward LogProb).

(** What the tracker holds for one agent, the [done] flag apart. *)
Definition agent_view (a : AgentID) (s : Tracker) :=
  (obs_lists s !! a, action_lists s !! a, reward_lists s !! a,
   final_obs s !! a, truncateds s !! a).

(** The six dicts have the agents of [agent_ids] as their keys. *)
Definition wf (s : Tracker) : Prop :=
  let ids : gset AgentID := list_to_set (agent_ids s) in
  dom (obs_lists s) = ids /\ dom (action_lists s) = ids /\
  dom (reward_lists s) = ids /\ dom (final_obs s) = ids /\
  dom (dones s) = ids /\ dom (truncateds s) = ids.

(** The three sequences of every agent are equally long. *)
Definition aligned (s : Tracker) : Prop :=
  forall a lo la lr,
    obs_lists s !! a = Some lo -> action_lists s !! a = Some la ->
    reward_lists s !! a = Some lr ->
    length lo = length la /\ length la = length lr.

(** The states of a tracker object: built by [__init__], then changed by
    calls of [add_steps] and [finalize], returning or raising. *)
Inductive reachable : Tracker -> Prop :=
| reachable_init ids : reachable (init ids)
| reachable_add_steps s timesteps log_probs :
    reachable s -> reachable (add_steps timesteps log_probs s).2
| reachable_finalize s :
    reachable s -> reachable (finalize s).2.



(** The number of timesteps of a run that are taken for agent [a]. *)
Fixpoint accepted_steps (a : AgentID) (timesteps : list Step) (s : Tracker)
  : nat :=
  match timesteps with
  | [] => 0
  | ts :: rest =>
      ((if decide (Timestep.agent_id ts = a)
        then (if dones s !! a is Some false then 1 else 0) else 0)
       + accepted_steps a rest (add_step 0%nat ts s).2)%nat
  end.

End Def.
End TrackerSpec.

(** ** Concrete runs, used to exercise the properties

    One environment with agents [A] and [B]: a first call with a step of
    each, a second in which [A] terminates, a third with a last, truncated
    step of [B] only. *)

Module Scenario.
Import EnvTrajectories TrackerSpec.
Open Scope string_scope.

Definition step (a : string) (o : Z) (terminated truncated : bool)
  : Timestep.t string Z Z Z :=
  Timestep.mk a o (o + 1) (10 * o) (100 * o) terminated truncated.

Definition call1 := ([step "A" 1 false false; step "B" 1 false false], [11; 12]).
Definition call2 := ([step "A" 2 true false; step "B" 2 false false], [21; 22]).
Definition call3 := ([step "B" 3 false true], [31; 32]).

Definition tracker0 : EnvTrajectories.t string Z Z Z Z := init ["A"; "B"].
Definition tracker1 := (add_steps call1.1 call1.2 tracker0).2.
Definition tracker2 := (add_steps call2.1 call2.2 tracker1).2.
Definition tracker3 := (add_steps call3.1 call3.2 tracker2).2.

(** A later call with a step of the finished [A] and one of [B]. *)
Definition late_call :=
  ([step "A" 7 false true; step "B" 3 false false], [31; 32]).

End Scenario.

(** ** Vocabulary of the value backfill *)

Module BackfillSpec.
Section Def.
Context {AgentID Obs Action Reward LogProb Value : Type}.

Abbreviation Traj := (Trajectory.t AgentID Obs Action Reward LogProb Value).

(** The entries of the critic request that belong to one trajectory: one
    per observation and one for [final_obs]. *)
Definition request_len (tr : Traj) : nat := S (length (Trajectory.obs_list tr)).
Definition request_agent_ids (tr : Traj) : list AgentID :=
  replicate (request_len tr) (Trajectory.agent_id tr).
Definition request_obs (tr : Traj) : list (option Obs) :=
  (Some <$> Trajectory.obs_list tr) ++ [Trajectory.final_obs tr].

(** Where the entries of trajectory [i] start in the flattened request. *)
Definition start_of (trajs : list Traj) (i : nat) : nat :=
  sum_list (request_len <$> take i trajs).

(** The ranges of a list of trajectories laid out from [start] on. *)
Fixpoint ranges_from (start : nat) (trajs : list Traj) : list (Z * Z) :=
  match trajs with
  | [] => []
  | tr :: rest =>
      (Z.of_nat start, Z.of_nat (start + request_len tr))
        :: ranges_from (start + request_len tr) rest
  end.

(** A trajectory with the values of its range written into it. *)
Definition backfilled1 (result : list Value) (start : nat) (tr : Traj) : Traj :=
  let n := length (Trajectory.obs_list tr) in
  Trajectory.mk (Trajectory.agent_id tr) (Trajectory.obs_list tr)
    (Trajectory.action_list tr) (Trajectory.log_probs tr)
    (Trajectory.reward_list tr)
    (Some (take n (drop start result)))
    (Trajectory.final_obs tr)
    (default (Trajectory.final_val_pred tr) (result !! (start + n)%nat))
    (Trajectory.truncated tr).

Fixpoint backfilled (result : list Value) (start : nat) (trajs : list Traj)
  : list Traj :=
  match trajs with
  | [] => []
  | tr :: rest =>
      backfilled1 result start tr
        :: backfilled result (start + request_len tr) rest
  end.

End Def.
End BackfillSpec.

(** ** Vocabulary of the learning step *)

Module ControllerSpec.
Import PPOAgentController.
Section Def.
Context {AgentID : Type} `{Countable AgentID}.
Context {Obs Action Reward LogProb Value StateMetrics Time : Type}.
Context {Learner ExperienceBuffer MetricsLogger ObsStandardizer : Type}.
Context {LearnerCheckpoint BufferCheckpoint MetricsCheckpoint : Type}.

Abbreviation State := (state (AgentID:=AgentID) (Obs:=Obs) (Action:=Action)
            (Reward:=Reward) (LogProb:=LogProb) (Value:=Value)
            (StateMetrics:=StateMetrics) (Time:=Time) (Learner:=Learner)
            (ExperienceBuffer:=ExperienceBuffer) (MetricsLogger:=MetricsLogger)
            (ObsStandardizer:=ObsStandardizer)
            (LearnerCheckpoint:=LearnerCheckpoint)
            (BufferCheckpoint:=BufferCheckpoint)
            (MetricsCheckpoint:=MetricsCheckpoint)).

(** The bookkeeping of the controller: all of its state but the trackers,
    the completed trajectories and what the collaborators hold; of the
    metrics logger, whether there is one. *)
Definition bookkeeping (s : State) :=
  (config (self s), cur_iteration (self s), iteration_timesteps (self s),
   cumulative_timesteps (self s), ts_since_last_save (self s),
   (iteration_start_time (self s), timestep_collection_start_time (self s),
    timestep_collection_end_time (self s)),
   (wandb_run (self s), wandb_run_id (self s),
    iteration_state_metrics (self s)),
   (fs s, perf_counter_calls s, time_ns_calls s),
   bool_decide (is_Some (metrics_logger (self s)))).

(** A computation that leaves the bookkeeping alone, returning or
    raising. *)
Definition keeps {A} (m : M State A) : Prop :=
  forall s, bookkeeping (m s).2 = bookkeeping s.

End Def.
End ControllerSpec.

(** ** Vocabulary of the checkpoint directories *)

Module CheckpointSpec.

(** The token of a directory name that [str] writes, the only names that
    [save_checkpoint] makes. *)
Definition token (name : string) : option Z :=
  match int name with
  | Ok z => if decide (str z = name) then Some z else None
  | Raise _ => None
  end.

(** A save folder that holds checkpoint directories only. *)
Definition checkpoints_only {D} (files : gmap string D) : Prop :=
  forall name, name ∈ dom files -> is_Some (token name).

End CheckpointSpec.

(** ** A concrete controller, used to exercise the properties

    The collaborators hold no state and never fail, the critic labels
    every entry of its request with the offset of the entry, and the n-th
    reading of either clock is [n]. *)

Module Demo.
Import PPOAgentController.
Open Scope string_scope.

#[global] Instance externals
  : Externals (AgentID:=string) (Obs:=Z) (Action:=Z) (Reward:=Z)
      (LogProb:=Z) (Value:=Z) (StateMetrics:=Z) (Time:=Z) (Learner:=unit)
      (ExperienceBuffer:=unit) (MetricsLogger:=unit) (ObsStandardizer:=unit)
      (PPOData:=unit) (TrajectoryProcessorData:=unit) (AgentMetrics:=unit)
      (CollectedMetrics:=unit) (LearnerCheckpoint:=unit)
      (BufferCheckpoint:=unit) (MetricsCheckpoint:=unit) := {|
  tensor0 := 0;
  time_sub := Z.sub;
  perf_counter_at := Z.of_nat;
  time_ns_at := Z.of_nat;
  critic ids _ := fun l => (Ok (Z.of_nat <$> seq 0 (length ids)), l);
  learn := ret tt;
  learner_save_checkpoint := ret tt;
  submit_experience _ := ret tt;
  buffer_save_checkpoint := ret tt;
  collect_agent_metrics _ := ret tt;
  collect_state_metrics _ := ret tt;
  report_metrics _ _ _ _ := ret tt;
  metrics_save_checkpoint := ret tt;
  standardize _ obs := ret obs
|}.

Abbreviation State :=
  (state (AgentID:=string) (Obs:=Z) (Action:=Z) (Reward:=Z) (LogProb:=Z)
     (Value:=Z) (StateMetrics:=Z) (Time:=Z) (Learner:=unit)
     (ExperienceBuffer:=unit) (MetricsLogger:=unit) (ObsStandardizer:=unit)
     (LearnerCheckpoint:=unit) (BufferCheckpoint:=unit)
     (MetricsCheckpoint:=unit)).
Abbreviation Dir :=
  (CheckpointDir (AgentID:=string) (Obs:=Z) (Action:=Z) (Reward:=Z)
     (LogProb:=Z) (Value:=Z) (StateMetrics:=Z) (Time:=Z)
     (LearnerCheckpoint:=unit) (BufferCheckpoint:=unit)
     (MetricsCheckpoint:=unit)).

(** The defaults of [PPOAgentControllerConfigModel]. *)
Definition config0 : Config := mkConfig 50000 1000000 None 5 false "ppo".

(** A controller just made, with a metrics logger, and one without. *)
Definition fresh : State := init config0 tt tt (Some tt) None ∅ 0 0.
Definition fresh_without_logger : State := init config0 tt tt None None ∅ 0 0.

(** Two environments run the scenario; the second also gets its third
    call, after which both of its agents are done. *)
Definition delivery (env_id : string) (call : list (Timestep.t string Z Z Z) * list Z)
  : string * (list (Timestep.t string Z Z Z) * list Z * Z) :=
  (env_id, (call.1, call.2, 0)).

Definition collecting : State :=
  ((process_timestep_data
     [delivery "env0" Scenario.call1; delivery "env1" Scenario.call1] ;;;
   process_timestep_data
     [delivery "env0" Scenario.call2; delivery "env1" Scenario.call2] ;;;
   process_timestep_data [delivery "env1" Scenario.call3]) fresh).2.

(** Then every environment asks what to do. *)
Definition decided : State :=
  (choose_env_actions ["env0"; "env1"; "env2"] collecting).2.

(** What [process_timestep_data] does first when the iteration is full:
    it stamps the end of the collection; [_learn] comes next. *)
Definition before_learning : State :=
  on_self (set_timestep_collection_end_time (Some 3)) decided.

(** The first two deliveries to a controller that learns from five
    timesteps on. *)
Definition eager_config : Config := mkConfig 5 1000000 None 5 false "ppo".
Definition learned : State :=
  ((process_timestep_data
      [delivery "env0" Scenario.call1; delivery "env1" Scenario.call1] ;;;
    process_timestep_data
      [delivery "env0" Scenario.call2; delivery "env1" Scenario.call2])
     (init eager_config tt tt (Some tt) None ∅ 0 0)).2.

(** Three finished trajectories with 3, 1 and 5 observations. *)
Definition traj (a : string) (n : nat) : Trajectory.t string Z Z Z Z Z :=
  Trajectory.mk a (Z.of_nat <$> seq 0 n) (Z.of_nat <$> seq 0 n)
    (Z.of_nat <$> seq 0 n) (Z.of_nat <$> seq 0 n) None (Some (Z.of_nat n))
    0 false.

Definition three_trajectories : State :=
  on_self (set_current_trajectories [traj "A" 3; traj "B" 1; traj "A" 5])
          fresh.

(** A save folder with the checkpoints [1] to [n], and a controller whose
    next checkpoint gets the token [S n]. *)
Definition checkpoints (n : nat) : gmap string Dir :=
  list_to_map ((fun k => (str (Z.of_nat k), empty_dir)) <$> seq 1 n).

Definition with_checkpoints (n_keep : Z) (n : nat) : State :=
  init (mkConfig 50000 1000000 None n_keep false "ppo") tt tt (Some tt) None
       (checkpoints n) 0 (S n).

(** A second controller, made to resume from directory [name] of the
    save folder that [s] left. *)
Definition resuming (name : string) (s : State) : State :=
  init (mkConfig 50000 1000000 (Some name) 5 false "ppo") tt tt (Some tt)
       None (fs s) (perf_counter_calls s) (time_ns_calls s).

End Demo.

(** ** Vocabulary of the invariants *)

Module TrackerInvariant.
Import EnvTrajectories.
Section Def.
Context {AgentID : Type} `{Countable AgentID}.
Context {Obs Action Reward LogProb : Type}.

Abbreviation Tracker := (EnvTrajectories.t AgentID Obs Action Reward LogProb).

(** What the tracker holds for agent [a] fits together: the three
    sequences are equally long, there is a last observation exactly when
    there is a step, and only a done agent is truncated. *)
Definition coherent (a : AgentID) (s : Tracker) : Prop :=
  exists lo la lr fo d tr,
    obs_lists s !! a = Some lo /\ action_lists s !! a = Some la /\
    reward_lists s !! a = Some lr /\ final_obs s !! a = Some fo /\
    dones s !! a = Some d /\ truncateds s !! a = Some tr /\
    length lo = length la /\ length la = length lr /\
    (fo = None <-> lo = []) /\ (tr = true -> d = true).

(** The same, for the agents that have entries, entry by entry. *)
Definition settled (s : Tracker) : Prop :=
  (forall a lo fo, obs_lists s !! a = Some lo -> final_obs s !! a = Some fo ->
     (fo = None <-> lo = [])) /\
  (forall a d, dones s !! a = Some d -> truncateds s !! a = Some true ->
     d = true).

End Def.
End TrackerInvariant.

(** ** Vocabulary of the checkpoint folder and of what a save leaves alone *)

Module FolderSpec.
Open Scope string_scope.

(** A name with an ASCII letter: no decimal literal, whatever else is in
    it, so that [int(name)] raises [ValueError]. *)
Definition is_letter (c : Ascii.ascii) : bool :=
  let n := Ascii.nat_of_ascii c in
  ((65 <=? n)%nat && (n <=? 90)%nat) || ((97 <=? n)%nat && (n <=? 122)%nat).

Fixpoint has_letter (name : string) : bool :=
  match name with
  | EmptyString => false
  | String c rest => is_letter c || has_letter rest
  end.

End FolderSpec.

Module FrameSpec.
Import PPOAgentController.
Section Def.
Context {AgentID : Type} `{Countable AgentID}.
Context {Obs Action Reward LogProb Value StateMetrics Time : Type}.
Context {Learner ExperienceBuffer MetricsLogger ObsStandardizer : Type}.
Context {LearnerCheckpoint BufferCheckpoint MetricsCheckpoint : Type}.

Abbreviation State := (state (AgentID:=AgentID) (Obs:=Obs) (Action:=Action)
            (Reward:=Reward) (LogProb:=LogProb) (Value:=Value)
            (StateMetrics:=StateMetrics) (Time:=Time) (Learner:=Learner)
            (ExperienceBuffer:=ExperienceBuffer) (MetricsLogger:=MetricsLogger)
            (ObsStandardizer:=ObsStandardizer)
            (LearnerCheckpoint:=LearnerCheckpoint)
            (BufferCheckpoint:=BufferCheckpoint)
            (MetricsCheckpoint:=MetricsCheckpoint)).

(** The attributes of the controller that are its own: all but the
    learner, the experience buffer and the state of the metrics logger;
    with them, how often the performance counter was read. *)
Definition own_attributes (s : State) :=
  (config (self s), obs_standardizer (self s),
   current_env_trajectories (self s), current_trajectories (self s),
   iteration_state_metrics (self s),
   (cur_iteration (self s), iteration_timesteps (self s),
    cumulative_timesteps (self s), ts_since_last_save (self s)),
   (iteration_start_time (self s), timestep_collection_start_time (self s),
    timestep_collection_end_time (self s)),
   (wandb_run (self s), wandb_run_id (self s)),
   bool_decide (is_Some (metrics_logger (self s))),
   perf_counter_calls s).

(** The directory that [save_checkpoint] writes for controller [s], given
    what the three collaborators saved and the run id. *)
Definition written (s : State) (lc : LearnerCheckpoint)
    (bc : BufferCheckpoint) (mc : MetricsCheckpoint)
    (run_id : option string)
  : CheckpointDir (AgentID:=AgentID) (Obs:=Obs) (Action:=Action)
      (Reward:=Reward) (LogProb:=LogProb) (Value:=Value)
      (StateMetrics:=StateMetrics) (Time:=Time) :=
  mkDir (Some lc) (Some bc) (Some mc)
    (Some (current_trajectories (self s)))
    (Some (iteration_state_metrics (self s)))
    (Some (mkJson (cur_iteration (self s)) (iteration_timesteps (self s))
             (cumulative_timesteps (self s)) (iteration_start_time (self s))
             (timestep_collection_start_time (self s)) run_id)).

(** A computation under which a view of the state stays what it was,
    whether it returns or raises. *)
Definition preserves {V A} (view : State -> V) (m : M State A) : Prop :=
  forall s, view (m s).2 = view s.

End Def.
End FrameSpec.

(** ** Vocabulary of the deliveries and of the decisions *)

Module DeliverySpec.
Import PPOAgentController.
Section Def.
Context {AgentID : Type} `{Countable AgentID}.
Context {Obs Action Reward LogProb Value : Type}.

Abbreviation Step := (Timestep.t AgentID Obs Action Reward).
Abbreviation Traj := (Trajectory.t AgentID Obs Action Reward LogProb Value).
Abbreviation Tracker := (EnvTrajectories.t AgentID Obs Action Reward LogProb).

(** Timestep [i] with the entries [2i] and [2i+1] of a list of
    observations as its [obs] and [next_obs], as far as the list goes. *)
Definition restamped (out : list Obs) (i : nat) (ts : Step) : Step :=
  let ts := match out !! (2 * i)%nat with
            | Some o => set_obs o ts
            | None => ts
            end in
  match out !! (2 * i + 1)%nat with
  | Some o => set_next_obs o ts
  | None => ts
  end.

(** [all(tracker.dones.values())] *)
Definition all_done (tracker : Tracker) : bool :=
  all (map_to_list (EnvTrajectories.dones tracker)).*2.

(** An environment is told to reset when it has a tracker whose agents
    are all done. *)
Definition resets (trackers : list (string * Tracker)) (env_id : string)
  : bool :=
  match odict_get env_id trackers with
  | Some tracker => all_done tracker
  | None => false
  end.

Definition answer (trackers : list (string * Tracker)) (env_id : string)
  : EnvActionResponse :=
  if resets trackers env_id then RESET_RESPONSE else STEP_RESPONSE.

(** The trackers that a query of [state_info] closes, and those it
    leaves, in their order. *)
Definition closed_by (state_info : list string) (item : string * Tracker)
  : Prop :=
  item.1 ∈ state_info /\ all_done item.2 = true.

#[global] Instance closed_by_dec state_info item :
  Decision (closed_by state_info item).
Proof. unfold closed_by. apply _. Defined.

Definition still_open (state_info : list string)
    (trackers : list (string * Tracker)) : list (string * Tracker) :=
  filter (fun item => ~ closed_by state_info item) trackers.

(** The trajectories of the trackers that a query of [state_info]
    closes, in the order of the query. *)
Definition released (tensor0 : Value) (trackers : list (string * Tracker))
    (state_info : list string) : list Traj :=
  state_info ≫= (fun env_id =>
    match odict_get env_id trackers with
    | Some tracker =>
        if all_done tracker
        then match EnvTrajectories.get_trajectories tensor0 tracker with
             | Ok trajs => trajs
             | Raise _ => []
             end
        else []
    | None => []
    end).






End Def.
End DeliverySpec.

Module QuerySpec.
Import PPOAgentController DeliverySpec.
Section Def.
Context {AgentID : Type} `{Countable AgentID}.
Context {Obs Action Reward LogProb Value StateMetrics Time : Type}.
Context {Learner ExperienceBuffer MetricsLogger ObsStandardizer : Type}.
Context {PPOData TrajectoryProcessorData AgentMetrics CollectedMetrics : Type}.
Context {LearnerCheckpoint BufferCheckpoint MetricsCheckpoint : Type}.
Context `{!Externals (AgentID:=AgentID) (Obs:=Obs) (Action:=Action)
            (Reward:=Reward) (LogProb:=LogProb) (Value:=Value)
            (StateMetrics:=StateMetrics) (Time:=Time) (Learner:=Learner)
            (ExperienceBuffer:=ExperienceBuffer) (MetricsLogger:=MetricsLogger)
            (ObsStandardizer:=ObsStandardizer) (PPOData:=PPOData)
            (TrajectoryProcessorData:=TrajectoryProcessorData)
            (AgentMetrics:=AgentMetrics) (CollectedMetrics:=CollectedMetrics)
            (LearnerCheckpoint:=LearnerCheckpoint)
            (BufferCheckpoint:=BufferCheckpoint)
            (MetricsCheckpoint:=MetricsCheckpoint)}.

Abbreviation State := (state (AgentID:=AgentID) (Obs:=Obs) (Action:=Action)
            (Reward:=Reward) (LogProb:=LogProb) (Value:=Value)
            (StateMetrics:=StateMetrics) (Time:=Time) (Learner:=Learner)
            (ExperienceBuffer:=ExperienceBuffer) (MetricsLogger:=MetricsLogger)
            (ObsStandardizer:=ObsStandardizer)
            (LearnerCheckpoint:=LearnerCheckpoint)
            (BufferCheckpoint:=BufferCheckpoint)
            (MetricsCheckpoint:=MetricsCheckpoint)).

(** The state after a query of [state_info]: the trackers it closes are
    gone, their trajectories are at the end of the completed list. *)
Definition queried (state_info : list string) (s : State) : State :=
  let trackers := current_env_trajectories (self s) in
  on_self (fun c =>
    set_current_trajectories
      (current_trajectories c ++ released tensor0 trackers state_info)
      (set_current_env_trajectories (still_open state_info trackers) c)) s.

End Def.
End QuerySpec.

(** ** Vocabulary of the accounting of timesteps *)

Module AccountSpec.
Import PPOAgentController.
Section Def.
Context {AgentID : Type} `{Countable AgentID}.
Context {Obs Action Reward LogProb Value StateMetrics Time : Type}.
Context {Learner ExperienceBuffer MetricsLogger ObsStandardizer : Type}.
Context {PPOData TrajectoryProcessorData AgentMetrics CollectedMetrics : Type}.
Context {LearnerCheckpoint BufferCheckpoint MetricsCheckpoint : Type}.
Context `{!Externals (AgentID:=AgentID) (Obs:=Obs) (Action:=Action)
            (Reward:=Reward) (LogProb:=LogProb) (Value:=Value)
            (StateMetrics:=StateMetrics) (Time:=Time) (Learner:=Learner)
            (ExperienceBuffer:=ExperienceBuffer) (MetricsLogger:=MetricsLogger)
            (ObsStandardizer:=ObsStandardizer) (PPOData:=PPOData)
            (TrajectoryProcessorData:=TrajectoryProcessorData)
            (AgentMetrics:=AgentMetrics) (CollectedMetrics:=CollectedMetrics)
            (LearnerCheckpoint:=LearnerCheckpoint)
            (BufferCheckpoint:=BufferCheckpoint)
            (MetricsCheckpoint:=MetricsCheckpoint)}.

Abbreviation State := (state (AgentID:=AgentID) (Obs:=Obs) (Action:=Action)
            (Reward:=Reward) (LogProb:=LogProb) (Value:=Value)
            (StateMetrics:=StateMetrics) (Time:=Time) (Learner:=Learner)
            (ExperienceBuffer:=ExperienceBuffer) (MetricsLogger:=MetricsLogger)
            (ObsStandardizer:=ObsStandardizer)
            (LearnerCheckpoint:=LearnerCheckpoint)
            (BufferCheckpoint:=BufferCheckpoint)
            (MetricsCheckpoint:=MetricsCheckpoint)).

Abbreviation Tracker := (EnvTrajectories.t AgentID Obs Action Reward LogProb).
Abbreviation Traj := (Trajectory.t AgentID Obs Action Reward LogProb Value).

(** The timesteps that a tracker holds: the observations of its
    agents. *)
Definition steps_of (tracker : Tracker) (a : AgentID) : nat :=
  length (default [] (EnvTrajectories.obs_lists tracker !! a)).

Definition total_steps (tracker : Tracker) : nat :=
  sum_list (steps_of tracker <$> EnvTrajectories.agent_ids tracker).

(** A tracker made for distinct agents, with their entries in its six
    dicts. *)
Definition sound (tracker : Tracker) : Prop :=
  TrackerSpec.wf tracker /\ NoDup (EnvTrajectories.agent_ids tracker).

(** The timesteps that the controller holds, in open trackers and in
    completed trajectories. *)
Definition held_open (trackers : list (string * Tracker)) : nat :=
  sum_list ((fun item => total_steps item.2) <$> trackers).

Definition held_completed (trajectories : list Traj) : nat :=
  sum_list ((fun tr => length (Trajectory.obs_list tr)) <$> trajectories).

Definition held (s : State) : Z :=
  Z.of_nat (held_open (current_env_trajectories (self s))
            + held_completed (current_trajectories (self s))).

(** Every timestep counted for the iteration is held, once. *)
Definition accounted (s : State) : Prop :=
  NoDup (current_env_trajectories (self s)).*1 /\
  Forall (fun item => sound item.2) (current_env_trajectories (self s)) /\
  iteration_timesteps (self s) = held s.

End Def.
End AccountSpec.

(** ** More concrete controllers *)

Module Cases.
Import PPOAgentController.
Open Scope string_scope.

(** A save folder that also holds a directory [latest]. *)
Definition with_stray : Demo.State :=
  init Demo.config0 tt tt (Some tt) None
       (<["latest" := empty_dir]> (Demo.checkpoints 2)) 0 3.

(** A controller that logs to wandb, with its run, and two completed
    trajectories. *)
Definition logging : Demo.State :=
  mkState
    (mk (mkConfig 50000 1000000 None 5 true "ppo") tt tt (Some tt) None []
        (current_trajectories (self Demo.decided)) [] 0 9 9 0 0 None 0
        (Some (mkWandbRun "run-7")) None)
    ∅ 1 0.

(** A controller with an observation standardizer. *)
Definition standardizing : Demo.State :=
  init Demo.config0 tt tt (Some tt) (Some tt) ∅ 0 0.

(** The collaborators of [Demo], but for a critic that answers with one
    value too few. *)
Definition short_externals
  : Externals (AgentID:=string) (Obs:=Z) (Action:=Z) (Reward:=Z)
      (LogProb:=Z) (Value:=Z) (StateMetrics:=Z) (Time:=Z) (Learner:=unit)
      (ExperienceBuffer:=unit) (MetricsLogger:=unit) (ObsStandardizer:=unit)
      (PPOData:=unit) (TrajectoryProcessorData:=unit) (AgentMetrics:=unit)
      (CollectedMetrics:=unit) (LearnerCheckpoint:=unit)
      (BufferCheckpoint:=unit) (MetricsCheckpoint:=unit) := {|
  tensor0 := 0;
  time_sub := Z.sub;
  perf_counter_at := Z.of_nat;
  time_ns_at := Z.of_nat;
  critic ids _ := fun l => (Ok (Z.of_nat <$> seq 0 (length ids - 1)), l);
  learn := ret tt;
  learner_save_checkpoint := ret tt;
  submit_experience _ := ret tt;
  buffer_save_checkpoint := ret tt;
  collect_agent_metrics _ := ret tt;
  collect_state_metrics _ := ret tt;
  report_metrics _ _ _ _ := ret tt;
  metrics_save_checkpoint := ret tt;
  standardize _ obs := ret obs
|}.

(** A controller that learns from five timesteps on, after a first
    delivery of four, and the delivery that fills the iteration. *)
Definition first_delivery :=
  [Demo.delivery "env0" Scenario.call1; Demo.delivery "env1" Scenario.call1].

End Cases.

(** * Properties *)

(** ** The trajectory tracker *)

Module TrackerFacts.
Import EnvTrajectories TrackerSpec.
Section Facts.
Context {AgentID : Type} `{Countable AgentID}.
Context {Obs Action Reward LogProb : Type}.

Abbreviation Step := (Timestep.t AgentID Obs Action Reward).
Abbreviation Tracker := (EnvTrajectories.t AgentID Obs Action Reward LogProb).

Ltac run_step :=
  unfold add_step, append_obs, append_action, append_reward, finalize_agent,
    bind, getitem, modify, ret, gets; simpl.

Lemma add_step_done n (ts : Step) (s : Tracker) :
  dones s !! Timestep.agent_id ts = Some true -> add_step n ts s = (Ok n, s).
Proof. intros Hd. run_step. by rewrite Hd. Qed.

Lemma add_step_other a n (ts : Step) (s : Tracker) :
  Timestep.agent_id ts <> a ->
  agent_view a (add_step n ts s).2 = agent_view a s /\
  dones (add_step n ts s).2 !! a = dones s !! a.
Proof.
  intros Hne. unfold agent_view. run_step.
  repeat (case_match; simplify_eq/=; try done);
    cbn; rewrite ?lookup_insert_ne by done; done.
Qed.

Lemma add_step_frame n (ts : Step) (s : Tracker) :
  agent_ids (add_step n ts s).2 = agent_ids s /\
  log_probs_list (add_step n ts s).2 = log_probs_list s.
Proof. run_step. repeat (case_match; simplify_eq/=; try done). Qed.

Lemma add_step_count n m (ts : Step) (s s' : Tracker) :
  add_step n ts s = (Ok m, s') -> (n <= m <= n + 1)%nat.
Proof.
  run_step. repeat (case_match; simplify_eq/=; try done);
    intros; simplify_eq; lia.
Qed.

Lemma wf_tracked (s : Tracker) a :
  wf s -> a ∈ agent_ids s ->
  is_Some (obs_lists s !! a) /\ is_Some (action_lists s !! a) /\
  is_Some (reward_lists s !! a) /\ is_Some (final_obs s !! a) /\
  is_Some (dones s !! a) /\ is_Some (truncateds s !! a).
Proof.
  intros (H1 & H2 & H3 & H4 & H5 & H6) Ha.
  rewrite <- !elem_of_dom, H1, H2, H3, H4, H5, H6.
  rewrite elem_of_list_to_set. done.
Qed.

Lemma wf_key (s : Tracker) a b :
  wf s -> dones s !! a = Some b -> a ∈ agent_ids s.
Proof.
  intros (_ & _ & _ & _ & H5 & _) Hd. apply elem_of_dom_2 in Hd.
  rewrite H5 in Hd. by apply elem_of_list_to_set in Hd.
Qed.

Lemma add_step_wf n (ts : Step) (s : Tracker) :
  wf s -> wf (add_step n ts s).2.
Proof.
  intros Hwf.
  destruct (dones s !! Timestep.agent_id ts) as [b|] eqn:Hd.
  2:{ run_step. by rewrite Hd. }
  pose proof (wf_key _ _ _ Hwf Hd) as Hin.
  destruct (wf_tracked _ _ Hwf Hin) as ([lo Ho] & [la Ha] & [lr Hr] & _).
  assert (Hk : forall X : gset AgentID, X = list_to_set (agent_ids s) ->
                 {[Timestep.agent_id ts]} ∪ X = list_to_set (agent_ids s)).
  { intros X ->. clear -Hin.
    assert (Timestep.agent_id ts ∈ (list_to_set (agent_ids s) : gset AgentID))
      by by apply elem_of_list_to_set.
    set_solver. }
  destruct Hwf as (H1 & H2 & H3 & H4 & H5 & H6).
  run_step. rewrite Hd. destruct b; simpl; [done|].
  rewrite Ho; cbn. rewrite Ha; cbn. rewrite Hr; cbn.
  destruct (_ || _); cbn; unfold wf; cbn;
    rewrite ?dom_insert_L, ?Hk by done; done.
Qed.

Lemma add_step_total n (ts : Step) (s : Tracker) :
  wf s -> Timestep.agent_id ts ∈ agent_ids s ->
  exists m, (add_step n ts s).1 = Ok m.
Proof.
  intros Hwf Hin.
  destruct (wf_tracked _ _ Hwf Hin)
    as ([lo Ho] & [la Ha] & [lr Hr] & _ & [d Hd] & _).
  run_step. rewrite Hd. destruct d; simpl; [by eexists|].
  rewrite Ho; cbn. rewrite Ha; cbn. rewrite Hr; cbn.
  destruct (_ || _); cbn; by eexists.
Qed.

(** The loop of [add_steps]. *)
Lemma loop_wf (timesteps : list Step) : forall n (s : Tracker),
  wf s -> wf (for_fold timesteps n add_step s).2.
Proof.
  induction timesteps as [|ts rest IH]; intros n s Hwf; [done|].
  simpl. unfold bind. pose proof (add_step_wf n ts s Hwf) as Hwf'.
  destruct (add_step n ts s) as [[m|e] s']; simpl in *; [by apply IH|done].
Qed.

Lemma loop_frame (timesteps : list Step) : forall n (s : Tracker),
  agent_ids (for_fold timesteps n add_step s).2 = agent_ids s /\
  log_probs_list (for_fold timesteps n add_step s).2 = log_probs_list s.
Proof.
  induction timesteps as [|ts rest IH]; intros n s; [done|].
  simpl. unfold bind. pose proof (add_step_frame n ts s) as [Hi Hl].
  destruct (add_step n ts s) as [[m|e] s']; simpl in *; [|done].
  destruct (IH m s') as [-> ->]. done.
Qed.

Lemma loop_total (timesteps : list Step) : forall n (s : Tracker),
  wf s -> Forall (fun ts => Timestep.agent_id ts ∈ agent_ids s) timesteps ->
  exists m, (for_fold timesteps n add_step s).1 = Ok m.
Proof.
  induction timesteps as [|ts rest IH]; intros n s Hwf Hall; [by eexists|].
  inversion Hall as [|? ? Hin Hrest]; subst.
  simpl. unfold bind.
  destruct (add_step_total n ts s Hwf Hin) as [m Hm].
  pose proof (add_step_wf n ts s Hwf) as Hwf'.
  pose proof (add_step_frame n ts s) as [Hi _].
  destruct (add_step n ts s) as [[m'|e] s']; simpl in *; [|done].
  apply IH; [done|]. by rewrite Hi.
Qed.

Lemma loop_count (timesteps : list Step) : forall n m (s s' : Tracker),
  for_fold timesteps n add_step s = (Ok m, s') ->
  (n <= m <= n + length timesteps)%nat.
Proof.
  induction timesteps as [|ts rest IH]; intros n m s s'; simpl.
  - unfold ret. intros; simplify_eq. lia.
  - unfold bind. destruct (add_step n ts s) as [[k|e] s1] eqn:E; [|done].
    intros Hrest. apply IH in Hrest. apply add_step_count in E. lia.
Qed.

Lemma loop_skips_done a (timesteps : list Step) : forall n (s : Tracker),
  dones s !! a = Some true ->
  for_fold timesteps n add_step s
  = for_fold (filter (fun ts => Timestep.agent_id ts <> a) timesteps)
             n add_step s.
Proof.
  induction timesteps as [|ts rest IH]; intros n s Hd; [done|].
  destruct (decide (Timestep.agent_id ts = a)) as [Heq|Hne].
  - rewrite filter_cons_False by (intros ?; done).
    simpl. unfold bind. rewrite add_step_done by by rewrite Heq.
    by apply IH.
  - rewrite filter_cons_True by done. simpl. unfold bind.
    pose proof (add_step_other a n ts s Hne) as [_ Hd'].
    destruct (add_step n ts s) as [[m|e] s1]; simpl in *; [|done].
    apply IH. by rewrite Hd'.
Qed.

Lemma loop_keeps_done a (timesteps : list Step) : forall n (s : Tracker),
  dones s !! a = Some true ->
  agent_view a (for_fold timesteps n add_step s).2 = agent_view a s /\
  dones (for_fold timesteps n add_step s).2 !! a = Some true.
Proof.
  induction timesteps as [|ts rest IH]; intros n s Hd; [done|].
  simpl. unfold bind.
  destruct (decide (Timestep.agent_id ts = a)) as [Heq|Hne].
  - rewrite add_step_done by by rewrite Heq. by apply IH.
  - pose proof (add_step_other a n ts s Hne) as [Hv Hd'].
    destruct (add_step n ts s) as [[m|e] s1]; simpl in *.
    + rewrite <- Hv. apply IH. by rewrite Hd'.
    + by rewrite Hd' .
Qed.

Lemma add_steps_unfold (timesteps : list Step) (row : list LogProb)
    (s : Tracker) :
  add_steps timesteps row s
  = match for_fold timesteps 0%nat add_step s with
    | (Ok n, s') => (Ok n, set_log_probs_list (fun l => l ++ [row]) s')
    | (Raise e, s') => (Raise e, s')
    end.
Proof. unfold add_steps, bind, modify, ret. by destruct (for_fold _ _ _ _) as [[?|?] ?]. Qed.

Lemma add_steps_wf (timesteps : list Step) row (s : Tracker) :
  wf s -> wf (add_steps timesteps row s).2.
Proof.
  intros Hwf. rewrite add_steps_unfold.
  pose proof (loop_wf timesteps 0%nat s Hwf) as Hwf'.
  destruct (for_fold _ _ _ _) as [[?|?] ?]; done.
Qed.


(** [__init__] *)
Lemma init_loop_dom (ids : list AgentID) : forall s : Tracker,
  let s' := foldl (fun s a => init_agent a s) s ids in
  agent_ids s' = agent_ids s /\
  dom (obs_lists s') = list_to_set ids ∪ dom (obs_lists s) /\
  dom (action_lists s') = list_to_set ids ∪ dom (action_lists s) /\
  dom (reward_lists s') = list_to_set ids ∪ dom (reward_lists s) /\
  dom (final_obs s') = list_to_set ids ∪ dom (final_obs s) /\
  dom (dones s') = list_to_set ids ∪ dom (dones s) /\
  dom (truncateds s') = list_to_set ids ∪ dom (truncateds s).
Proof.
  induction ids as [|a ids IH]; intros s; simpl.
  - by rewrite !(left_id_L ∅ (∪)).
  - destruct (IH (init_agent a s)) as (-> & -> & -> & -> & -> & -> & ->).
    cbn. rewrite !dom_insert_L. split; [done|]. repeat split; set_solver.
Qed.

Lemma init_wf (ids : list AgentID) : wf (init ids : Tracker).
Proof.
  unfold init, wf.
  destruct (init_loop_dom ids (mk ids ∅ ∅ ∅ ∅ ∅ ∅ []))
    as (Hi & H1 & H2 & H3 & H4 & H5 & H6).
  cbn in *. rewrite Hi, H1, H2, H3, H4, H5, H6, !dom_empty_L.
  by rewrite !(right_id_L ∅ (∪)).
Qed.

(** [finalize] *)
Lemma finalize_agent_spec a (s : Tracker) tr d :
  truncateds s !! a = Some tr -> dones s !! a = Some d ->
  finalize_agent a s
  = (Ok tt, set_dones <[a := true]>
              (set_truncateds <[a := tr || negb d]> s)).
Proof. intros Ht Hd. run_step. rewrite Ht. destruct tr; cbn; [done|]. by rewrite Hd. Qed.

Lemma finalize_loop (l : list AgentID) : forall s : Tracker,
  wf s -> (forall a, a ∈ l -> a ∈ agent_ids s) ->
  exists s', for_each l finalize_agent s = (Ok tt, s') /\ wf s' /\
    agent_ids s' = agent_ids s /\ obs_lists s' = obs_lists s /\
    action_lists s' = action_lists s /\ reward_lists s' = reward_lists s /\
    final_obs s' = final_obs s /\ log_probs_list s' = log_probs_list s /\
    (forall a, dones s' !! a
               = if decide (a ∈ l) then Some true else dones s !! a) /\
    (forall a, truncateds s' !! a
               = if decide (a ∈ l)
                 then tr ← truncateds s !! a; d ← dones s !! a;
                      Some (tr || negb d)
                 else truncateds s !! a).
Proof.
  induction l as [|a0 l IH]; intros s Hwf Hl.
  - exists s. simpl. split; [done|]. split; [done|].
    repeat split; try done;
      intros a; (destruct (decide _) as [Hx|]; [by apply elem_of_nil in Hx|done]).
  - assert (Hin : a0 ∈ agent_ids s) by (apply Hl; left).
    destruct (wf_tracked _ _ Hwf Hin) as (_ & _ & _ & _ & [d Hd] & [tr Ht]).
    simpl. unfold bind. rewrite (finalize_agent_spec _ _ _ _ Ht Hd).
    set (s1 := set_dones _ _).
    assert (Hwf1 : wf s1).
    { destruct Hwf as (H1 & H2 & H3 & H4 & H5 & H6). unfold wf, s1; cbn.
      rewrite !dom_insert_lookup_L by done. done. }
    destruct (IH s1 Hwf1) as (s' & Hrun & Hwf' & Hi & Ho & Ha & Hr & Hf & Hlp & Hds & Hts).
    { intros a Ha. apply Hl. by right. }
    exists s'. split; [done|]. split; [done|]. repeat split; try done.
    + intros a. rewrite Hds. unfold s1; cbn.
      destruct (decide (a = a0)) as [->|Hne].
      * rewrite lookup_insert_eq.
        rewrite (decide_True (P := a0 ∈ a0 :: l)) by apply list_elem_of_here.
        by destruct (decide _).
      * rewrite lookup_insert_ne by done.
        repeat case_decide; try done; exfalso; set_solver.
    + intros a. rewrite Hts. unfold s1; cbn.
      destruct (decide (a = a0)) as [->|Hne].
      * rewrite !lookup_insert_eq, Ht, Hd.
        rewrite (decide_True (P := a0 ∈ a0 :: l)) by apply list_elem_of_here.
        destruct (decide _); simpl; [|done].
        by rewrite orb_false_r.
      * rewrite !lookup_insert_ne by done.
        repeat case_decide; try done; exfalso; set_solver.
Qed.

Lemma finalize_wf (s : Tracker) : wf s -> wf (finalize s).2.
Proof.
  intros Hwf. unfold finalize, bind, gets.
  destruct (finalize_loop (agent_ids s) s Hwf) as (s' & -> & Hwf' & _); done.
Qed.

Lemma reachable_wf (s : Tracker) : reachable s -> wf s.
Proof.
  induction 1; auto using init_wf, add_steps_wf, finalize_wf.
Qed.


Lemma add_step_aligned n (ts : Step) (s : Tracker) :
  wf s -> aligned s -> aligned (add_step n ts s).2.
Proof.
  intros Hwf Hal.
  destruct (dones s !! Timestep.agent_id ts) as [b|] eqn:Hd.
  2:{ run_step. by rewrite Hd. }
  pose proof (wf_key _ _ _ Hwf Hd) as Hin.
  destruct (wf_tracked _ _ Hwf Hin) as ([lo Ho] & [la Ha] & [lr Hr] & _).
  destruct (Hal _ _ _ _ Ho Ha Hr) as [E1 E2].
  run_step. rewrite Hd. destruct b; simpl; [done|].
  rewrite Ho; cbn. rewrite Ha; cbn. rewrite Hr; cbn.
  assert (Hgoal : forall a lo' la' lr',
    <[Timestep.agent_id ts := lo ++ [Timestep.obs ts]]> (obs_lists s) !! a
      = Some lo' ->
    <[Timestep.agent_id ts := la ++ [Timestep.action ts]]> (action_lists s) !! a
      = Some la' ->
    <[Timestep.agent_id ts := lr ++ [Timestep.reward ts]]> (reward_lists s) !! a
      = Some lr' ->
    length lo' = length la' /\ length la' = length lr').
  { intros a lo' la' lr'.
    destruct (decide (a = Timestep.agent_id ts)) as [->|Hne].
    - rewrite !lookup_insert_eq. intros; simplify_eq.
      rewrite !length_app; simpl. lia.
    - rewrite !lookup_insert_ne by done. apply Hal. }
  destruct (_ || _); cbn; intros a lo' la' lr'; cbn; apply Hgoal.
Qed.

Lemma loop_aligned (timesteps : list Step) : forall n (s : Tracker),
  wf s -> aligned s -> aligned (for_fold timesteps n add_step s).2.
Proof.
  induction timesteps as [|ts rest IH]; intros n s Hwf Hal; [done|].
  simpl. unfold bind. pose proof (add_step_wf n ts s Hwf) as Hwf'.
  pose proof (add_step_aligned n ts s Hwf Hal) as Hal'.
  destruct (add_step n ts s) as [[m|e] s']; simpl in *; [by apply IH|done].
Qed.

Lemma add_steps_aligned (timesteps : list Step) row (s : Tracker) :
  wf s -> aligned s -> aligned (add_steps timesteps row s).2.
Proof.
  intros Hwf Hal. rewrite add_steps_unfold.
  pose proof (loop_aligned timesteps 0%nat s Hwf Hal) as Hal'.
  destruct (for_fold _ _ _ _) as [[?|?] ?]; done.
Qed.

Lemma init_loop_lists (ids : list AgentID) : forall s : Tracker,
  (forall a lo, obs_lists s !! a = Some lo -> lo = []) ->
  (forall a la, action_lists s !! a = Some la -> la = []) ->
  (forall a lr, reward_lists s !! a = Some lr -> lr = []) ->
  let s' := foldl (fun s a => init_agent a s) s ids in
  (forall a lo, obs_lists s' !! a = Some lo -> lo = []) /\
  (forall a la, action_lists s' !! a = Some la -> la = []) /\
  (forall a lr, reward_lists s' !! a = Some lr -> lr = []).
Proof.
  induction ids as [|a0 ids IH]; intros s H1 H2 H3; simpl; [done|].
  apply IH; cbn; intros a l;
    (destruct (decide (a = a0)) as [->|Hne];
     [rewrite lookup_insert_eq; congruence
     |rewrite lookup_insert_ne by done; eauto]).
Qed.

Lemma init_aligned (ids : list AgentID) : aligned (init ids : Tracker).
Proof.
  destruct (init_loop_lists ids (mk ids ∅ ∅ ∅ ∅ ∅ ∅ [])) as (H1 & H2 & H3);
    try (cbn; intros ? ?; rewrite lookup_empty; congruence).
  intros a lo la lr Ho Ha Hr. unfold init in *; cbn in *.
  by rewrite (H1 _ _ Ho), (H2 _ _ Ha), (H3 _ _ Hr).
Qed.


(** [get_trajectories] *)
Lemma column_ok (rows : list (list LogProb)) idx :
  Forall (fun r => (idx < length r)%nat) rows ->
  exists col, column rows idx = Ok col /\ length col = length rows.
Proof.
  intros Hall. unfold column.
  destruct (mapM (fun r : list LogProb => r !! idx) rows) as [col|] eqn:E.
  - exists col. split; [done|]. apply length_mapM in E. done.
  - exfalso. apply mapM_None in E. apply Exists_exists in E.
    destruct E as (r & Hr & Hn).
    rewrite Forall_forall in Hall. apply Hall in Hr.
    apply lookup_ge_None in Hn. lia.
Qed.

Lemma stack_ok (rows : list (list LogProb)) width :
  rows <> [] -> Forall (fun r => length r = width) rows ->
  stack rows = Ok rows.
Proof.
  intros Hne Hall. destruct rows as [|r rest]; [done|]. simpl.
  inversion Hall as [|? ? Hr Hrest]; subst.
  replace (forallb _ rest) with true; [done|].
  symmetry. apply forallb_forall. intros r' Hin.
  rewrite Forall_forall in Hrest. apply Nat.eqb_eq.
  apply Hrest. by apply list_elem_of_In.
Qed.

Section Trajectories.
Context {Value : Type} (tensor0 : Value).

Lemma trajectories_from_ok (s : Tracker) (rows : list (list LogProb))
    (l : list AgentID) : forall idx,
  wf s -> aligned s -> (forall a, a ∈ l -> a ∈ agent_ids s) ->
  Forall (fun r => (idx + length l <= length r)%nat) rows ->
  exists trajs,
    trajectories_from tensor0 s rows idx l = Ok trajs /\
    Trajectory.agent_id <$> trajs = l /\
    Forall (fun tr =>
      length (Trajectory.log_probs tr) = length rows /\
      length (Trajectory.obs_list tr) = length (Trajectory.action_list tr) /\
      length (Trajectory.action_list tr) = length (Trajectory.reward_list tr) /\
      obs_lists s !! Trajectory.agent_id tr = Some (Trajectory.obs_list tr) /\
      Trajectory.val_preds tr = None) trajs.
Proof.
  induction l as [|a l IH]; intros idx Hwf Hal Hl Hrows.
  - exists []. by repeat split.
  - assert (Hin : a ∈ agent_ids s) by (apply Hl; apply list_elem_of_here).
    destruct (wf_tracked _ _ Hwf Hin)
      as ([lo Ho] & [la Ha] & [lr Hr] & [fo Hf] & _ & [tr Ht]).
    destruct (column_ok rows idx) as (col & Hcol & Hlen).
    { eapply Forall_impl; [exact Hrows|]. simpl. intros; lia. }
    destruct (IH (S idx) Hwf Hal) as (trajs & Hrun & Hids & Hall).
    { intros b Hb. apply Hl. by apply list_elem_of_further. }
    { eapply Forall_impl; [exact Hrows|]. simpl. intros; lia. }
    simpl. unfold trajectory_of. rewrite Ho, Ha, Hcol, Hr, Hf, Ht, Hrun.
    eexists. split; [done|]. split; [by rewrite fmap_cons, Hids|].
    constructor; [|done]. cbn. destruct (Hal _ _ _ _ Ho Ha Hr). done.
Qed.




End Trajectories.

(** C6: once an agent is done, a call of [add_steps] on any state of the
    tracker leaves what the tracker holds for it (its three sequences,
    [final_obs], [truncated]) and its [done] flag as they are, and runs as
    if the call did not hold the timesteps of that agent, so that they
    are not counted; a call that returns appended exactly one log-prob
    row; the call returns when its agents are those of the tracker; and a
    call with timesteps of done agents only returns 0 and appends its
    row. *)
Theorem add_steps_drops_done_agent (s : Tracker) (a : AgentID)
    (timesteps : list Step) (log_probs : list LogProb) :
  reachable s -> dones s !! a = Some true ->
  let others := filter (fun ts => Timestep.agent_id ts <> a) timesteps in
  let s' := (add_steps timesteps log_probs s).2 in
  agent_view a s' = agent_view a s /\
  dones s' !! a = Some true /\
  add_steps timesteps log_probs s = add_steps others log_probs s /\
  (forall n, (add_steps timesteps log_probs s).1 = Ok n ->
     (n <= length others)%nat /\
     log_probs_list s' = log_probs_list s ++ [log_probs]) /\
  (Forall (fun ts => Timestep.agent_id ts ∈ agent_ids s) timesteps ->
     exists n, (add_steps timesteps log_probs s).1 = Ok n) /\
  (Forall (fun ts => Timestep.agent_id ts = a) timesteps ->
     add_steps timesteps log_probs s
     = (Ok 0%nat, set_log_probs_list (fun l => l ++ [log_probs]) s)).
Proof.
  intros Hreach Hd others s'. apply reachable_wf in Hreach.
  pose proof (loop_keeps_done a timesteps 0%nat s Hd) as [Hview Hdone].
  pose proof (loop_skips_done a timesteps 0%nat s Hd) as Hskip.
  pose proof (loop_frame timesteps 0%nat s) as [_ Hlog].
  pose proof (loop_total timesteps 0%nat s Hreach) as Htotal.
  assert (Hcount : forall n s1,
            for_fold timesteps 0%nat add_step s = (Ok n, s1) ->
            (n <= length others)%nat).
  { intros n s1 E. rewrite Hskip in E. apply loop_count in E.
    unfold others. lia. }
  assert (Hnil : Forall (fun ts => Timestep.agent_id ts = a) timesteps ->
                 for_fold timesteps 0%nat add_step s = (Ok 0%nat, s)).
  { intros Hall. rewrite Hskip.
    replace (filter _ timesteps) with (@nil Step); [done|].
    symmetry. clear -Hall. induction Hall as [|ts l Hts _ IH]; [done|].
    rewrite filter_cons_False by (intros ?; done). done. }
  subst s' others. rewrite !add_steps_unfold, <- Hskip.
  destruct (for_fold timesteps 0%nat add_step s) as [[n|e] s1] eqn:E;
    simpl in *.
  - split_and!.
    + done.
    + done.
    + done.
    + intros m [= <-]. split; [by eapply Hcount|]. cbn. by rewrite Hlog.
    + intros _. by eexists.
    + intros Hall. specialize (Hnil Hall). by simplify_eq.
  - split_and!.
    + done.
    + done.
    + done.
    + done.
    + intros Hall. destruct (Htotal Hall) as [m Hm]. done.
    + intros Hall. specialize (Hnil Hall). by simplify_eq.
Qed.

(** C9: on every state of the tracker [finalize] returns; calling it a
    second time changes nothing; afterwards every agent is done; an agent
    that was done before keeps its [truncated] flag, one that was not is
    truncated. *)
Theorem finalize_idempotent (s : Tracker) :
  reachable s ->
  exists s',
    finalize s = (Ok tt, s') /\ finalize s' = (Ok tt, s') /\
    (forall a, a ∈ agent_ids s -> dones s' !! a = Some true) /\
    (forall a d, dones s' !! a = Some d -> d = true) /\
    (forall a, dones s !! a = Some true ->
       truncateds s' !! a = truncateds s !! a) /\
    (forall a, dones s !! a = Some false ->
       truncateds s' !! a = Some true).
Proof.
  intros Hreach. apply reachable_wf in Hreach as Hwf.
  unfold finalize, bind, gets.
  destruct (finalize_loop (agent_ids s) s Hwf)
    as (s' & Hrun & Hwf' & Hi & Ho & Ha & Hr & Hf & Hlp & Hds & Hts); [done|].
  destruct (finalize_loop (agent_ids s') s' Hwf')
    as (s2 & Hrun2 & _ & Hi2 & Ho2 & Ha2 & Hr2 & Hf2 & Hlp2 & Hds2 & Hts2);
    [done|].
  exists s'. rewrite Hrun. split; [done|].
  assert (Hkey : forall a b, dones s !! a = Some b -> a ∈ agent_ids s)
    by (intros; by eapply wf_key).
  assert (Hdone : forall a d, dones s' !! a = Some d -> d = true).
  { intros a d. rewrite Hds. case_decide; [congruence|].
    intros Hx. apply Hkey in Hx. done. }
  split.
  - rewrite Hrun2. f_equal.
    destruct s' as [i1 o1 a1 r1 f1 d1 t1 l1], s2 as [i2 o2 a2 r2 f2 d2 t2 l2].
    cbn in *. subst. f_equal.
    + apply map_eq. intros a. rewrite Hds2. case_decide; [|done].
      destruct (d1 !! a) as [d|] eqn:E.
      * by rewrite (Hdone _ _ E).
      * exfalso. destruct (wf_tracked _ _ Hwf' H0) as (_ & _ & _ & _ & [? ?] & _).
        cbn in *. congruence.
    + apply map_eq. intros a. rewrite Hts2. case_decide; [|done].
      destruct (wf_tracked _ _ Hwf' H0) as (_ & _ & _ & _ & [d Hd] & [tr Ht]).
      cbn in *. rewrite Ht, Hd. simpl. rewrite (Hdone _ _ Hd). simpl.
      by rewrite orb_false_r.
  - repeat split.
    + intros a Hin. rewrite Hds. by rewrite decide_True.
    + done.
    + intros a Hd. rewrite Hts. rewrite decide_True by by eapply Hkey.
      rewrite Hd.
      destruct (wf_tracked _ _ Hwf (Hkey _ _ Hd)) as (_ & _ & _ & _ & _ & [tr Ht]).
      rewrite Ht. simpl. by rewrite orb_false_r.
    + intros a Hd. rewrite Hts. rewrite decide_True by by eapply Hkey.
      rewrite Hd.
      destruct (wf_tracked _ _ Hwf (Hkey _ _ Hd)) as (_ & _ & _ & _ & _ & [tr Ht]).
      rewrite Ht. simpl. by rewrite orb_true_r.
Qed.

End Facts.

Import Scenario.
Open Scope string_scope.

Lemma tracker2_reachable : reachable tracker2.
Proof. repeat apply reachable_add_steps. apply reachable_init. Defined.



Lemma add_steps_drops_done_agent_witness :
  reachable tracker2 /\ dones tracker2 !! "A" = Some true /\
  agent_view "A" (add_steps late_call.1 late_call.2 tracker2).2
  = agent_view "A" tracker2 /\
  (add_steps late_call.1 late_call.2 tracker2).1 = Ok 1%nat.
Proof.
  assert (Hd : dones tracker2 !! "A" = Some true) by (vm_compute; reflexivity).
  split; [exact tracker2_reachable|]. split; [exact Hd|].
  destruct (add_steps_drops_done_agent tracker2 "A" late_call.1 late_call.2
              tracker2_reachable Hd) as (Hv & _).
  split; [exact Hv|]. vm_compute. reflexivity.
Defined.

Lemma finalize_idempotent_witness :
  exists s', finalize tracker2 = (Ok tt, s') /\ finalize s' = (Ok tt, s') /\
    truncateds s' !! "A" = Some false /\ truncateds s' !! "B" = Some true.
Proof.
  destruct (finalize_idempotent tracker2 tracker2_reachable)
    as (s' & H1 & H2 & _ & _ & H3 & H4).
  exists s'. split; [exact H1|]. split; [exact H2|]. split.
  - rewrite (H3 "A"); vm_compute; reflexivity.
  - apply H4. vm_compute. reflexivity.
Defined.

End TrackerFacts.

(** ** Python slices and indices on lists *)

Module PyFacts.

Lemma slice_between {A} (l : list A) (a b : nat) :
  (a <= b)%nat -> (b <= length l)%nat ->
  slice l (Some (Z.of_nat a)) (Some (Z.of_nat b)) = take (b - a) (drop a l).
Proof.
  intros Hab Hb. unfold slice, clamp.
  destruct (Z.ltb_spec (Z.of_nat a) 0); [lia|].
  destruct (Z.ltb_spec (Z.of_nat b) 0); [lia|].
  rewrite !Z.min_l by lia. rewrite Nat2Z.id. f_equal. lia.
Qed.

Lemma index_lookup {A} (l : list A) (i : nat) (x : A) :
  l !! i = Some x -> index l (Z.of_nat i) = Ok x.
Proof.
  intros Hl. pose proof (lookup_lt_Some _ _ _ Hl) as Hlt. unfold index.
  destruct (Z.ltb_spec (Z.of_nat i) 0); [lia|].
  destruct (Z.leb_spec 0 (Z.of_nat i)); [|lia].
  destruct (Z.ltb_spec (Z.of_nat i) (Z.of_nat (length l))); [|lia].
  simpl. by rewrite Nat2Z.id, Hl.
Qed.

End PyFacts.

(** ** The value backfill *)

Module BackfillFacts.
Import PPOAgentController BackfillSpec PyFacts.
#[local] Arguments index : simpl never.
#[local] Arguments slice : simpl never.
Section Facts.
Context {AgentID : Type} `{Countable AgentID}.
Context {Obs Action Reward LogProb Value StateMetrics Time : Type}.
Context {Learner ExperienceBuffer MetricsLogger ObsStandardizer : Type}.
Context {PPOData TrajectoryProcessorData AgentMetrics CollectedMetrics : Type}.
Context {LearnerCheckpoint BufferCheckpoint MetricsCheckpoint : Type}.
Context `{!Externals (AgentID:=AgentID) (Obs:=Obs) (Action:=Action)
            (Reward:=Reward) (LogProb:=LogProb) (Value:=Value)
            (StateMetrics:=StateMetrics) (Time:=Time) (Learner:=Learner)
            (ExperienceBuffer:=ExperienceBuffer) (MetricsLogger:=MetricsLogger)
            (ObsStandardizer:=ObsStandardizer) (PPOData:=PPOData)
            (TrajectoryProcessorData:=TrajectoryProcessorData)
            (AgentMetrics:=AgentMetrics) (CollectedMetrics:=CollectedMetrics)
            (LearnerCheckpoint:=LearnerCheckpoint)
            (BufferCheckpoint:=BufferCheckpoint)
            (MetricsCheckpoint:=MetricsCheckpoint)}.

Abbreviation Traj := (Trajectory.t AgentID Obs Action Reward LogProb Value).
Abbreviation State := (state (AgentID:=AgentID) (Obs:=Obs) (Action:=Action)
            (Reward:=Reward) (LogProb:=LogProb) (Value:=Value)
            (StateMetrics:=StateMetrics) (Time:=Time) (Learner:=Learner)
            (ExperienceBuffer:=ExperienceBuffer) (MetricsLogger:=MetricsLogger)
            (ObsStandardizer:=ObsStandardizer)
            (LearnerCheckpoint:=LearnerCheckpoint)
            (BufferCheckpoint:=BufferCheckpoint)
            (MetricsCheckpoint:=MetricsCheckpoint)).

Lemma flatten_step_eq (tr : Traj) start ids obs ranges :
  flatten_step (Z.of_nat start, ids, obs, ranges) tr
  = (Z.of_nat (start + request_len tr), ids ++ request_agent_ids tr,
     obs ++ request_obs tr,
     ranges ++ [(Z.of_nat start, Z.of_nat (start + request_len tr))]).
Proof.
  unfold flatten_step, request_agent_ids, request_obs.
  assert (Hlen : length ((Some <$> Trajectory.obs_list tr)
                           ++ [Trajectory.final_obs tr])
                 = request_len tr).
  { rewrite length_app, length_fmap. unfold request_len. simpl. lia. }
  by rewrite Hlen, Nat2Z.id, <- Nat2Z.inj_add.
Qed.

Lemma flatten_fold (trajs : list Traj) : forall start ids obs ranges,
  foldl flatten_step (Z.of_nat start, ids, obs, ranges) trajs
  = (Z.of_nat (start + sum_list (request_len <$> trajs)),
     ids ++ (trajs ≫= request_agent_ids),
     obs ++ (trajs ≫= request_obs),
     ranges ++ ranges_from start trajs).
Proof.
  induction trajs as [|tr rest IH]; intros start ids obs ranges.
  - simpl. by rewrite Nat.add_0_r, !app_nil_r.
  - cbn [foldl]. rewrite flatten_step_eq, IH. cbn.
    rewrite <- !app_assoc.
    replace (start + request_len tr + sum_list (request_len <$> rest))%nat
      with (start + S (length (Trajectory.obs_list tr)
                       + sum_list (request_len <$> rest)))%nat
      by (unfold request_len; lia).
    reflexivity.
Qed.

Lemma flatten_request_eq (trajs : list Traj) :
  flatten_request trajs
  = (Z.of_nat (sum_list (request_len <$> trajs)),
     trajs ≫= request_agent_ids, trajs ≫= request_obs,
     ranges_from 0 trajs).
Proof. unfold flatten_request. by rewrite (flatten_fold trajs 0%nat). Qed.

Lemma request_sum_cons (tr : Traj) rest :
  sum_list (request_len <$> tr :: rest)
  = (request_len tr + sum_list (request_len <$> rest))%nat.
Proof. reflexivity. Qed.

Lemma start_of_0 (trajs : list Traj) : start_of trajs 0 = 0%nat.
Proof. by destruct trajs. Qed.

Lemma start_of_S (tr : Traj) rest i :
  start_of (tr :: rest) (S i) = (request_len tr + start_of rest i)%nat.
Proof. reflexivity. Qed.

Lemma ranges_from_lookup (trajs : list Traj) : forall start i tr,
  trajs !! i = Some tr ->
  ranges_from start trajs !! i
  = Some (Z.of_nat (start + start_of trajs i),
          Z.of_nat (start + start_of trajs i + request_len tr)).
Proof.
  induction trajs as [|tr0 rest IH]; intros start i tr Hi; [done|].
  destruct i as [|i]; cbn [ranges_from lookup list_lookup] in *.
  - simplify_eq. by rewrite start_of_0, Nat.add_0_r.
  - rewrite (IH _ _ _ Hi), start_of_S.
    f_equal. f_equal; f_equal; lia.
Qed.

Lemma ranges_from_length (trajs : list Traj) start :
  length (ranges_from start trajs) = length trajs.
Proof. revert start. induction trajs; intros; simpl; auto. Qed.

(** The entries of trajectory [i] in a flattened list. *)
Lemma own_range {B} (f : Traj -> list B) (trajs : list Traj) :
  (forall tr, length (f tr) = request_len tr) ->
  forall i tr, trajs !! i = Some tr ->
  take (request_len tr) (drop (start_of trajs i) (trajs ≫= f)) = f tr.
Proof.
  intros Hf. induction trajs as [|tr0 rest IH]; intros i tr Hi; [done|].
  rewrite bind_cons. destruct i as [|i]; cbn [lookup list_lookup] in *.
  - simplify_eq. rewrite start_of_0, drop_0, <- (Hf tr).
    by rewrite take_app_length.
  - rewrite start_of_S, <- (Hf tr0).
    rewrite drop_app_add'; [|done]. by apply IH.
Qed.

(** One round of the second loop. *)
Lemma backfill_step (result : list Value) (s : State) done_ tr rest st :
  current_trajectories (self s) = done_ ++ tr :: rest ->
  (st + request_len tr <= length result)%nat ->
  backfill result
    (length done_, (Z.of_nat st, Z.of_nat (st + request_len tr))) s
  = (Ok tt, on_self (set_current_trajectories
                       (done_ ++ backfilled1 result st tr :: rest)) s).
Proof.
  intros Hs Hlen. unfold request_len in Hlen.
  destruct (lookup_lt_is_Some_2 result (st + length (Trajectory.obs_list tr)))
    as [v Hv]; [lia|].
  assert (E : Z.of_nat (st + request_len tr) - 1
              = Z.of_nat (st + length (Trajectory.obs_list tr)))
    by (unfold request_len; lia).
  unfold backfill, update_trajectory, bind, attr, gets, assign, modify, lift.
  cbn. rewrite Hs, list_lookup_middle by done.
  rewrite !E, (index_lookup _ _ _ Hv).
  cbn. rewrite insert_app_r_alt, Nat.sub_diag by done. cbn.
  rewrite list_lookup_middle by done. cbn.
  rewrite insert_app_r_alt, Nat.sub_diag by done. cbn.
  rewrite slice_between by lia.
  unfold backfilled1. rewrite Hv. cbn.
  replace (st + length (Trajectory.obs_list tr) - st)%nat
    with (length (Trajectory.obs_list tr)) by lia.
  reflexivity.
Qed.

Lemma set_current_trajectories_id (s : State) trajs :
  current_trajectories (self s) = trajs ->
  on_self (set_current_trajectories trajs) s = s.
Proof. destruct s as [[] ? ? ?]. cbn. by intros ->. Qed.

(** The second loop, from any point on. *)
Lemma backfill_loop (result : list Value) (todo : list Traj) :
  forall done_ st (s : State),
  current_trajectories (self s) = done_ ++ todo ->
  (st + sum_list (request_len <$> todo) <= length result)%nat ->
  for_each (imap (fun i r => ((length done_ + i)%nat, r))
                 (ranges_from st todo))
           (backfill result) s
  = (Ok tt, on_self (set_current_trajectories
                       (done_ ++ backfilled result st todo)) s).
Proof.
  induction todo as [|tr rest IH]; intros done_ st s Hs Hlen.
  - cbn. unfold ret. by rewrite set_current_trajectories_id.
  - cbn [ranges_from backfilled]. rewrite imap_cons. cbn [for_each].
    unfold bind. rewrite Nat.add_0_r.
    assert (Hsum : sum_list (request_len <$> tr :: rest)
                   = (request_len tr + sum_list (request_len <$> rest))%nat)
      by reflexivity.
    rewrite Hsum in Hlen.
    rewrite (backfill_step result s done_ tr rest st Hs) by lia.
    rewrite (imap_ext _ (fun i r =>
               ((length (done_ ++ [backfilled1 result st tr]) + i)%nat, r))).
    2:{ intros i r _. cbn. rewrite length_app. cbn. f_equal. lia. }
    rewrite (IH (done_ ++ [backfilled1 result st tr])).
    + by rewrite <- app_assoc.
    + cbn. by rewrite <- app_assoc.
    + lia.
Qed.

Lemma backfilled_length (result : list Value) (trajs : list Traj) st :
  length (backfilled result st trajs) = length trajs.
Proof. revert st. induction trajs; intros; simpl; auto. Qed.

Lemma backfilled_lookup (result : list Value) (trajs : list Traj) :
  forall st i tr, trajs !! i = Some tr ->
  backfilled result st trajs !! i
  = Some (backfilled1 result (st + start_of trajs i) tr).
Proof.
  induction trajs as [|tr0 rest IH]; intros st i tr Hi; [done|].
  destruct i as [|i]; cbn [backfilled lookup list_lookup] in *.
  - simplify_eq. by rewrite start_of_0, Nat.add_0_r.
  - rewrite (IH _ _ _ Hi), start_of_S. do 2 f_equal. lia.
Qed.

Lemma start_of_bound (trajs : list Traj) i tr :
  trajs !! i = Some tr ->
  (start_of trajs i + request_len tr <= sum_list (request_len <$> trajs))%nat.
Proof.
  revert i. induction trajs as [|tr0 rest IH]; intros i Hi; [done|].
  destruct i as [|i]; cbn [lookup list_lookup] in *.
  - simplify_eq. rewrite start_of_0, request_sum_cons. lia.
  - rewrite start_of_S, request_sum_cons. apply IH in Hi. lia.
Qed.

Lemma request_obs_length (trajs : list Traj) :
  length (trajs ≫= request_obs) = sum_list (request_len <$> trajs).
Proof.
  induction trajs as [|tr rest IH]; [done|].
  rewrite bind_cons, length_app, IH, request_sum_cons. f_equal.
  unfold request_obs, request_len. rewrite length_app, length_fmap. cbn. lia.
Qed.

(** [_update_value_predictions] when the critic answers with one value
    per entry of the request. *)
Lemma update_value_predictions_eq (s : State) (result : list Value) l' :
  let trajs := current_trajectories (self s) in
  critic (trajs ≫= request_agent_ids) (trajs ≫= request_obs)
         (learner (self s)) = (Ok result, l') ->
  length result = length (trajs ≫= request_obs) ->
  _update_value_predictions s
  = (Ok tt, on_self (set_current_trajectories (backfilled result 0 trajs))
              (on_self (set_learner l') s)).
Proof.
  intros trajs Hcritic Hlen.
  unfold _update_value_predictions, bind at 1, attr, gets. cbn.
  fold trajs. rewrite flatten_request_eq.
  unfold bind, with_learner, zoom. rewrite Hcritic.
  rewrite (backfill_loop result trajs [] 0%nat); [done|done|].
  rewrite Hlen, request_obs_length. lia.
Qed.

(** What trajectory [i] holds after the backfill. *)
Lemma backfilled1_spec (result : list Value) (trajs : list Traj) i tr :
  trajs !! i = Some tr ->
  length result = sum_list (request_len <$> trajs) ->
  let start := Z.of_nat (start_of trajs i) in
  let stop := Z.of_nat (start_of trajs i + request_len tr) in
  let tr' := backfilled1 result (start_of trajs i) tr in
  Trajectory.val_preds tr'
  = Some (slice result (Some start) (Some (stop - 1))) /\
  slice result (Some start) (Some (stop - 1))
  = take (length (Trajectory.obs_list tr)) (drop (start_of trajs i) result) /\
  length (slice result (Some start) (Some (stop - 1)))
  = length (Trajectory.obs_list tr) /\
  index result (stop - 1) = Ok (Trajectory.final_val_pred tr') /\
  result !! (start_of trajs i + length (Trajectory.obs_list tr))%nat
  = Some (Trajectory.final_val_pred tr') /\
  tr' = set_final_val_pred (Trajectory.final_val_pred tr')
          (set_val_preds (Trajectory.val_preds tr') tr).
Proof.
  intros Hi Hlen start stop tr'.
  pose proof (start_of_bound trajs i tr Hi) as Hb.
  rewrite <- Hlen in Hb. unfold request_len in Hb.
  assert (E : stop - 1
              = Z.of_nat (start_of trajs i + length (Trajectory.obs_list tr)))
    by (unfold stop, request_len; lia).
  destruct (lookup_lt_is_Some_2 result
              (start_of trajs i + length (Trajectory.obs_list tr)))
    as [v Hv]; [lia|].
  assert (Hslice : slice result (Some start) (Some (stop - 1))
                   = take (length (Trajectory.obs_list tr))
                          (drop (start_of trajs i) result)).
  { rewrite E. unfold start. rewrite slice_between by lia. f_equal. lia. }
  assert (Hfin : Trajectory.final_val_pred tr' = v).
  { unfold tr', backfilled1. cbn. by rewrite Hv. }
  split_and!.
  - by rewrite Hslice.
  - done.
  - rewrite Hslice, length_take, length_drop. lia.
  - rewrite E, Hfin. by apply index_lookup.
  - by rewrite Hfin.
  - done.
Qed.

(** C4: the flattened critic request holds, per trajectory and in order,
    the agent id once per observation and once more for [final_obs], next
    to these observations; trajectory [i] owns the range
    [[start, stop)] recorded for it; and when the critic answers with one
    value per entry, the backfill returns and leaves in trajectory [i]
    [val_preds = result[start : stop-1]], as long as its observation
    sequence, and [final_val_pred = result[stop-1]], and nothing else
    changed. *)
Theorem value_backfill_offsets (s : State) total ids obs ranges
    (result : list Value) l' :
  flatten_request (current_trajectories (self s)) = (total, ids, obs, ranges) ->
  critic ids obs (learner (self s)) = (Ok result, l') ->
  length result = length obs ->
  let trajs := current_trajectories (self s) in
  ids = trajs ≫= (fun tr =>
          replicate (S (length (Trajectory.obs_list tr)))
                    (Trajectory.agent_id tr)) /\
  obs = trajs ≫= (fun tr =>
          (Some <$> Trajectory.obs_list tr) ++ [Trajectory.final_obs tr]) /\
  total = Z.of_nat (length obs) /\
  length ranges = length trajs /\
  (forall i tr, trajs !! i = Some tr ->
     ranges !! i = Some (Z.of_nat (start_of trajs i),
                         Z.of_nat (start_of trajs i + request_len tr)) /\
     take (request_len tr) (drop (start_of trajs i) ids)
     = replicate (S (length (Trajectory.obs_list tr)))
                 (Trajectory.agent_id tr) /\
     take (request_len tr) (drop (start_of trajs i) obs)
     = (Some <$> Trajectory.obs_list tr) ++ [Trajectory.final_obs tr]) /\
  exists s',
    _update_value_predictions s = (Ok tt, s') /\
    length (current_trajectories (self s')) = length trajs /\
    forall i tr start stop,
      trajs !! i = Some tr -> ranges !! i = Some (start, stop) ->
      exists tr',
        current_trajectories (self s') !! i = Some tr' /\
        Trajectory.val_preds tr'
        = Some (slice result (Some start) (Some (stop - 1))) /\
        length (slice result (Some start) (Some (stop - 1)))
        = length (Trajectory.obs_list tr) /\
        index result (stop - 1) = Ok (Trajectory.final_val_pred tr') /\
        tr' = set_final_val_pred (Trajectory.final_val_pred tr')
                (set_val_preds (Trajectory.val_preds tr') tr).
Proof.
  intros Hreq Hcritic Hlen trajs. fold trajs in Hreq.
  rewrite flatten_request_eq in Hreq. simplify_eq.
  assert (Hsum : length result = sum_list (request_len <$> trajs))
    by by rewrite Hlen, request_obs_length.
  split_and!.
  - done.
  - done.
  - by rewrite request_obs_length.
  - apply ranges_from_length.
  - intros i tr Hi. split_and!.
    + by rewrite (ranges_from_lookup _ _ _ _ Hi).
    + apply (own_range request_agent_ids); [|done].
      intros ?. apply length_replicate.
    + apply (own_range request_obs); [|done].
      intros ?. unfold request_obs, request_len.
      rewrite length_app, length_fmap. cbn. lia.
  - eexists. split; [by apply update_value_predictions_eq|]. cbn.
    split; [apply backfilled_length|].
    intros i tr start stop Hi Hr.
    rewrite (ranges_from_lookup _ _ _ _ Hi) in Hr. cbn in Hr. simplify_eq.
    exists (backfilled1 result (start_of trajs i) tr).
    rewrite (backfilled_lookup _ _ _ _ _ Hi). cbn.
    destruct (backfilled1_spec result trajs i tr Hi Hsum)
      as (H1 & _ & H3 & H4 & _ & H6).
    split_and!; done.
Qed.

(** C5, as amended: with three trajectories of 3, 1 and 5 observations
    the request has 4 + 2 + 6 = 12 entries, and trajectory 2 gets as
    [val_preds] the values at offsets 6 to 10 and as [final_val_pred] the
    value at offset 11. *)
Theorem value_backfill_example (s : State) (t0 t1 t2 : Traj) total ids obs
    ranges (result : list Value) l' :
  current_trajectories (self s) = [t0; t1; t2] ->
  length (Trajectory.obs_list t0) = 3%nat ->
  length (Trajectory.obs_list t1) = 1%nat ->
  length (Trajectory.obs_list t2) = 5%nat ->
  flatten_request [t0; t1; t2] = (total, ids, obs, ranges) ->
  critic ids obs (learner (self s)) = (Ok result, l') ->
  length result = length obs ->
  total = 12 /\ length ids = 12%nat /\ length obs = 12%nat /\
  ranges = [(0, 4); (4, 6); (6, 12)] /\
  exists s' t2',
    _update_value_predictions s = (Ok tt, s') /\
    current_trajectories (self s') !! 2%nat = Some t2' /\
    Trajectory.val_preds t2' = Some (take 5 (drop 6 result)) /\
    result !! 11%nat = Some (Trajectory.final_val_pred t2').
Proof.
  intros Hs H0 H1 H2 Hreq Hcritic Hlen.
  rewrite flatten_request_eq in Hreq. simplify_eq.
  assert (Hsum : sum_list (request_len <$> [t0; t1; t2]) = 12%nat)
    by (cbn; unfold request_len; rewrite H0, H1, H2; done).
  assert (Hobs : length ([t0; t1; t2] ≫= request_obs) = 12%nat)
    by by rewrite request_obs_length.
  assert (Hstart : start_of [t0; t1; t2] 2 = 6%nat)
    by (cbn; unfold request_len; rewrite H0, H1; done).
  split_and!.
  - by rewrite Hsum.
  - clear -H0 H1 H2. cbn. rewrite !length_app, !length_replicate.
    unfold request_len. rewrite H0, H1, H2. done.
  - done.
  - cbn. unfold request_len. rewrite H0, H1, H2. done.
  - eexists _, (backfilled1 result 6 t2).
    split; [apply update_value_predictions_eq; rewrite Hs; done|].
    cbn. rewrite Hs.
    destruct (backfilled1_spec result [t0; t1; t2] 2 t2)
      as (_ & _ & _ & _ & H5 & _); [done|by rewrite Hlen, Hobs|].
    rewrite Hstart, H2 in H5. split_and!.
    + cbn. unfold request_len. rewrite H0, H1. done.
    + cbn. by rewrite H2.
    + done.
Qed.

End Facts.
End BackfillFacts.

Module BackfillChecks.
Import PPOAgentController BackfillSpec BackfillFacts Demo.
Open Scope string_scope.

Lemma value_backfill_offsets_witness :
  exists s',
    _update_value_predictions three_trajectories = (Ok tt, s') /\
    length (current_trajectories (self s')) = 3%nat.
Proof.
  destruct (value_backfill_offsets three_trajectories
              12 (replicate 4 "A" ++ replicate 2 "B" ++ replicate 6 "A")
              (request_obs (traj "A" 3) ++ request_obs (traj "B" 1)
                 ++ request_obs (traj "A" 5))
              [(0, 4); (4, 6); (6, 12)]
              (Z.of_nat <$> seq 0 12) tt)
    as (_ & _ & _ & _ & _ & s' & Hrun & Hlen & _).
  - vm_compute. reflexivity.
  - vm_compute. reflexivity.
  - vm_compute. reflexivity.
  - exists s'. split; [exact Hrun|exact Hlen].
Defined.

Lemma value_backfill_example_witness :
  exists s' t2',
    _update_value_predictions three_trajectories = (Ok tt, s') /\
    current_trajectories (self s') !! 2%nat = Some t2' /\
    Trajectory.val_preds t2' = Some [6; 7; 8; 9; 10] /\
    Trajectory.final_val_pred t2' = 11.
Proof.
  destruct (value_backfill_example three_trajectories
              (traj "A" 3) (traj "B" 1) (traj "A" 5)
              12 (replicate 4 "A" ++ replicate 2 "B" ++ replicate 6 "A")
              (request_obs (traj "A" 3) ++ request_obs (traj "B" 1)
                 ++ request_obs (traj "A" 5))
              [(0, 4); (4, 6); (6, 12)]
              (Z.of_nat <$> seq 0 12) tt)
    as (_ & _ & _ & _ & s' & t2' & Hrun & Hl & Hv & Hf);
    try (vm_compute; reflexivity).
  exists s', t2'. split; [exact Hrun|]. split; [exact Hl|].
  split; [exact Hv|].
  change (Some 11 = Some (Trajectory.final_val_pred t2')) in Hf.
  by injection Hf.
Defined.

(** C5, as stated, fails: with a critic that answers every entry with its
    offset, trajectory 2 gets the offsets 6 to 10 and 11, not 4 to 8 and
    8. *)
Lemma value_backfill_example_counterexample :
  flatten_request [traj "A" 3; traj "B" 1; traj "A" 5]
  = (12, (replicate 4 "A" ++ replicate 2 "B" ++ replicate 6 "A")%list,
     (request_obs (traj "A" 3) ++ request_obs (traj "B" 1)
        ++ request_obs (traj "A" 5))%list,
     [(0, 4); (4, 6); (6, 12)]) /\
  exists s' t2',
    _update_value_predictions three_trajectories = (Ok tt, s') /\
    current_trajectories (self s') !! 2%nat = Some t2' /\
    Trajectory.val_preds t2' = Some [6; 7; 8; 9; 10] /\
    Trajectory.final_val_pred t2' = 11 /\
    Trajectory.val_preds t2' <> Some [4; 5; 6; 7; 8] /\
    Trajectory.final_val_pred t2' <> 8.
Proof.
  split; [vm_compute; reflexivity|].
  eexists _, _. split; [vm_compute; reflexivity|].
  split; [vm_compute; reflexivity|].
  vm_compute. repeat split; discriminate.
Qed.

End BackfillChecks.

(** ** Ordered dicts *)

Module OdictFacts.
Section Facts.
Context `{EqDecision K} {V : Type}.
Implicit Types d : list (K * V).

Lemma odict_get_set_eq k v d : odict_get k (odict_set k v d) = Some v.
Proof.
  induction d as [|[k' v'] d IH]; simpl.
  - by rewrite decide_True.
  - destruct (decide (k' = k)) as [->|Hne]; simpl.
    + by rewrite decide_True.
    + by rewrite decide_False.
Qed.




Lemma odict_get_pop_ne k k' d :
  k <> k' -> odict_get k' (odict_pop k d) = odict_get k' d.
Proof.
  intros Hne. induction d as [|[k0 v0] d IH]; simpl; [done|].
  destruct (decide (k0 = k)) as [->|Hne0]; simpl.
  - by rewrite decide_False.
  - by rewrite IH.
Qed.

Lemma odict_pop_keys k d : NoDup d.*1 -> NoDup (odict_pop k d).*1.
Proof.
  induction d as [|[k' v'] d IH]; simpl; [done|].
  intros [Hnotin Hnd]%NoDup_cons.
  destruct (decide (k' = k)) as [->|Hne]; simpl; [done|].
  apply NoDup_cons. split; [|by apply IH].
  intros Hin. apply Hnotin. clear -Hin. induction d as [|[k0 v0] d IH]; simpl in *; [done|].
  destruct (decide (k0 = k)); simpl in *; set_solver.
Qed.

End Facts.
End OdictFacts.

(** ** The reset/step decision *)

Module DecisionFacts.
Import PPOAgentController OdictFacts.
Section Facts.
Context {AgentID : Type} `{Countable AgentID}.
Context {Obs Action Reward LogProb Value StateMetrics Time : Type}.
Context {Learner ExperienceBuffer MetricsLogger ObsStandardizer : Type}.
Context {PPOData TrajectoryProcessorData AgentMetrics CollectedMetrics : Type}.
Context {LearnerCheckpoint BufferCheckpoint MetricsCheckpoint : Type}.
Context `{!Externals (AgentID:=AgentID) (Obs:=Obs) (Action:=Action)
            (Reward:=Reward) (LogProb:=LogProb) (Value:=Value)
            (StateMetrics:=StateMetrics) (Time:=Time) (Learner:=Learner)
            (ExperienceBuffer:=ExperienceBuffer) (MetricsLogger:=MetricsLogger)
            (ObsStandardizer:=ObsStandardizer) (PPOData:=PPOData)
            (TrajectoryProcessorData:=TrajectoryProcessorData)
            (AgentMetrics:=AgentMetrics) (CollectedMetrics:=CollectedMetrics)
            (LearnerCheckpoint:=LearnerCheckpoint)
            (BufferCheckpoint:=BufferCheckpoint)
            (MetricsCheckpoint:=MetricsCheckpoint)}.

Abbreviation State := (state (AgentID:=AgentID) (Obs:=Obs) (Action:=Action)
            (Reward:=Reward) (LogProb:=LogProb) (Value:=Value)
            (StateMetrics:=StateMetrics) (Time:=Time) (Learner:=Learner)
            (ExperienceBuffer:=ExperienceBuffer) (MetricsLogger:=MetricsLogger)
            (ObsStandardizer:=ObsStandardizer)
            (LearnerCheckpoint:=LearnerCheckpoint)
            (BufferCheckpoint:=BufferCheckpoint)
            (MetricsCheckpoint:=MetricsCheckpoint)).




End Facts.

Import Demo.
Open Scope string_scope.


End DecisionFacts.

(** ** The learning step *)

Module LearnFacts.
Import PPOAgentController ControllerSpec.
Section Facts.
Context {AgentID : Type} `{Countable AgentID}.
Context {Obs Action Reward LogProb Value StateMetrics Time : Type}.
Context {Learner ExperienceBuffer MetricsLogger ObsStandardizer : Type}.
Context {PPOData TrajectoryProcessorData AgentMetrics CollectedMetrics : Type}.
Context {LearnerCheckpoint BufferCheckpoint MetricsCheckpoint : Type}.
Context `{!Externals (AgentID:=AgentID) (Obs:=Obs) (Action:=Action)
            (Reward:=Reward) (LogProb:=LogProb) (Value:=Value)
            (StateMetrics:=StateMetrics) (Time:=Time) (Learner:=Learner)
            (ExperienceBuffer:=ExperienceBuffer) (MetricsLogger:=MetricsLogger)
            (ObsStandardizer:=ObsStandardizer) (PPOData:=PPOData)
            (TrajectoryProcessorData:=TrajectoryProcessorData)
            (AgentMetrics:=AgentMetrics) (CollectedMetrics:=CollectedMetrics)
            (LearnerCheckpoint:=LearnerCheckpoint)
            (BufferCheckpoint:=BufferCheckpoint)
            (MetricsCheckpoint:=MetricsCheckpoint)}.

Abbreviation State := (state (AgentID:=AgentID) (Obs:=Obs) (Action:=Action)
            (Reward:=Reward) (LogProb:=LogProb) (Value:=Value)
            (StateMetrics:=StateMetrics) (Time:=Time) (Learner:=Learner)
            (ExperienceBuffer:=ExperienceBuffer) (MetricsLogger:=MetricsLogger)
            (ObsStandardizer:=ObsStandardizer)
            (LearnerCheckpoint:=LearnerCheckpoint)
            (BufferCheckpoint:=BufferCheckpoint)
            (MetricsCheckpoint:=MetricsCheckpoint)).

Lemma keeps_ret {A} (a : A) : keeps (ret a : M State A).
Proof. by intros s. Qed.

Lemma keeps_raise {A} e : keeps (raise e : M State A).
Proof. by intros s. Qed.

Lemma keeps_lift {A} (r : res A) : keeps (lift r : M State A).
Proof. by intros s. Qed.

Lemma keeps_attr {A} (f : _ -> A) : keeps (attr f : M State A).
Proof. by intros s. Qed.

Lemma keeps_bind {A B} (m : M State A) (k : A -> M State B) :
  keeps m -> (forall a, keeps (k a)) -> keeps (bind m k).
Proof.
  intros Hm Hk s. unfold bind. specialize (Hm s).
  destruct (m s) as [[a|e] s1]; simpl in *; [|done].
  by rewrite Hk.
Qed.

Lemma keeps_for_each {A} (l : list A) (body : A -> M State unit) :
  (forall x, keeps (body x)) -> keeps (for_each l body).
Proof.
  intros Hb. induction l as [|x l IH]; simpl.
  - apply keeps_ret.
  - apply keeps_bind; [apply Hb|]. intros _. apply IH.
Qed.

Lemma keeps_with_learner {A} (m : M Learner A) : keeps (with_learner m : M State A).
Proof. intros s. unfold with_learner, zoom. by destruct (m _). Qed.

Lemma keeps_with_experience_buffer {A} (m : M ExperienceBuffer A) :
  keeps (with_experience_buffer m : M State A).
Proof. intros s. unfold with_experience_buffer, zoom. by destruct (m _). Qed.

Lemma keeps_with_learner_and_buffer {A} (m : M (Learner * ExperienceBuffer) A) :
  keeps (with_learner_and_buffer m : M State A).
Proof. intros s. unfold with_learner_and_buffer, zoom. by destruct (m _). Qed.

Lemma keeps_with_metrics_logger {A} (m : M MetricsLogger A) :
  keeps (with_metrics_logger m : M State A).
Proof.
  intros s. unfold with_metrics_logger.
  destruct (metrics_logger (self s)) as [l|] eqn:E; [|done].
  destruct (m l) as [r l']. unfold bookkeeping. cbn. rewrite E.
  do 2 f_equal.
Qed.

Lemma keeps_with_env_trajectories {A} env_id
    (m : M (EnvTrajectories.t AgentID Obs Action Reward LogProb) A) :
  keeps (with_env_trajectories env_id m : M State A).
Proof.
  intros s. unfold with_env_trajectories.
  destruct (odict_get _ _); [|done]. by destruct (m _).
Qed.

Lemma keeps_extend_current_trajectories trajs :
  keeps (extend_current_trajectories trajs : M State unit).
Proof. by intros s. Qed.

Lemma keeps_update_trajectory idx f : keeps (update_trajectory idx f : M State unit).
Proof.
  intros s. unfold update_trajectory, bind, attr, gets. cbn.
  by destruct (_ !! idx).
Qed.

Lemma keeps_update_value_predictions : keeps (_update_value_predictions : M State unit).
Proof.
  unfold _update_value_predictions.
  apply keeps_bind; [apply keeps_attr|]. intros trajs.
  destruct (flatten_request trajs) as [[[? ids] obs] ranges].
  apply keeps_bind; [apply keeps_with_learner|]. intros result.
  apply keeps_for_each. intros [idx [start stop]]. unfold backfill.
  apply keeps_bind; [apply keeps_update_trajectory|]. intros _.
  apply keeps_bind; [apply keeps_lift|]. intros v.
  apply keeps_update_trajectory.
Qed.

Lemma keeps_finalize_env env_id : keeps (finalize_env env_id : M State unit).
Proof.
  unfold finalize_env.
  apply keeps_bind; [apply keeps_with_env_trajectories|]. intros _.
  apply keeps_bind; [apply keeps_with_env_trajectories|]. intros trajs.
  apply keeps_extend_current_trajectories.
Qed.

Lemma keeps_learn_collect : keeps (learn_collect : M State _).
Proof.
  unfold learn_collect.
  apply keeps_bind; [apply keeps_attr|]. intros env_ids.
  apply keeps_bind; [apply keeps_for_each, keeps_finalize_env|]. intros _.
  apply keeps_bind; [apply keeps_update_value_predictions|]. intros _.
  apply keeps_bind; [apply keeps_attr|]. intros trajs.
  apply keeps_bind; [apply keeps_with_experience_buffer|]. intros tpd.
  apply keeps_bind; [apply keeps_with_learner_and_buffer|]. intros ppo.
  apply keeps_ret.
Qed.

Lemma keeps_learn_report cur_time tpd ppo :
  keeps (learn_report cur_time tpd ppo : M State unit).
Proof.
  unfold learn_report.
  apply keeps_bind; [apply keeps_attr|]. intros [l|]; [|apply keeps_ret].
  repeat (apply keeps_bind; [apply keeps_attr|]; intros ?).
  destruct a2 as [end_time|]; [|apply keeps_raise].
  apply keeps_bind; [apply keeps_attr|]. intros ?.
  apply keeps_bind; [apply keeps_with_metrics_logger|]. intros ?.
  apply keeps_bind; [apply keeps_attr|]. intros ?.
  apply keeps_bind; [apply keeps_with_metrics_logger|]. intros ?.
  apply keeps_bind; [apply keeps_attr|]. intros ?.
  apply keeps_bind; [apply keeps_attr|]. intros ?.
  apply keeps_with_metrics_logger.
Qed.

(** The guard of the metrics block. *)
Lemma learn_report_without_logger (s : State) cur_time tpd ppo :
  metrics_logger (self s) = None ->
  learn_report cur_time tpd ppo s = (Ok tt, s).
Proof.
  intros Hnone. unfold learn_report, bind, attr, gets. cbn.
  by rewrite Hnone.
Qed.

(** C3: when a learning step returns, the state metrics, the trackers
    and the completed trajectories are empty, [iteration_timesteps] was
    added to [ts_since_last_save] and is zero, the iteration timer holds
    the first reading of the clock after learning and the collection timer
    the next one; and [cur_iteration] is what it was: the step does not
    count itself. *)
Theorem learn_resets_iteration_state (s s' : State) :
  _learn s = (Ok tt, s') ->
  iteration_state_metrics (self s') = [] /\
  current_env_trajectories (self s') = [] /\
  current_trajectories (self s') = [] /\
  ts_since_last_save (self s')
  = ts_since_last_save (self s) + iteration_timesteps (self s) /\
  iteration_timesteps (self s') = 0 /\
  iteration_start_time (self s') = perf_counter_at (perf_counter_calls s) /\
  timestep_collection_start_time (self s')
  = perf_counter_at (S (perf_counter_calls s)) /\
  cur_iteration (self s') = cur_iteration (self s).
Proof.
  unfold _learn, bind at 1.
  pose proof (keeps_learn_collect s) as H1.
  destruct (learn_collect s) as [[[tpd ppo]|e] s1]; [|done].
  unfold bind at 1, perf_counter at 1. cbn [fst snd].
  set (s2 := mkState _ _ _ _).
  unfold bind at 1.
  pose proof (keeps_learn_report (perf_counter_at (perf_counter_calls s1))
                tpd ppo s2) as H2.
  destruct (learn_report _ _ _ s2) as [[[]|e] s3]; [|done].
  unfold learn_reset, bind, assign, modify, perf_counter. cbn.
  intros [= <-]. cbn.
  unfold bookkeeping in *. cbn in *. simplify_eq.
  split_and!; try done; congruence.
Qed.

End Facts.
End LearnFacts.

(** ** [int] and [str] *)

Module NameFacts.
Import CheckpointSpec.

(** A digit is no blank, no sign and no underscore. *)
Lemma isdigit_plain c :
  isdigit c = true ->
  isspace c = false /\ (Ascii.nat_of_ascii c =? 45)%nat = false /\
  (Ascii.nat_of_ascii c =? 43)%nat = false.
Proof.
  destruct c as [[|] [|] [|] [|] [|] [|] [|] [|]];
    (discriminate || (intros _; repeat split)).
Qed.

Lemma digits_of_uint (d : Decimal.uint) : forall b,
  d <> Decimal.Nil \/ b = true ->
  digits_of b (NilEmpty.string_of_uint d) = Some (NilEmpty.string_of_uint d).
Proof.
  induction d as [|d IH|d IH|d IH|d IH|d IH|d IH|d IH|d IH|d IH|d IH];
    intros b Hb;
    [by destruct Hb as [?| ->]|..];
    cbn [NilEmpty.string_of_uint digits_of];
    (change (isdigit _) with true; cbn match;
     by rewrite IH by (by right)).
Qed.

Lemma uint_head (d : Decimal.uint) :
  d <> Decimal.Nil ->
  exists c rest, NilEmpty.string_of_uint d = String c rest /\ isdigit c = true.
Proof. destruct d; [done|..]; intros _; by eexists _, _. Qed.

Lemma int_str z : int (str z) = Ok z.
Proof.
  assert (Hu : forall d, d <> Decimal.Nil ->
            int (NilEmpty.string_of_uint d)
            = match NilZero.int_of_string (NilEmpty.string_of_uint d) with
              | Some i => Ok (Z.of_int i)
              | None => Raise ValueError
              end).
  { intros d Hd. destruct (uint_head d Hd) as (c & rest & E & Hc).
    destruct (isdigit_plain c Hc) as (H1 & H2 & H3).
    unfold int. rewrite E. cbn [lstrip]. rewrite H1, H2, H3. rewrite <- E.
    by rewrite digits_of_uint by (by left). }
  assert (Hn : forall d, d <> Decimal.Nil ->
            int (NilZero.string_of_int (Decimal.Neg d))
            = match NilZero.int_of_string
                      (NilZero.string_of_int (Decimal.Neg d)) with
              | Some i => Ok (Z.of_int i)
              | None => Raise ValueError
              end).
  { intros d Hd. unfold NilZero.string_of_int.
    replace (NilZero.string_of_uint d) with (NilEmpty.string_of_uint d)
      by (by destruct d).
    unfold int. cbn [lstrip].
    change (isspace _) with false. cbn match.
    change (Ascii.nat_of_ascii _ =? 45)%nat with true. cbn match.
    by rewrite digits_of_uint by (by left). }
  assert (Hparse : NilZero.int_of_string (str z) = Some (Z.to_int z)).
  { unfold str. apply NilZero.isi.
    - destruct z as [|p|p]; simpl; try discriminate.
      intros [= Hp]. by apply DecimalPos.Unsigned.to_uint_nonnil in Hp.
    - destruct z as [|p|p]; simpl; try discriminate.
      intros [= Hp]. by apply DecimalPos.Unsigned.to_uint_nonnil in Hp. }
  assert (E : int (str z)
              = match NilZero.int_of_string (str z) with
                | Some i => Ok (Z.of_int i)
                | None => Raise ValueError
                end).
  { unfold str. destruct z as [|p|p]; cbn [Z.to_int].
    - reflexivity.
    - pose proof (DecimalPos.Unsigned.to_uint_nonnil p) as Hp.
      unfold NilZero.string_of_int.
      replace (NilZero.string_of_uint (Pos.to_uint p))
        with (NilEmpty.string_of_uint (Pos.to_uint p))
        by (by destruct (Pos.to_uint p)).
      by apply Hu.
    - pose proof (DecimalPos.Unsigned.to_uint_nonnil p) as Hp.
      by apply Hn. }
  rewrite E, Hparse. by rewrite DecimalZ.of_to.
Qed.

Lemma str_inj a b : str a = str b -> a = b.
Proof.
  intros E. pose proof (int_str a) as Ha. rewrite E, int_str in Ha.
  congruence.
Qed.

Lemma token_str z : token (str z) = Some z.
Proof. unfold token. by rewrite int_str, decide_True. Qed.

Lemma token_Some name z : token name = Some z -> name = str z /\ int name = Ok z.
Proof.
  unfold token. destruct (int name) as [z'|e] eqn:E; [|done].
  case_decide; [|done]. intros [= <-]. done.
Qed.

End NameFacts.

(** ** Checkpoints *)

Module CheckpointFacts.
Import PPOAgentController ControllerSpec CheckpointSpec.
Section Facts.
Context {AgentID : Type} `{Countable AgentID}.
Context {Obs Action Reward LogProb Value StateMetrics Time : Type}.
Context {Learner ExperienceBuffer MetricsLogger ObsStandardizer : Type}.
Context {PPOData TrajectoryProcessorData AgentMetrics CollectedMetrics : Type}.
Context {LearnerCheckpoint BufferCheckpoint MetricsCheckpoint : Type}.
Context `{!Externals (AgentID:=AgentID) (Obs:=Obs) (Action:=Action)
            (Reward:=Reward) (LogProb:=LogProb) (Value:=Value)
            (StateMetrics:=StateMetrics) (Time:=Time) (Learner:=Learner)
            (ExperienceBuffer:=ExperienceBuffer) (MetricsLogger:=MetricsLogger)
            (ObsStandardizer:=ObsStandardizer) (PPOData:=PPOData)
            (TrajectoryProcessorData:=TrajectoryProcessorData)
            (AgentMetrics:=AgentMetrics) (CollectedMetrics:=CollectedMetrics)
            (LearnerCheckpoint:=LearnerCheckpoint)
            (BufferCheckpoint:=BufferCheckpoint)
            (MetricsCheckpoint:=MetricsCheckpoint)}.

Abbreviation State := (state (AgentID:=AgentID) (Obs:=Obs) (Action:=Action)
            (Reward:=Reward) (LogProb:=LogProb) (Value:=Value)
            (StateMetrics:=StateMetrics) (Time:=Time) (Learner:=Learner)
            (ExperienceBuffer:=ExperienceBuffer) (MetricsLogger:=MetricsLogger)
            (ObsStandardizer:=ObsStandardizer)
            (LearnerCheckpoint:=LearnerCheckpoint)
            (BufferCheckpoint:=BufferCheckpoint)
            (MetricsCheckpoint:=MetricsCheckpoint)).

(** Writing into a directory that is there. *)
Lemma write_ok (s : State) name f d :
  fs s !! name = Some d ->
  write name f s = (Ok tt, on_fs <[name := f d]> s).
Proof. intros Hd. unfold write, bind, gets. cbn. by rewrite Hd. Qed.

(** C10: without a metrics logger [save_checkpoint] raises on every
    state, and what it raises once the learner and the buffer have saved
    is the [AttributeError] of the call on [None]; the metrics block of
    the learning step, under its guard, returns without a logger. *)
Theorem save_checkpoint_without_metrics_logger (s : State) :
  metrics_logger (self s) = None ->
  (exists e s', save_checkpoint s = (Raise e, s')) /\
  (forall lc l' bc b',
     learner_save_checkpoint (learner (self s)) = (Ok lc, l') ->
     buffer_save_checkpoint (experience_buffer (self s)) = (Ok bc, b') ->
     exists s', save_checkpoint s = (Raise AttributeError, s')) /\
  (forall cur_time tpd ppo, learn_report cur_time tpd ppo s = (Ok tt, s)).
Proof.
  intros Hnone.
  assert (Hrun : exists e s',
             save_checkpoint s = (Raise e, s') /\
             forall lc l' bc b',
               learner_save_checkpoint (learner (self s)) = (Ok lc, l') ->
               buffer_save_checkpoint (experience_buffer (self s)) = (Ok bc, b') ->
               e = AttributeError).
  { unfold save_checkpoint, write_checkpoint, bind at 1 2 3.
    unfold time_ns at 1. cbn [fst snd].
    set (name := str _). unfold makedirs_exist_ok, modify at 1. cbn [fst snd].
    set (s1 := on_fs _ _).
    assert (Hdir : is_Some (fs s1 !! name)).
    { unfold s1. cbn. destruct (fs s !! name) eqn:E; [by rewrite E|].
      by rewrite lookup_insert_eq. }
    destruct Hdir as [d Hd].
    unfold bind at 1, with_learner at 1, zoom.
    change (learner (self s1)) with (learner (self s)).
    destruct (learner_save_checkpoint (learner (self s))) as [[lc|e] l1].
    2:{ eexists _, _. split; [reflexivity|]. intros; simplify_eq. }
    unfold bind at 1. rewrite (write_ok _ name _ d) by (cbn; exact Hd).
    unfold bind at 1, with_experience_buffer at 1, zoom.
    cbn [self on_fs on_self experience_buffer set_learner].
    change (experience_buffer (self s1)) with (experience_buffer (self s)).
    destruct (buffer_save_checkpoint (experience_buffer (self s))) as [[bc|e] b1].
    2:{ eexists _, _. split; [reflexivity|]. intros; simplify_eq. }
    unfold bind at 1.
    rewrite (write_ok _ name _ (set_ppo_learner (Some lc) d))
      by (cbn; apply lookup_insert_eq).
    unfold bind at 1, with_metrics_logger at 1. cbn. rewrite Hnone.
    eexists _, _. split; [reflexivity|]. done. }
  destruct Hrun as (e & s' & Hrun & He). split_and!.
  - by exists e, s'.
  - intros lc l' bc b' Hl Hb. exists s'. by rewrite Hrun, (He _ _ _ _ Hl Hb).
  - intros. unfold learn_report, bind, attr, gets. cbn. by rewrite Hnone.
Qed.

(** What [write_checkpoint] leaves when it returns. *)
Lemma write_checkpoint_ok (s s1 : State) name :
  write_checkpoint s = (Ok name, s1) ->
  name = str (time_ns_at (time_ns_calls s)) /\
  (exists lc bc mc run_id,
     fs s1 = <[name := mkDir (Some lc) (Some bc) (Some mc)
                 (Some (current_trajectories (self s)))
                 (Some (iteration_state_metrics (self s)))
                 (Some (mkJson (cur_iteration (self s))
                          (iteration_timesteps (self s))
                          (cumulative_timesteps (self s))
                          (iteration_start_time (self s))
                          (timestep_collection_start_time (self s))
                          run_id))]> (fs s)) /\
  config (self s1) = config (self s) /\
  current_env_trajectories (self s1) = current_env_trajectories (self s) /\
  current_trajectories (self s1) = current_trajectories (self s) /\
  is_Some (metrics_logger (self s)).
Proof.
  unfold write_checkpoint, bind at 1 2.
  unfold time_ns at 1. cbn [fst snd].
  set (name0 := str _). unfold makedirs_exist_ok, modify at 1. cbn [fst snd].
  set (s0 := on_fs _ _).
  assert (Hdir : exists d, fs s0 !! name0 = Some d /\
                           forall d', <[name0 := d']> (fs s0)
                                      = <[name0 := d']> (fs s)).
  { unfold s0. cbn. destruct (fs s !! name0) eqn:E.
    - rewrite E. eauto.
    - rewrite lookup_insert_eq. eexists. split; [done|].
      intros. by rewrite insert_insert_eq. }
  destruct Hdir as (d & Hd & Hins).
  unfold bind at 1, with_learner at 1, zoom.
  change (learner (self s0)) with (learner (self s)).
  destruct (learner_save_checkpoint (learner (self s))) as [[lc|e] l1]; [|done].
  unfold bind at 1. rewrite (write_ok _ name0 _ d) by (cbn; exact Hd).
  unfold bind at 1, with_experience_buffer at 1, zoom.
  cbn [self on_fs on_self experience_buffer set_learner].
  change (experience_buffer (self s0)) with (experience_buffer (self s)).
  destruct (buffer_save_checkpoint (experience_buffer (self s)))
    as [[bc|e] b1]; [|done].
  unfold bind at 1.
  rewrite (write_ok _ name0 _ (set_ppo_learner (Some lc) d))
    by (cbn; apply lookup_insert_eq).
  unfold bind at 1, with_metrics_logger at 1.
  cbn [self on_fs on_self metrics_logger set_learner set_experience_buffer].
  change (metrics_logger (self s0)) with (metrics_logger (self s)).
  destruct (metrics_logger (self s)) as [ml|] eqn:Hml; [|done].
  destruct (metrics_save_checkpoint ml) as [[mc|e] ml1]; [|done].
  unfold bind at 1.
  rewrite (write_ok _ name0 _
             (set_experience_buffer_folder (Some bc)
                (set_ppo_learner (Some lc) d)))
    by (cbn; apply lookup_insert_eq).
  unfold bind at 1 2, attr at 1, gets at 1. cbn [fst snd].
  rewrite (write_ok _ name0 _
             (set_metrics_logger_folder (Some mc)
                (set_experience_buffer_folder (Some bc)
                   (set_ppo_learner (Some lc) d))))
    by (cbn; apply lookup_insert_eq).
  unfold bind at 1 2, attr at 1, gets at 1. cbn [fst snd].
  match goal with
  | |- context [write name0 ?f ?st] =>
      rewrite (write_ok st name0 f
                 (set_current_trajectories_pkl
                    (Some (current_trajectories (self s)))
                    (set_metrics_logger_folder (Some mc)
                       (set_experience_buffer_folder (Some bc)
                          (set_ppo_learner (Some lc) d)))))
        by (cbn; apply lookup_insert_eq)
  end.
  unfold bind at 1.
  match goal with
  | |- context [write name0 ?f ?st] =>
      rewrite (write_ok st name0 f
                 (set_iteration_state_metrics_pkl
                    (Some (iteration_state_metrics (self s)))
                    (set_current_trajectories_pkl
                       (Some (current_trajectories (self s)))
                       (set_metrics_logger_folder (Some mc)
                          (set_experience_buffer_folder (Some bc)
                             (set_ppo_learner (Some lc) d))))))
        by (cbn; apply lookup_insert_eq)
  end.
  unfold bind at 1 2, gets at 1. cbn [fst snd].
  cbn [self on_fs on_self config log_to_wandb wandb_run set_metrics_logger
       set_experience_buffer set_learner].
  change (config (self s0)) with (config (self s)).
  change (wandb_run (self s0)) with (wandb_run (self s)).
  set (run_id := if log_to_wandb (config (self s)) then _ else _).
  assert (Hrun : forall st : State,
             (exists r, run_id st = (Ok r, st)) \/
             (exists e, run_id st = (Raise e, st))).
  { intros st. unfold run_id.
    destruct (log_to_wandb _); [|left; by eexists].
    destruct (wandb_run _); [left|right]; by eexists. }
  match goal with
  | |- context [run_id ?st] => destruct (Hrun st) as [[r Hr]|[e Hr]]; rewrite Hr
  end; [|done].
  unfold bind at 1.
  match goal with
  | |- context [write name0 ?f ?st] =>
      rewrite (write_ok st name0 f
                 (set_ppo_agent_json None
                    (set_iteration_state_metrics_pkl
                       (Some (iteration_state_metrics (self s)))
                       (set_current_trajectories_pkl
                          (Some (current_trajectories (self s)))
                          (set_metrics_logger_folder (Some mc)
                             (set_experience_buffer_folder (Some bc)
                                (set_ppo_learner (Some lc) d)))))))
        by (cbn; apply lookup_insert_eq)
  end.
  unfold ret. intros [= <- <-]. split_and!; try done.
  exists lc, bc, mc, r. cbn. rewrite !insert_insert_eq. by rewrite Hins.
Qed.

End Facts.
End CheckpointFacts.

(** ** Pruning *)

Module PruneFacts.
Import PPOAgentController ControllerSpec CheckpointSpec NameFacts.
#[local] Arguments slice : simpl never.
Section Facts.
Context {AgentID : Type} `{Countable AgentID}.
Context {Obs Action Reward LogProb Value StateMetrics Time : Type}.
Context {Learner ExperienceBuffer MetricsLogger ObsStandardizer : Type}.
Context {PPOData TrajectoryProcessorData AgentMetrics CollectedMetrics : Type}.
Context {LearnerCheckpoint BufferCheckpoint MetricsCheckpoint : Type}.
Context `{!Externals (AgentID:=AgentID) (Obs:=Obs) (Action:=Action)
            (Reward:=Reward) (LogProb:=LogProb) (Value:=Value)
            (StateMetrics:=StateMetrics) (Time:=Time) (Learner:=Learner)
            (ExperienceBuffer:=ExperienceBuffer) (MetricsLogger:=MetricsLogger)
            (ObsStandardizer:=ObsStandardizer) (PPOData:=PPOData)
            (TrajectoryProcessorData:=TrajectoryProcessorData)
            (AgentMetrics:=AgentMetrics) (CollectedMetrics:=CollectedMetrics)
            (LearnerCheckpoint:=LearnerCheckpoint)
            (BufferCheckpoint:=BufferCheckpoint)
            (MetricsCheckpoint:=MetricsCheckpoint)}.

Abbreviation State := (state (AgentID:=AgentID) (Obs:=Obs) (Action:=Action)
            (Reward:=Reward) (LogProb:=LogProb) (Value:=Value)
            (StateMetrics:=StateMetrics) (Time:=Time) (Learner:=Learner)
            (ExperienceBuffer:=ExperienceBuffer) (MetricsLogger:=MetricsLogger)
            (ObsStandardizer:=ObsStandardizer)
            (LearnerCheckpoint:=LearnerCheckpoint)
            (BufferCheckpoint:=BufferCheckpoint)
            (MetricsCheckpoint:=MetricsCheckpoint)).

(** [l[:-n]] for a positive [n] drops the last [n] entries. *)
Lemma slice_drop_last {A} (l : list A) (n : Z) :
  1 <= n -> slice l None (Some (- n)) = take (length l - Z.to_nat n) l.
Proof.
  intros Hn. unfold slice, clamp.
  destruct (Z.ltb_spec (- n) 0); [|lia].
  rewrite Z.sub_0_r, drop_0. f_equal. lia.
Qed.

(** [l[:-0]] is [l[:0]]. *)
Lemma slice_drop_last_0 {A} (l : list A) : slice l None (Some (- 0)) = [].
Proof. unfold slice, clamp. simpl. by rewrite Z.min_l by lia. Qed.

Lemma strictly_sorted (l : list Z) :
  StronglySorted Z.le l -> NoDup l -> StronglySorted Z.lt l.
Proof.
  induction 1 as [|x l Hs IH Hall]; intros Hnd; constructor.
  - apply IH. by apply NoDup_cons in Hnd as [_ ?].
  - apply NoDup_cons in Hnd as [Hx _].
    rewrite Forall_forall in Hall |- *. intros y Hy.
    specialize (Hall y Hy).
    assert (x <> y) by (intros ->; done). lia.
Qed.

Lemma parse_names (names : list string) :
  Forall (fun name => is_Some (token name)) names ->
  exists tokens, map_res int names = Ok tokens /\ names = str <$> tokens.
Proof.
  induction 1 as [|name names [z Hz] _ (tokens & Hm & Hn)].
  - by exists [].
  - apply token_Some in Hz as [-> Hi]. exists (z :: tokens).
    simpl. rewrite int_str, Hm. by rewrite Hn.
Qed.

(** The loop of [prune]. *)
Lemma rmtree_loop (victims : list Z) : forall s : State,
  NoDup victims -> (forall c, c ∈ victims -> str c ∈ dom (fs s)) ->
  exists s',
    for_each victims (fun c => rmtree (str c)) s = (Ok tt, s') /\
    self s' = self s /\ perf_counter_calls s' = perf_counter_calls s /\
    time_ns_calls s' = time_ns_calls s /\
    forall name, fs s' !! name
                 = if decide (name ∈ str <$> victims) then None
                   else fs s !! name.
Proof.
  induction victims as [|c victims IH]; intros s Hnd Hin.
  - exists s. split_and!; done.
  - apply NoDup_cons in Hnd as [Hc Hnd].
    assert (Hdir : is_Some (fs s !! str c)).
    { apply elem_of_dom, Hin. by left. }
    destruct Hdir as [d Hd].
    destruct (IH (on_fs (delete (str c)) s) Hnd) as (s' & Hrun & Hs & Hp & Ht & Hfs).
    { intros c' Hc'. cbn. rewrite dom_delete_L.
      apply elem_of_difference. split; [apply Hin; by right|].
      intros ->%elem_of_singleton%str_inj. done. }
    exists s'. cbn [for_each]. unfold bind, rmtree at 1, bind, gets.
    cbn. rewrite Hd. unfold modify. split_and!; try done.
    intros name. rewrite Hfs. cbn [fs on_fs].
    destruct (decide (name = str c)) as [->|Hne].
    + rewrite lookup_delete_eq.
      rewrite (decide_True (P := str c ∈ str c :: (str <$> victims)))
        by left.
      by destruct (decide _).
    + rewrite lookup_delete_ne by done.
      repeat case_decide; try done; exfalso; set_solver.
Qed.

(** What [prune] does to a folder of checkpoints when at least one is to
    be kept. *)
Lemma prune_spec (s : State) :
  1 <= n_checkpoints_to_keep (config (self s)) ->
  checkpoints_only (fs s) ->
  exists victims kept s',
    prune s = (Ok tt, s') /\
    prune s = for_each victims (fun c => rmtree (str c)) s /\
    StronglySorted Z.lt (victims ++ kept) /\
    dom (fs s) = list_to_set (str <$> victims ++ kept) /\
    dom (fs s') = list_to_set (str <$> kept) /\
    Z.of_nat (length kept)
    = Z.min (n_checkpoints_to_keep (config (self s)))
            (Z.of_nat (size (fs s))) /\
    (forall name, name ∈ dom (fs s') -> fs s' !! name = fs s !! name) /\
    self s' = self s.
Proof.
  intros Hkeep Honly. set (n_keep := n_checkpoints_to_keep _) in *.
  set (names := (map_to_list (fs s)).*1).
  assert (Hnames : forall name, name ∈ names <-> name ∈ dom (fs s)).
  { intros name. unfold names. rewrite elem_of_dom. split.
    - intros [[n d] [-> Hin]]%list_elem_of_fmap.
      apply elem_of_map_to_list in Hin. by eexists.
    - intros [d Hd]. apply list_elem_of_fmap. exists (name, d).
      split; [done|]. by apply elem_of_map_to_list. }
  destruct (parse_names names) as (tokens & Hparse & Hstr).
  { apply Forall_forall. intros name Hin. by apply Honly, Hnames. }
  assert (Hnd : NoDup tokens).
  { apply (NoDup_fmap_1 str). rewrite <- Hstr. apply NoDup_fst_map_to_list. }
  assert (Hlen : length tokens = size (fs s)).
  { rewrite <- length_map_to_list.
    rewrite <- (length_fmap fst (map_to_list (fs s))).
    fold names. by rewrite Hstr, length_fmap. }
  set (sorted := merge_sort Z.le tokens).
  assert (Hperm : sorted ≡ₚ tokens) by apply merge_sort_Permutation.
  assert (Hsorted : StronglySorted Z.lt sorted).
  { apply strictly_sorted.
    - apply StronglySorted_merge_sort; apply _.
    - by rewrite Hperm. }
  set (k := (length sorted - Z.to_nat n_keep)%nat).
  assert (Hprune : prune s = for_each (take k sorted)
                               (fun c => rmtree (str c)) s).
  { unfold prune, bind at 1, listdir, gets. cbn [fst snd]. fold names.
    unfold bind at 1, lift. rewrite Hparse.
    unfold bind at 1, attr, gets. cbn [fst snd]. fold n_keep.
    destruct (Z.gtb_spec (Z.of_nat (length tokens)) n_keep) as [Hgt|Hle].
    - fold sorted. by rewrite slice_drop_last.
    - replace k with 0%nat; [done|]. unfold k.
      rewrite (Permutation_length Hperm). lia. }
  assert (Hndsorted : NoDup (take k sorted ++ drop k sorted))
    by (rewrite take_drop; by rewrite Hperm).
  destruct (rmtree_loop (take k sorted) s) as (s' & Hrun & Hself & _ & _ & Hfs).
  { by apply NoDup_app in Hndsorted as (? & _ & _). }
  { intros c Hc. apply Hnames. rewrite Hstr. apply list_elem_of_fmap.
    exists c. split; [done|]. rewrite <- Hperm, <- (take_drop k sorted).
    apply elem_of_app. by left. }
  assert (Hdom : dom (fs s) = list_to_set (str <$> take k sorted ++ drop k sorted)).
  { rewrite take_drop. apply set_eq. intros name.
    rewrite <- Hnames, Hstr, elem_of_list_to_set.
    by rewrite Hperm. }
  assert (Hndstr : NoDup (str <$> take k sorted ++ drop k sorted)).
  { rewrite take_drop. apply NoDup_fmap_2; [intros ? ?; apply str_inj|].
    by rewrite Hperm. }
  rewrite fmap_app in Hndstr. apply NoDup_app in Hndstr as (_ & Hdisj & _).
  exists (take k sorted), (drop k sorted), s'. split_and!.
  - by rewrite Hprune.
  - done.
  - by rewrite take_drop.
  - done.
  - apply set_eq. intros name. rewrite elem_of_dom, Hfs.
    rewrite elem_of_list_to_set. case_decide as Hv.
    + split; [by intros [? ?]|]. intros Hk. by apply Hdisj in Hv.
    + rewrite <- elem_of_dom, Hdom, elem_of_list_to_set, fmap_app.
      rewrite elem_of_app. tauto.
  - rewrite length_drop. unfold k. rewrite (Permutation_length Hperm), Hlen. lia.
  - intros name Hin. rewrite Hfs. case_decide as Hv; [|done].
    apply elem_of_dom in Hin as [d Hd]. rewrite Hfs in Hd.
    by rewrite decide_True in Hd.
  - done.
Qed.

End Facts.
End PruneFacts.

(** ** Saving, pruning and loading *)

Module SaveLoadFacts.
Import PPOAgentController ControllerSpec CheckpointSpec NameFacts.
Import CheckpointFacts PruneFacts.
Section Facts.
Context {AgentID : Type} `{Countable AgentID}.
Context {Obs Action Reward LogProb Value StateMetrics Time : Type}.
Context {Learner ExperienceBuffer MetricsLogger ObsStandardizer : Type}.
Context {PPOData TrajectoryProcessorData AgentMetrics CollectedMetrics : Type}.
Context {LearnerCheckpoint BufferCheckpoint MetricsCheckpoint : Type}.
Context `{!Externals (AgentID:=AgentID) (Obs:=Obs) (Action:=Action)
            (Reward:=Reward) (LogProb:=LogProb) (Value:=Value)
            (StateMetrics:=StateMetrics) (Time:=Time) (Learner:=Learner)
            (ExperienceBuffer:=ExperienceBuffer) (MetricsLogger:=MetricsLogger)
            (ObsStandardizer:=ObsStandardizer) (PPOData:=PPOData)
            (TrajectoryProcessorData:=TrajectoryProcessorData)
            (AgentMetrics:=AgentMetrics) (CollectedMetrics:=CollectedMetrics)
            (LearnerCheckpoint:=LearnerCheckpoint)
            (BufferCheckpoint:=BufferCheckpoint)
            (MetricsCheckpoint:=MetricsCheckpoint)}.

Abbreviation State := (state (AgentID:=AgentID) (Obs:=Obs) (Action:=Action)
            (Reward:=Reward) (LogProb:=LogProb) (Value:=Value)
            (StateMetrics:=StateMetrics) (Time:=Time) (Learner:=Learner)
            (ExperienceBuffer:=ExperienceBuffer) (MetricsLogger:=MetricsLogger)
            (ObsStandardizer:=ObsStandardizer)
            (LearnerCheckpoint:=LearnerCheckpoint)
            (BufferCheckpoint:=BufferCheckpoint)
            (MetricsCheckpoint:=MetricsCheckpoint)).

(** The retention rule where the code meets it: with a retention count
    of at least 1 and a save folder of checkpoint directories, a save that
    returns leaves the newest directories, as many as the count (all if
    there are fewer), the new one counted in: every directory that went
    has a smaller token than every one that stayed, and the directories
    went in the order of their tokens, oldest first. *)
Theorem save_prunes_oldest (s s' : State) :
  1 <= n_checkpoints_to_keep (config (self s)) ->
  checkpoints_only (fs s) ->
  save_checkpoint s = (Ok tt, s') ->
  let new := str (time_ns_at (time_ns_calls s)) in
  let n_keep := n_checkpoints_to_keep (config (self s)) in
  let before : gset string := {[new]} ∪ dom (fs s) in
  dom (fs s') ⊆ before /\
  Z.of_nat (size (dom (fs s'))) = Z.min n_keep (Z.of_nat (size before)) /\
  (forall gone kept zg zk,
     gone ∈ before -> gone ∉ dom (fs s') -> kept ∈ dom (fs s') ->
     token gone = Some zg -> token kept = Some zk -> zg < zk) /\
  (exists s1 victims,
     write_checkpoint s = (Ok new, s1) /\
     prune s1 = for_each victims (fun c => rmtree (str c)) s1 /\
     StronglySorted Z.lt victims /\
     before ∖ dom (fs s') = list_to_set (str <$> victims)).
Proof.
  intros Hkeep Honly Hsave new n_keep before.
  unfold save_checkpoint, bind in Hsave.
  destruct (write_checkpoint s) as [[name|e] s1] eqn:Hwrite; [|done].
  apply write_checkpoint_ok in Hwrite as Hw.
  destruct Hw as (-> & (lc & bc & mc & run_id & Hfs) & Hcfg & _).
  fold new in Hfs, Hwrite, Hsave.
  assert (Hdom1 : dom (fs s1) = before)
    by (rewrite Hfs, dom_insert_L; done).
  destruct (prune_spec s1) as (victims & kept & s2 & Hp & Hloop & Hsort
                               & Hdom & Hdom' & Hlen & _ & _).
  { by rewrite Hcfg. }
  { intros name. rewrite Hdom1. unfold before.
    intros [->%elem_of_singleton|Hin]%elem_of_union.
    - unfold new. rewrite token_str. by eexists.
    - by apply Honly. }
  rewrite Hp in Hsave. simplify_eq.
  rewrite Hcfg in Hlen. fold n_keep in Hlen.
  rewrite Hdom1 in Hdom.
  assert (Hnd : NoDup (str <$> victims ++ kept)).
  { apply NoDup_fmap_2; [intros ? ?; apply str_inj|].
    clear -Hsort. induction Hsort as [|x l _ IH Hall]; constructor; [|done].
    intros Hin. rewrite Forall_forall in Hall. apply Hall in Hin. lia. }
  rewrite fmap_app in Hnd, Hdom.
  apply NoDup_app in Hnd as (Hndv & Hdisj & Hndk).
  split_and!.
  - rewrite Hdom, Hdom', list_to_set_app_L. set_solver.
  - rewrite Hdom', size_list_to_set, length_fmap by done.
    by rewrite Hlen, <- size_dom, Hdom1.
  - intros gone stay zg zk Hg Hng Hk Htg Htk.
    rewrite Hdom' in Hng, Hk. rewrite Hdom, list_to_set_app_L in Hg.
    apply elem_of_list_to_set, list_elem_of_fmap in Hk as (k & -> & Hk).
    assert (Hgv : gone ∈ str <$> victims) by set_solver.
    apply list_elem_of_fmap in Hgv as (v & -> & Hv).
    rewrite token_str in Htg, Htk. simplify_eq.
    by eapply (StronglySorted_app_1_elem_of Z.lt).
  - exists s1, victims. split_and!; try done.
    + by apply StronglySorted_app_1_l in Hsort.
    + rewrite Hdom, Hdom', list_to_set_app_L. apply set_eq. intros name.
      rewrite elem_of_difference, elem_of_union, !elem_of_list_to_set.
      split; [tauto|]. intros Hv. split; [by left|]. by apply Hdisj.
Qed.

(** With a retention count of 0 the slice [[: -0]] is empty, and [prune]
    changes nothing, whatever it returns. *)
Lemma prune_at_zero (s : State) :
  n_checkpoints_to_keep (config (self s)) = 0 -> (prune s).2 = s.
Proof.
  intros Hzero.
  unfold prune, bind at 1, listdir, gets. cbn [fst snd].
  unfold bind at 1, lift.
  destruct (map_res int _) as [tokens|e]; [|done].
  unfold bind at 1, attr, gets. cbn [fst snd]. rewrite Hzero.
  destruct (_ >? _); [|done].
  change (Some (- 0)) with (Some (- 0)%Z). by rewrite slice_drop_last_0.
Qed.

(** C8, where the code leaves it: with a retention count of 0 every
    directory is beyond the count, yet a save that returns deletes none:
    the save folder holds what it held and the new directory. *)
Theorem save_keeps_everything_at_zero (s s' : State) :
  n_checkpoints_to_keep (config (self s)) = 0 ->
  save_checkpoint s = (Ok tt, s') ->
  dom (fs s') = {[str (time_ns_at (time_ns_calls s))]} ∪ dom (fs s).
Proof.
  intros Hzero Hsave.
  unfold save_checkpoint, bind in Hsave.
  destruct (write_checkpoint s) as [[name|e] s1] eqn:Hwrite; [|done].
  apply write_checkpoint_ok in Hwrite as Hw.
  destruct Hw as (-> & (lc & bc & mc & run_id & Hfs) & Hcfg & _).
  pose proof (prune_at_zero s1) as Hp. rewrite Hcfg in Hp.
  rewrite Hsave in Hp. cbn in Hp. rewrite Hp by done.
  by rewrite Hfs, dom_insert_L.
Qed.

(** [prune] only removes directories. *)
Lemma rmtree_loop_sub (victims : list Z) : forall (s : State) name d,
  fs (for_each victims (fun c => rmtree (str c)) s).2 !! name = Some d ->
  fs s !! name = Some d.
Proof.
  induction victims as [|c victims IH]; intros s name d; [done|].
  cbn [for_each]. unfold bind, rmtree at 1, bind, gets. cbn.
  destruct (fs s !! str c) eqn:E; cbn; [|done].
  intros Hd%IH. cbn in Hd. apply lookup_delete_Some in Hd. tauto.
Qed.

Lemma prune_sub (s : State) name d :
  fs (prune s).2 !! name = Some d -> fs s !! name = Some d.
Proof.
  unfold prune, bind at 1, listdir, gets. cbn [fst snd].
  unfold bind at 1, lift.
  destruct (map_res int _) as [tokens|e]; [|done].
  unfold bind at 1, attr, gets. cbn [fst snd].
  destruct (_ >? _); [|done]. apply rmtree_loop_sub.
Qed.

Lemma read_ok {A} (s : State) name d (file : CheckpointDir -> option A) x :
  fs s !! name = Some d -> file d = Some x -> read name file s = (Ok x, s).
Proof.
  intros Hd Hx. unfold read, bind, gets. cbn. by rewrite Hd, Hx.
Qed.

(** What [_load_from_checkpoint] reads and assigns. *)
Lemma load_from_checkpoint_ok (loader : State) name d trajs metrics st :
  checkpoint_load_folder (config (self loader)) = Some name ->
  fs loader !! name = Some d ->
  current_trajectories_pkl d = Some trajs ->
  iteration_state_metrics_pkl d = Some metrics ->
  ppo_agent_json d = Some st ->
  exists loaded,
    _load_from_checkpoint loader = (Ok tt, loaded) /\
    current_trajectories (self loaded) = trajs /\
    iteration_state_metrics (self loaded) = metrics /\
    cur_iteration (self loaded) = json_cur_iteration st /\
    iteration_timesteps (self loaded) = json_iteration_timesteps st /\
    cumulative_timesteps (self loaded) = json_cumulative_timesteps st /\
    iteration_start_time (self loaded) = json_iteration_start_time st /\
    timestep_collection_start_time (self loaded)
    = json_timestep_collection_start_time st /\
    wandb_run_id (self loaded) = json_wandb_run_id st /\
    current_env_trajectories (self loaded)
    = current_env_trajectories (self loader) /\
    ts_since_last_save (self loaded) = ts_since_last_save (self loader).
Proof.
  intros Hfolder Hd Ht Hm Hj. eexists.
  unfold _load_from_checkpoint, bind at 1, attr, gets. cbn [fst snd].
  rewrite Hfolder. unfold bind at 1. rewrite (read_ok _ _ _ _ _ Hd Ht).
  unfold bind at 1. rewrite (read_ok _ _ _ _ _ Hd Hm).
  unfold bind at 1. rewrite (read_ok _ _ _ _ _ Hd Hj).
  unfold bind, assign, modify. cbn. split; [reflexivity|]. cbn. done.
Qed.

(** C1, as far as the code goes: a controller that resumes from the
    directory of a save that returned gets back the five scalars, the
    completed trajectories and the state metrics of the saved controller.
    Its open trackers are not read from the checkpoint: they stay those
    of the resuming controller, none after [__init__], whatever the saved
    controller had. *)
Theorem checkpoint_round_trip (s s1 loader : State) (name : string) :
  save_checkpoint s = (Ok tt, s1) ->
  name = str (time_ns_at (time_ns_calls s)) ->
  name ∈ dom (fs s1) ->
  fs loader = fs s1 ->
  checkpoint_load_folder (config (self loader)) = Some name ->
  exists loaded,
    _load_from_checkpoint loader = (Ok tt, loaded) /\
    cur_iteration (self loaded) = cur_iteration (self s) /\
    iteration_timesteps (self loaded) = iteration_timesteps (self s) /\
    cumulative_timesteps (self loaded) = cumulative_timesteps (self s) /\
    iteration_start_time (self loaded) = iteration_start_time (self s) /\
    timestep_collection_start_time (self loaded)
    = timestep_collection_start_time (self s) /\
    current_trajectories (self loaded) = current_trajectories (self s) /\
    iteration_state_metrics (self loaded) = iteration_state_metrics (self s) /\
    current_env_trajectories (self loaded)
    = current_env_trajectories (self loader).
Proof.
  intros Hsave -> Hin Hfs Hfolder.
  unfold save_checkpoint, bind in Hsave.
  destruct (write_checkpoint s) as [[name|e] s0] eqn:Hwrite; [|done].
  apply write_checkpoint_ok in Hwrite as Hw.
  destruct Hw as (-> & (lc & bc & mc & run_id & Hfs0) & _).
  apply elem_of_dom in Hin as [d Hd].
  assert (Hd0 : fs s0 !! str (time_ns_at (time_ns_calls s)) = Some d).
  { apply prune_sub. by rewrite Hsave. }
  rewrite Hfs0, lookup_insert_eq in Hd0. simplify_eq.
  destruct (load_from_checkpoint_ok loader _ _ _ _ _ Hfolder
              ltac:(rewrite Hfs; exact Hd) eq_refl eq_refl eq_refl)
    as (loaded & Hload & H1 & H2 & H3 & H4 & H5 & H6 & H7 & _ & H9 & _).
  exists loaded. split_and!; done.
Qed.

End Facts.
End SaveLoadFacts.

(** ** The controller's properties on the concrete controller *)

Module ControllerChecks.
Import PPOAgentController CheckpointSpec NameFacts.
Open Scope string_scope.

Lemma checkpoints_conform (n : nat) : checkpoints_only (Demo.checkpoints n).
Proof.
  intros name. unfold Demo.checkpoints.
  rewrite dom_list_to_map_L, elem_of_list_to_set, <- list_fmap_compose.
  intros (k & -> & _)%list_elem_of_fmap. cbn. rewrite token_str. by eexists.
Qed.

(** The learning step of the concrete controller: nine timesteps go to
    [ts_since_last_save], and the iteration is number 0 before and after. *)
Lemma learn_resets_iteration_state_witness :
  exists s',
    _learn Demo.before_learning = (Ok tt, s') /\
    iteration_timesteps (self Demo.before_learning) = 9 /\
    cur_iteration (self Demo.before_learning) = 0 /\
    iteration_state_metrics (self s') = [] /\
    current_env_trajectories (self s') = [] /\
    current_trajectories (self s') = [] /\
    ts_since_last_save (self s') = 9 /\
    iteration_timesteps (self s') = 0 /\
    cur_iteration (self s') = 0.
Proof.
  set (s' := (_learn Demo.before_learning).2). exists s'.
  assert (E : _learn Demo.before_learning = (Ok tt, s'))
    by (vm_compute; reflexivity).
  destruct (LearnFacts.learn_resets_iteration_state _ _ E)
    as (H1 & H2 & H3 & H4 & H5 & _ & _ & H8).
  split_and!; [exact E|reflexivity|reflexivity|exact H1|exact H2|exact H3
              |exact H4|exact H5|exact H8].
Defined.

(** The scheduled learning step, reached through [process_timestep_data]:
    after it the controller is still in iteration 0. *)
Lemma learned_cur_iteration :
  cur_iteration (self Demo.learned) = 0 /\
  iteration_timesteps (self Demo.learned) = 0 /\
  ts_since_last_save (self Demo.learned) = 8.
Proof. vm_compute. done. Qed.

(** A controller made without a metrics logger cannot save. *)
Lemma save_checkpoint_without_metrics_logger_witness :
  metrics_logger (self Demo.fresh_without_logger) = None /\
  (exists s', save_checkpoint Demo.fresh_without_logger
              = (Raise AttributeError, s')) /\
  (forall cur_time tpd ppo,
     learn_report cur_time tpd ppo Demo.fresh_without_logger
     = (Ok tt, Demo.fresh_without_logger)).
Proof.
  destruct (CheckpointFacts.save_checkpoint_without_metrics_logger
              Demo.fresh_without_logger eq_refl) as (_ & Hraise & Hreport).
  split_and!; [reflexivity| |exact Hreport].
  exact (Hraise tt tt tt tt eq_refl eq_refl).
Defined.

(** The example of the retention rule: the save folder holds the tokens
    1 to 6, the save adds 7, and with a retention count of 5 the tokens
    3 to 7 remain. *)
Lemma save_prunes_oldest_example :
  exists s',
    save_checkpoint (Demo.with_checkpoints 5 6) = (Ok tt, s') /\
    dom (fs (Demo.with_checkpoints 5 6))
    = list_to_set ["1"; "2"; "3"; "4"; "5"; "6"] /\
    str (time_ns_at (time_ns_calls (Demo.with_checkpoints 5 6))) = "7" /\
    dom (fs s') = list_to_set ["3"; "4"; "5"; "6"; "7"] /\
    size (dom (fs s')) = 5%nat.
Proof.
  set (s' := (save_checkpoint (Demo.with_checkpoints 5 6)).2). exists s'.
  assert (E : save_checkpoint (Demo.with_checkpoints 5 6) = (Ok tt, s'))
    by (vm_compute; reflexivity).
  assert (Hkeep : 1 <= n_checkpoints_to_keep
                         (config (self (Demo.with_checkpoints 5 6))))
    by (by vm_compute).
  destruct (SaveLoadFacts.save_prunes_oldest _ _ Hkeep
              (checkpoints_conform 6) E) as (_ & Hsize & _).
  split_and!; [exact E|by vm_compute|by vm_compute|by vm_compute|].
  apply Nat2Z.inj. rewrite Hsize. by vm_compute.
Qed.

(** With a retention count of 0 and the tokens 1 and 2 in the save
    folder, the save adds 3 and all three directories remain. *)
Lemma save_keeps_everything_at_zero_witness :
  n_checkpoints_to_keep (config (self (Demo.with_checkpoints 0 2))) = 0 /\
  exists s',
    save_checkpoint (Demo.with_checkpoints 0 2) = (Ok tt, s') /\
    dom (fs s') = {["3"]} ∪ dom (fs (Demo.with_checkpoints 0 2)) /\
    dom (fs s') = list_to_set ["1"; "2"; "3"].
Proof.
  split; [reflexivity|].
  set (s' := (save_checkpoint (Demo.with_checkpoints 0 2)).2). exists s'.
  assert (E : save_checkpoint (Demo.with_checkpoints 0 2) = (Ok tt, s'))
    by (vm_compute; reflexivity).
  pose proof (SaveLoadFacts.save_keeps_everything_at_zero
                (Demo.with_checkpoints 0 2) s' eq_refl E) as Hdom.
  split_and!; [exact E|exact Hdom|by vm_compute].
Defined.

(** The concrete controller saves with one tracker open, that of "env0",
    and two completed trajectories; the controller that resumes from the
    checkpoint has the scalars and the two trajectories, and no open
    tracker. *)
Lemma checkpoint_round_trip_witness :
  exists saved loaded,
    save_checkpoint Demo.decided = (Ok tt, saved) /\
    _load_from_checkpoint (Demo.resuming "0" saved) = (Ok tt, loaded) /\
    cur_iteration (self loaded) = cur_iteration (self Demo.decided) /\
    iteration_timesteps (self loaded) = 9 /\
    cumulative_timesteps (self loaded) = 9 /\
    current_trajectories (self loaded)
    = current_trajectories (self Demo.decided) /\
    length (current_trajectories (self loaded)) = 2%nat /\
    (current_env_trajectories (self Demo.decided)).*1 = ["env0"] /\
    current_env_trajectories (self loaded) = [].
Proof.
  set (saved := (save_checkpoint Demo.decided).2).
  assert (E : save_checkpoint Demo.decided = (Ok tt, saved))
    by (vm_compute; reflexivity).
  assert (Hname : "0" = str (time_ns_at (time_ns_calls Demo.decided)))
    by (vm_compute; reflexivity).
  assert (Hin : "0" ∈ dom (fs saved))
    by (apply (bool_decide_unpack _); vm_compute; exact I).
  assert (Hfs : fs (Demo.resuming "0" saved) = fs saved)
    by (vm_compute; reflexivity).
  assert (Hfolder : checkpoint_load_folder
                      (config (self (Demo.resuming "0" saved))) = Some "0")
    by (vm_compute; reflexivity).
  destruct (SaveLoadFacts.checkpoint_round_trip Demo.decided saved
              (Demo.resuming "0" saved) "0" E Hname Hin Hfs Hfolder)
    as (loaded & Hload & H1 & H2 & H3 & _ & _ & H6 & _ & H8).
  exists saved, loaded.
  split_and!; [exact E|exact Hload|exact H1| | |exact H6| | |].
  - rewrite H2. by vm_compute.
  - rewrite H3. by vm_compute.
  - rewrite H6. by vm_compute.
  - by vm_compute.
  - rewrite H8. by vm_compute.
Defined.

End ControllerChecks.

(** ** The trajectory tracker: errors and invariants *)

Module TrackerEdgeFacts.
Import EnvTrajectories TrackerSpec TrackerInvariant TrackerFacts.
#[local] Open Scope list_scope.
Section Facts.
Context {AgentID : Type} `{Countable AgentID}.
Context {Obs Action Reward LogProb : Type}.

Abbreviation Step := (Timestep.t AgentID Obs Action Reward).
Abbreviation Tracker := (EnvTrajectories.t AgentID Obs Action Reward LogProb).

Ltac run_step :=
  unfold add_step, append_obs, append_action, append_reward, finalize_agent,
    bind, getitem, modify, ret, gets; simpl.

Lemma wf_untracked (s : Tracker) a :
  wf s -> a ∉ agent_ids s -> dones s !! a = None.
Proof.
  intros (_ & _ & _ & _ & H5 & _) Hnotin. apply not_elem_of_dom.
  rewrite H5. by rewrite elem_of_list_to_set.
Qed.

Lemma finalize_aligned (s : Tracker) : wf s -> aligned s -> aligned (finalize s).2.
Proof.
  intros Hwf Hal. unfold finalize, bind, gets.
  destruct (finalize_loop (agent_ids s) s Hwf)
    as (s' & -> & _ & _ & Ho & Ha & Hr & _); [done|].
  intros a lo la lr. cbn. rewrite Ho, Ha, Hr. apply Hal.
Qed.

Lemma reachable_aligned (s : Tracker) : reachable s -> aligned s.
Proof.
  induction 1 as [ids|s ts row Hreach IH|s Hreach IH].
  - apply init_aligned.
  - apply add_steps_aligned; [by apply reachable_wf|done].
  - apply finalize_aligned; [by apply reachable_wf|done].
Qed.

Lemma loop_unknown_agent (pre : list Step) (ts : Step) (post : list Step) :
  forall n (s : Tracker),
  wf s -> Forall (fun ts' => Timestep.agent_id ts' ∈ agent_ids s) pre ->
  Timestep.agent_id ts ∉ agent_ids s ->
  for_fold (pre ++ ts :: post) n add_step s
  = (Raise KeyError, (for_fold pre n add_step s).2).
Proof.
  induction pre as [|ts' pre IH]; intros n s Hwf Hpre Hnotin.
  - cbn [app for_fold]. unfold bind. run_step.
    by rewrite (wf_untracked _ _ Hwf Hnotin).
  - apply Forall_cons in Hpre as [Hin Hpre]. cbn [app for_fold]. unfold bind.
    pose proof (add_step_wf n ts' s Hwf) as Hwf'.
    pose proof (add_step_frame n ts' s) as [Hids _].
    destruct (add_step_total n ts' s Hwf Hin) as [m Hm].
    destruct (add_step n ts' s) as [[m'|e] s'] eqn:E; cbn in *; [|done].
    apply IH; rewrite ?Hids; done.
Qed.

(** [add_steps] with a timestep of an agent the tracker was not made
    with raises [KeyError] at that timestep: the timesteps before it are
    recorded, those after it are not, and no log-prob row is appended. *)
Theorem add_steps_unknown_agent (s : Tracker) (pre : list Step) (ts : Step)
    (post : list Step) (log_probs : list LogProb) :
  reachable s ->
  Forall (fun ts' => Timestep.agent_id ts' ∈ agent_ids s) pre ->
  Timestep.agent_id ts ∉ agent_ids s ->
  let s' := (add_steps (pre ++ ts :: post) log_probs s).2 in
  add_steps (pre ++ ts :: post) log_probs s = (Raise KeyError, s') /\
  s' = (for_fold pre 0%nat add_step s).2 /\
  log_probs_list s' = log_probs_list s /\
  (add_steps pre log_probs s).2
  = set_log_probs_list (fun l => l ++ [log_probs]) s'.
Proof.
  intros Hreach Hpre Hnotin s'. apply reachable_wf in Hreach as Hwf.
  pose proof (loop_unknown_agent pre ts post 0%nat s Hwf Hpre Hnotin) as Hrun.
  assert (Hs' : s' = (for_fold pre 0%nat add_step s).2).
  { unfold s'. by rewrite add_steps_unfold, Hrun. }
  split_and!.
  - unfold s'. by rewrite add_steps_unfold, Hrun.
  - done.
  - rewrite Hs'. apply loop_frame.
  - rewrite Hs', add_steps_unfold.
    destruct (loop_total pre 0%nat s Hwf Hpre) as [m Hm].
    destruct (for_fold pre _ _ _) as [[m'|e] s1]; cbn in *; done.
Qed.

(** *** What every state of a tracker satisfies *)

Lemma add_step_settled n (ts : Step) (s : Tracker) :
  wf s -> settled s -> settled (add_step n ts s).2.
Proof.
  intros Hwf [Hfo Htr].
  destruct (dones s !! Timestep.agent_id ts) as [b|] eqn:Hd.
  2:{ run_step. by rewrite Hd. }
  pose proof (wf_key _ _ _ Hwf Hd) as Hin.
  destruct (wf_tracked _ _ Hwf Hin) as ([lo Ho] & [la Ha] & [lr Hr] & _).
  run_step. rewrite Hd. destruct b; simpl; [done|].
  rewrite Ho; cbn. rewrite Ha; cbn. rewrite Hr; cbn.
  assert (Hlast : forall a lo' fo,
    <[Timestep.agent_id ts := lo ++ [Timestep.obs ts]]> (obs_lists s) !! a
      = Some lo' ->
    <[Timestep.agent_id ts := Some (Timestep.next_obs ts)]> (final_obs s) !! a
      = Some fo ->
    (fo = None <-> lo' = [])).
  { intros a lo' fo.
    destruct (decide (a = Timestep.agent_id ts)) as [->|Hne].
    - rewrite !lookup_insert_eq. intros; simplify_eq.
      split; [done|]. by intros []%app_eq_nil.
    - rewrite !lookup_insert_ne by done. apply Hfo. }
  destruct (_ || _); cbn; (split; cbn; [exact Hlast|]); [|exact Htr].
  intros a d.
  destruct (decide (a = Timestep.agent_id ts)) as [->|Hne].
  - rewrite lookup_insert_eq. congruence.
  - rewrite !lookup_insert_ne by done. apply Htr.
Qed.

Lemma loop_settled (timesteps : list Step) : forall n (s : Tracker),
  wf s -> settled s -> settled (for_fold timesteps n add_step s).2.
Proof.
  induction timesteps as [|ts rest IH]; intros n s Hwf Hs; [done|].
  simpl. unfold bind. pose proof (add_step_wf n ts s Hwf) as Hwf'.
  pose proof (add_step_settled n ts s Hwf Hs) as Hs'.
  destruct (add_step n ts s) as [[m|e] s']; simpl in *; [by apply IH|done].
Qed.

Lemma add_steps_settled (timesteps : list Step) row (s : Tracker) :
  wf s -> settled s -> settled (add_steps timesteps row s).2.
Proof.
  intros Hwf Hs. rewrite add_steps_unfold.
  pose proof (loop_settled timesteps 0%nat s Hwf Hs) as Hs'.
  destruct (for_fold _ _ _ _) as [[?|?] ?]; done.
Qed.

Lemma init_loop_flags (ids : list AgentID) : forall s : Tracker,
  (forall a fo, final_obs s !! a = Some fo -> fo = None) ->
  (forall a tr, truncateds s !! a = Some tr -> tr = false) ->
  let s' := foldl (fun s a => init_agent a s) s ids in
  (forall a fo, final_obs s' !! a = Some fo -> fo = None) /\
  (forall a tr, truncateds s' !! a = Some tr -> tr = false).
Proof.
  induction ids as [|a0 ids IH]; intros s H1 H2; simpl; [done|].
  apply IH; cbn; intros a l;
    (destruct (decide (a = a0)) as [->|Hne];
     [rewrite lookup_insert_eq; congruence
     |rewrite lookup_insert_ne by done; eauto]).
Qed.

Lemma init_settled (ids : list AgentID) : settled (init ids : Tracker).
Proof.
  destruct (init_loop_lists ids (mk ids ∅ ∅ ∅ ∅ ∅ ∅ [] : Tracker)) as (H1 & _);
    try (cbn; intros ? ?; rewrite lookup_empty; congruence).
  destruct (init_loop_flags ids (mk ids ∅ ∅ ∅ ∅ ∅ ∅ [] : Tracker)) as (H2 & H3);
    try (cbn; intros ? ?; rewrite lookup_empty; congruence).
  split; unfold init; cbn.
  - intros a lo fo Ho Hf. by rewrite (H1 _ _ Ho), (H2 _ _ Hf).
  - intros a d _ Ht. by apply H3 in Ht.
Qed.

Lemma finalize_settled (s : Tracker) : wf s -> settled s -> settled (finalize s).2.
Proof.
  intros Hwf [Hfo Htr]. unfold finalize, bind, gets.
  destruct (finalize_loop (agent_ids s) s Hwf)
    as (s' & -> & _ & _ & Ho & _ & _ & Hf & _ & Hds & _); [done|].
  split; cbn.
  - intros a lo fo. rewrite Ho, Hf. apply Hfo.
  - intros a d. rewrite Hds. case_decide as Hin; [congruence|].
    intros Hd. by apply (wf_key _ _ _ Hwf) in Hd.
Qed.

Lemma reachable_settled (s : Tracker) : reachable s -> settled s.
Proof.
  induction 1 as [ids|s ts row Hreach IH|s Hreach IH].
  - apply init_settled.
  - apply add_steps_settled; [by apply reachable_wf|done].
  - apply finalize_settled; [by apply reachable_wf|done].
Qed.

(** In every state that a tracker reaches through [add_steps] and
    [finalize], returning or raising, each agent it was made with has its
    six entries, observation, action and reward sequences of one length,
    a last observation exactly when it has a step, and is truncated only
    if it is done. *)
Theorem reachable_coherent (s : Tracker) (a : AgentID) :
  reachable s -> a ∈ agent_ids s -> coherent a s.
Proof.
  intros Hreach Hin.
  pose proof (reachable_wf s Hreach) as Hwf.
  pose proof (reachable_aligned s Hreach) as Hal.
  destruct (reachable_settled s Hreach) as [Hfo Htr].
  destruct (wf_tracked s a Hwf Hin)
    as ([lo Ho] & [la Ha] & [lr Hr] & [fo Hf] & [d Hd] & [tr Ht]).
  destruct (Hal _ _ _ _ Ho Ha Hr) as [E1 E2].
  exists lo, la, lr, fo, d, tr. split_and!; try done.
  - by apply (Hfo a).
  - intros ->. by apply (Htr a).
Qed.

(** *** What [get_trajectories] raises *)

Section Trajectories.
Context {Value : Type} (tensor0 : Value).

Lemma column_short (rows : list (list LogProb)) idx width :
  rows <> [] -> Forall (fun r => length r = width) rows ->
  (width <= idx)%nat -> column rows idx = Raise IndexError.
Proof.
  intros Hne Hrows Hidx. unfold column.
  destruct rows as [|r rows]; [done|].
  apply Forall_cons in Hrows as [Hr _]. cbn.
  by rewrite (lookup_ge_None_2 r idx) by lia.
Qed.

Lemma trajectories_from_short (s : Tracker) (rows : list (list LogProb))
    width (l : list AgentID) : forall idx,
  wf s -> (forall a, a ∈ l -> a ∈ agent_ids s) ->
  rows <> [] -> Forall (fun r => length r = width) rows ->
  (idx <= width < idx + length l)%nat ->
  trajectories_from tensor0 s rows idx l = Raise IndexError.
Proof.
  induction l as [|a l IH]; intros idx Hwf Hl Hne Hrows Hlen.
  - cbn in Hlen. lia.
  - cbn [trajectories_from]. unfold trajectory_of.
    destruct (wf_tracked s a Hwf (Hl a ltac:(left)))
      as ([lo ->] & [la ->] & [lr ->] & [fo ->] & _ & [tr ->]).
    destruct (decide (idx = width)) as [->|Hlt].
    + by rewrite (column_short rows width width).
    + destruct (column_ok rows idx) as (col & -> & _).
      { eapply Forall_impl; [exact Hrows|]. cbn. intros r <-. lia. }
      rewrite IH; [done..| |done|done|cbn in Hlen; lia].
      intros b Hb. apply Hl. by right.
Qed.

(** [get_trajectories] on a tracker without a log-prob row (none was
    appended yet) or with rows of different lengths raises the
    [RuntimeError] of [torch.stack]; with rows narrower than the number of
    agents it raises [IndexError]; with rows of one length that covers the
    agents it returns one trajectory per agent. *)
Theorem get_trajectories_errors (s : Tracker) :
  reachable s ->
  (log_probs_list s = [] -> get_trajectories tensor0 s = Raise RuntimeError) /\
  (forall r r', r ∈ log_probs_list s -> r' ∈ log_probs_list s ->
     length r <> length r' -> get_trajectories tensor0 s = Raise RuntimeError) /\
  (forall width,
     log_probs_list s <> [] ->
     Forall (fun r => length r = width) (log_probs_list s) ->
     if decide (length (agent_ids s) <= width)%nat
     then exists trajs, get_trajectories tensor0 s = Ok trajs /\
                        Trajectory.agent_id <$> trajs = agent_ids s
     else get_trajectories tensor0 s = Raise IndexError).
Proof.
  intros Hreach. apply reachable_wf in Hreach as Hwf.
  apply reachable_aligned in Hreach as Hal.
  unfold get_trajectories. split_and!.
  - by intros ->.
  - intros r r' Hr Hr' Hlen.
    destruct (stack (log_probs_list s)) as [rows|e] eqn:E.
    + exfalso. apply Hlen. unfold stack in E.
      destruct (log_probs_list s) as [|r0 rest]; [done|].
      destruct (forallb _ rest) eqn:Hall; [|done].
      rewrite forallb_forall in Hall.
      assert (Hsame : forall x, x ∈ r0 :: rest -> length x = length r0).
      { intros x [->|Hx]%elem_of_cons; [done|].
        apply Nat.eqb_eq, Hall. by apply list_elem_of_In. }
      by rewrite (Hsame _ Hr), (Hsame _ Hr').
    + unfold stack in E.
      destruct (log_probs_list s) as [|r0 rest]; [by simplify_eq|].
      by destruct (forallb _ rest); simplify_eq.
  - intros width Hne Hrows. rewrite (stack_ok _ width) by done.
    case_decide as Hw.
    + destruct (trajectories_from_ok tensor0 s (log_probs_list s)
                  (agent_ids s) 0%nat) as (trajs & Hrun & Hids & _);
        [done..| |by exists trajs].
      eapply Forall_impl; [exact Hrows|]. cbn. intros r <-. lia.
    + apply (trajectories_from_short s _ width); try done. lia.
Qed.

End Trajectories.
End Facts.
End TrackerEdgeFacts.

(** ** Frames: what a method leaves alone *)

Module FrameFacts.
Import PPOAgentController FrameSpec.
Section Facts.
Context {AgentID : Type} `{Countable AgentID}.
Context {Obs Action Reward LogProb Value StateMetrics Time : Type}.
Context {Learner ExperienceBuffer MetricsLogger ObsStandardizer : Type}.
Context {PPOData TrajectoryProcessorData AgentMetrics CollectedMetrics : Type}.
Context {LearnerCheckpoint BufferCheckpoint MetricsCheckpoint : Type}.
Context `{!Externals (AgentID:=AgentID) (Obs:=Obs) (Action:=Action)
            (Reward:=Reward) (LogProb:=LogProb) (Value:=Value)
            (StateMetrics:=StateMetrics) (Time:=Time) (Learner:=Learner)
            (ExperienceBuffer:=ExperienceBuffer) (MetricsLogger:=MetricsLogger)
            (ObsStandardizer:=ObsStandardizer) (PPOData:=PPOData)
            (TrajectoryProcessorData:=TrajectoryProcessorData)
            (AgentMetrics:=AgentMetrics) (CollectedMetrics:=CollectedMetrics)
            (LearnerCheckpoint:=LearnerCheckpoint)
            (BufferCheckpoint:=BufferCheckpoint)
            (MetricsCheckpoint:=MetricsCheckpoint)}.

Abbreviation State := (state (AgentID:=AgentID) (Obs:=Obs) (Action:=Action)
            (Reward:=Reward) (LogProb:=LogProb) (Value:=Value)
            (StateMetrics:=StateMetrics) (Time:=Time) (Learner:=Learner)
            (ExperienceBuffer:=ExperienceBuffer) (MetricsLogger:=MetricsLogger)
            (ObsStandardizer:=ObsStandardizer)
            (LearnerCheckpoint:=LearnerCheckpoint)
            (BufferCheckpoint:=BufferCheckpoint)
            (MetricsCheckpoint:=MetricsCheckpoint)).

Section View.
Context {V : Type} (view : State -> V).

Lemma preserves_ret {A} (a : A) : preserves view (ret a : M State A).
Proof. by intros s. Qed.

Lemma preserves_raise {A} e : preserves view (raise e : M State A).
Proof. by intros s. Qed.

Lemma preserves_lift {A} (r : res A) : preserves view (lift r : M State A).
Proof. by intros s. Qed.

Lemma preserves_gets {A} (f : State -> A) : preserves view (gets f).
Proof. by intros s. Qed.

Lemma preserves_attr {A} (f : _ -> A) : preserves view (attr f : M State A).
Proof. by intros s. Qed.

Lemma preserves_bind {A B} (m : M State A) (k : A -> M State B) :
  preserves view m -> (forall a, preserves view (k a)) ->
  preserves view (bind m k).
Proof.
  intros Hm Hk s. unfold bind. specialize (Hm s).
  destruct (m s) as [[a|e] s1]; simpl in *; [|done].
  by rewrite Hk.
Qed.

Lemma preserves_for_each {A} (l : list A) (body : A -> M State unit) :
  (forall x, preserves view (body x)) -> preserves view (for_each l body).
Proof.
  intros Hb. induction l as [|x l IH]; simpl.
  - apply preserves_ret.
  - apply preserves_bind; [apply Hb|]. intros _. apply IH.
Qed.

Lemma preserves_for_fold {A B} (l : list A) (body : B -> A -> M State B) :
  (forall acc x, preserves view (body acc x)) ->
  forall acc, preserves view (for_fold l acc body).
Proof.
  intros Hb. induction l as [|x l IH]; intros acc; simpl.
  - apply preserves_ret.
  - apply preserves_bind; [apply Hb|]. intros acc'. apply IH.
Qed.

End View.

(** The parts of [save_checkpoint] and the controller's own attributes. *)
Lemma own_time_ns : preserves own_attributes (time_ns : M State Z).
Proof. by intros s. Qed.

Lemma own_makedirs name : preserves own_attributes (makedirs_exist_ok name : M State unit).
Proof. by intros s. Qed.

Lemma own_write name f : preserves own_attributes (write name f : M State unit).
Proof. intros s. unfold write, bind, gets. cbn. by destruct (fs s !! name). Qed.

Lemma own_rmtree name : preserves own_attributes (rmtree name : M State unit).
Proof. intros s. unfold rmtree, bind, gets. cbn. by destruct (fs s !! name). Qed.

Lemma own_with_learner {A} (m : M Learner A) :
  preserves own_attributes (with_learner m : M State A).
Proof. intros s. unfold with_learner, zoom. by destruct (m _). Qed.

Lemma own_with_experience_buffer {A} (m : M ExperienceBuffer A) :
  preserves own_attributes (with_experience_buffer m : M State A).
Proof. intros s. unfold with_experience_buffer, zoom. by destruct (m _). Qed.

Lemma own_with_metrics_logger {A} (m : M MetricsLogger A) :
  preserves own_attributes (with_metrics_logger m : M State A).
Proof.
  intros s. unfold with_metrics_logger.
  destruct (metrics_logger (self s)) as [l|] eqn:E; [|done].
  destruct (m l) as [r l']. unfold own_attributes. cbn. rewrite E.
  do 2 f_equal.
Qed.

Lemma own_prune : preserves own_attributes (prune : M State unit).
Proof.
  unfold prune.
  apply preserves_bind; [apply preserves_gets|]. intros names.
  apply preserves_bind; [apply preserves_lift|]. intros tokens.
  apply preserves_bind; [apply preserves_attr|]. intros n_keep.
  destruct (_ >? _); [|apply preserves_ret].
  apply preserves_for_each. intros c. apply own_rmtree.
Qed.

Lemma own_write_checkpoint : preserves own_attributes (write_checkpoint : M State string).
Proof.
  unfold write_checkpoint.
  apply preserves_bind; [apply own_time_ns|]. intros ns.
  apply preserves_bind; [apply own_makedirs|]. intros _.
  apply preserves_bind; [apply own_with_learner|]. intros lc.
  apply preserves_bind; [apply own_write|]. intros _.
  apply preserves_bind; [apply own_with_experience_buffer|]. intros bc.
  apply preserves_bind; [apply own_write|]. intros _.
  apply preserves_bind; [apply own_with_metrics_logger|]. intros mc.
  apply preserves_bind; [apply own_write|]. intros _.
  apply preserves_bind; [apply preserves_attr|]. intros trajs.
  apply preserves_bind; [apply own_write|]. intros _.
  apply preserves_bind; [apply preserves_attr|]. intros metrics.
  apply preserves_bind; [apply own_write|]. intros _.
  apply preserves_bind; [apply own_write|]. intros _.
  apply preserves_bind; [apply preserves_gets|]. intros c.
  apply preserves_bind.
  { destruct (log_to_wandb _); [|apply preserves_ret].
    destruct (wandb_run c); [apply preserves_ret|apply preserves_raise]. }
  intros run_id.
  apply preserves_bind; [apply own_write|]. intros _.
  apply preserves_ret.
Qed.

(** [save_checkpoint], returning or raising, changes nothing of the
    controller's own attributes: not the trackers, the completed
    trajectories or the state metrics, not the counters (also not
    [ts_since_last_save], which its caller resets) nor the timers; and it
    does not read the performance counter. *)
Theorem save_checkpoint_own_attributes (s : State) :
  own_attributes (save_checkpoint s).2 = own_attributes s.
Proof.
  revert s. change (preserves own_attributes (save_checkpoint : M State unit)).
  unfold save_checkpoint.
  apply preserves_bind; [apply own_write_checkpoint|]. intros _.
  apply own_prune.
Qed.

End Facts.
End FrameFacts.

(** ** Names that [int] rejects *)

Module FolderFacts.
Import FolderSpec NameFacts.

(** A letter is no blank, no digit, no sign and no underscore. *)
Lemma letter_plain c :
  is_letter c = true ->
  isspace c = false /\ isdigit c = false /\
  (Ascii.nat_of_ascii c =? 95)%nat = false /\
  (Ascii.nat_of_ascii c =? 45)%nat = false /\
  (Ascii.nat_of_ascii c =? 43)%nat = false.
Proof.
  destruct c as [[|] [|] [|] [|] [|] [|] [|] [|]];
    (discriminate || (intros _; repeat split)).
Qed.

Lemma is_letter_cases c rest :
  has_letter (String c rest) = true ->
  is_letter c = true \/ is_letter c = false /\ has_letter rest = true.
Proof. cbn. destruct (is_letter c); [by left|by right]. Qed.

Lemma all_space_letter s : has_letter s = true -> all_space s = false.
Proof.
  induction s as [|c rest IH]; [done|].
  intros [Hc|[_ Hrest]]%is_letter_cases; cbn [all_space].
  - by rewrite (proj1 (letter_plain c Hc)).
  - rewrite IH by done. apply andb_false_r.
Qed.

Lemma digits_of_letter s : forall b,
  has_letter s = true -> digits_of b s = None.
Proof.
  induction s as [|c rest IH]; intros b; [done|].
  intros Hl. pose proof (all_space_letter _ Hl) as Hsp.
  cbn [digits_of]. rewrite Hsp, andb_false_r.
  apply is_letter_cases in Hl as [Hc|[_ Hrest]].
  - destruct (letter_plain c Hc) as (_ & -> & -> & _). done.
  - destruct (isdigit c); [by rewrite IH|].
    destruct (_ =? _)%nat; [|done]. destruct b; [by apply IH|done].
Qed.

Lemma lstrip_letter s : has_letter s = true -> has_letter (lstrip s) = true.
Proof.
  induction s as [|c rest IH]; [done|].
  intros Hl. cbn [lstrip]. destruct (isspace c) eqn:Hsp; [|done].
  apply is_letter_cases in Hl as [Hc|[_ Hrest]]; [|by apply IH].
  destruct (letter_plain c Hc) as (Hn & _). congruence.
Qed.

Lemma int_letter name : has_letter name = true -> int name = Raise ValueError.
Proof.
  intros Hl%lstrip_letter. unfold int.
  destruct (lstrip name) as [|c rest]; [done|].
  pose proof (digits_of_letter _ false Hl) as Hnone.
  apply is_letter_cases in Hl as [Hc|[_ Hrest]].
  - destruct (letter_plain c Hc) as (_ & _ & _ & -> & ->). by rewrite Hnone.
  - destruct (_ =? 45)%nat; [by rewrite digits_of_letter|].
    destruct (_ =? 43)%nat; [by rewrite digits_of_letter|].
    by rewrite Hnone.
Qed.

Lemma int_raises name e : int name = Raise e -> e = ValueError.
Proof. unfold int. repeat case_match; congruence. Qed.

Lemma map_res_int_raises (names : list string) bad :
  bad ∈ names -> int bad = Raise ValueError ->
  map_res int names = Raise ValueError.
Proof.
  intros Hin Hbad. induction names as [|n names IH]; [by inversion Hin|].
  cbn [map_res]. apply elem_of_cons in Hin as [<-|Hin].
  - by rewrite Hbad.
  - destruct (int n) as [z|e] eqn:E.
    + by rewrite IH.
    + by apply int_raises in E as ->.
Qed.

End FolderFacts.

(** ** Checkpoints: what a save writes, what a load needs *)

Module CheckpointEdgeFacts.
Import PPOAgentController CheckpointSpec FolderSpec FrameSpec NameFacts.
Import CheckpointFacts PruneFacts SaveLoadFacts FolderFacts.
#[local] Open Scope list_scope.
Section Facts.
Context {AgentID : Type} `{Countable AgentID}.
Context {Obs Action Reward LogProb Value StateMetrics Time : Type}.
Context {Learner ExperienceBuffer MetricsLogger ObsStandardizer : Type}.
Context {PPOData TrajectoryProcessorData AgentMetrics CollectedMetrics : Type}.
Context {LearnerCheckpoint BufferCheckpoint MetricsCheckpoint : Type}.
Context `{!Externals (AgentID:=AgentID) (Obs:=Obs) (Action:=Action)
            (Reward:=Reward) (LogProb:=LogProb) (Value:=Value)
            (StateMetrics:=StateMetrics) (Time:=Time) (Learner:=Learner)
            (ExperienceBuffer:=ExperienceBuffer) (MetricsLogger:=MetricsLogger)
            (ObsStandardizer:=ObsStandardizer) (PPOData:=PPOData)
            (TrajectoryProcessorData:=TrajectoryProcessorData)
            (AgentMetrics:=AgentMetrics) (CollectedMetrics:=CollectedMetrics)
            (LearnerCheckpoint:=LearnerCheckpoint)
            (BufferCheckpoint:=BufferCheckpoint)
            (MetricsCheckpoint:=MetricsCheckpoint)}.

Abbreviation State := (state (AgentID:=AgentID) (Obs:=Obs) (Action:=Action)
            (Reward:=Reward) (LogProb:=LogProb) (Value:=Value)
            (StateMetrics:=StateMetrics) (Time:=Time) (Learner:=Learner)
            (ExperienceBuffer:=ExperienceBuffer) (MetricsLogger:=MetricsLogger)
            (ObsStandardizer:=ObsStandardizer)
            (LearnerCheckpoint:=LearnerCheckpoint)
            (BufferCheckpoint:=BufferCheckpoint)
            (MetricsCheckpoint:=MetricsCheckpoint)).

Lemma state_eq (a b : State) :
  self a = self b -> fs a = fs b ->
  perf_counter_calls a = perf_counter_calls b ->
  time_ns_calls a = time_ns_calls b -> a = b.
Proof. destruct a, b. cbn. by intros -> -> -> ->. Qed.

(** [write_checkpoint] returns exactly when the three collaborators save
    and, under [log_to_wandb], there is a run. *)
Lemma write_checkpoint_runs (s : State) lc l1 bc b1 ml mc ml1 run_id :
  learner_save_checkpoint (learner (self s)) = (Ok lc, l1) ->
  buffer_save_checkpoint (experience_buffer (self s)) = (Ok bc, b1) ->
  metrics_logger (self s) = Some ml ->
  metrics_save_checkpoint ml = (Ok mc, ml1) ->
  (if log_to_wandb (config (self s))
   then exists run, wandb_run (self s) = Some run /\ run_id = Some (id run)
   else run_id = None) ->
  let name := str (time_ns_at (time_ns_calls s)) in
  write_checkpoint s
  = (Ok name,
     mkState (set_metrics_logger (Some ml1)
                (set_experience_buffer b1 (set_learner l1 (self s))))
             (<[name := written s lc bc mc run_id]> (fs s))
             (perf_counter_calls s) (S (time_ns_calls s))).
Proof.
  intros Hl Hb Hml Hm Hrun name.
  unfold write_checkpoint, bind at 1 2.
  unfold time_ns at 1. cbn [fst snd]. fold name.
  unfold makedirs_exist_ok, modify at 1. cbn [fst snd].
  set (s0 := on_fs _ _).
  assert (Hdir : exists d, fs s0 !! name = Some d /\
                           forall d', <[name := d']> (fs s0)
                                      = <[name := d']> (fs s)).
  { unfold s0. cbn. destruct (fs s !! name) eqn:E.
    - rewrite E. eauto.
    - rewrite lookup_insert_eq. eexists. split; [done|].
      intros. by rewrite insert_insert_eq. }
  destruct Hdir as (d & Hd & Hins).
  unfold bind at 1, with_learner at 1, zoom.
  change (learner (self s0)) with (learner (self s)). rewrite Hl.
  unfold bind at 1. rewrite (write_ok _ name _ d) by (cbn; exact Hd).
  unfold bind at 1, with_experience_buffer at 1, zoom.
  cbn [self on_fs on_self experience_buffer set_learner].
  change (experience_buffer (self s0)) with (experience_buffer (self s)).
  rewrite Hb. unfold bind at 1.
  rewrite (write_ok _ name _ (set_ppo_learner (Some lc) d))
    by (cbn; apply lookup_insert_eq).
  unfold bind at 1, with_metrics_logger at 1.
  cbn [self on_fs on_self metrics_logger set_learner set_experience_buffer].
  change (metrics_logger (self s0)) with (metrics_logger (self s)).
  rewrite Hml, Hm. unfold bind at 1.
  rewrite (write_ok _ name _
             (set_experience_buffer_folder (Some bc)
                (set_ppo_learner (Some lc) d)))
    by (cbn; apply lookup_insert_eq).
  unfold bind at 1 2, attr at 1, gets at 1. cbn [fst snd].
  rewrite (write_ok _ name _
             (set_metrics_logger_folder (Some mc)
                (set_experience_buffer_folder (Some bc)
                   (set_ppo_learner (Some lc) d))))
    by (cbn; apply lookup_insert_eq).
  unfold bind at 1 2, attr at 1, gets at 1. cbn [fst snd].
  match goal with
  | |- context [write name ?f ?st] =>
      rewrite (write_ok st name f
                 (set_current_trajectories_pkl
                    (Some (current_trajectories (self s)))
                    (set_metrics_logger_folder (Some mc)
                       (set_experience_buffer_folder (Some bc)
                          (set_ppo_learner (Some lc) d)))))
        by (cbn; apply lookup_insert_eq)
  end.
  unfold bind at 1.
  match goal with
  | |- context [write name ?f ?st] =>
      rewrite (write_ok st name f
                 (set_iteration_state_metrics_pkl
                    (Some (iteration_state_metrics (self s)))
                    (set_current_trajectories_pkl
                       (Some (current_trajectories (self s)))
                       (set_metrics_logger_folder (Some mc)
                          (set_experience_buffer_folder (Some bc)
                             (set_ppo_learner (Some lc) d))))))
        by (cbn; apply lookup_insert_eq)
  end.
  unfold bind at 1 2, gets at 1. cbn [fst snd].
  cbn [self on_fs on_self config log_to_wandb wandb_run set_metrics_logger
       set_experience_buffer set_learner].
  change (config (self s0)) with (config (self s)).
  change (wandb_run (self s0)) with (wandb_run (self s)).
  set (read_id := if log_to_wandb (config (self s)) then _ else _).
  assert (Hid : forall st : State, read_id st = (Ok run_id, st)).
  { intros st. unfold read_id. destruct (log_to_wandb _).
    - destruct Hrun as (run & -> & ->). done.
    - by rewrite Hrun. }
  rewrite Hid. unfold bind at 1.
  match goal with
  | |- context [write name ?f ?st] =>
      rewrite (write_ok st name f
                 (set_ppo_agent_json None
                    (set_iteration_state_metrics_pkl
                       (Some (iteration_state_metrics (self s)))
                       (set_current_trajectories_pkl
                          (Some (current_trajectories (self s)))
                          (set_metrics_logger_folder (Some mc)
                             (set_experience_buffer_folder (Some bc)
                                (set_ppo_learner (Some lc) d)))))))
        by (cbn; apply lookup_insert_eq)
  end.
  unfold ret. f_equal. apply state_eq.
  - reflexivity.
  - cbn. rewrite !insert_insert_eq. by rewrite Hins.
  - reflexivity.
  - reflexivity.
Qed.

Lemma write_checkpoint_inv (s s1 : State) name :
  write_checkpoint s = (Ok name, s1) ->
  exists lc l1 bc b1 ml mc ml1 run_id,
    learner_save_checkpoint (learner (self s)) = (Ok lc, l1) /\
    buffer_save_checkpoint (experience_buffer (self s)) = (Ok bc, b1) /\
    metrics_logger (self s) = Some ml /\
    metrics_save_checkpoint ml = (Ok mc, ml1) /\
    (if log_to_wandb (config (self s))
     then exists run, wandb_run (self s) = Some run /\ run_id = Some (id run)
     else run_id = None) /\
    name = str (time_ns_at (time_ns_calls s)) /\
    s1 = mkState (set_metrics_logger (Some ml1)
                    (set_experience_buffer b1 (set_learner l1 (self s))))
                 (<[name := written s lc bc mc run_id]> (fs s))
                 (perf_counter_calls s) (S (time_ns_calls s)).
Proof.
  intros E. pose proof E as E0. revert E.
  unfold write_checkpoint, bind at 1 2.
  unfold time_ns at 1. cbn [fst snd].
  set (name0 := str _). unfold makedirs_exist_ok, modify at 1. cbn [fst snd].
  set (s0 := on_fs _ _).
  assert (Hdir : exists d, fs s0 !! name0 = Some d).
  { unfold s0. cbn. destruct (fs s !! name0) eqn:E.
    - rewrite E. eauto.
    - rewrite lookup_insert_eq. by eexists. }
  destruct Hdir as (d & Hd).
  unfold bind at 1, with_learner at 1, zoom.
  change (learner (self s0)) with (learner (self s)).
  destruct (learner_save_checkpoint (learner (self s)))
    as [[lc|e] l1] eqn:Hl; [|done].
  unfold bind at 1. rewrite (write_ok _ name0 _ d) by (cbn; exact Hd).
  unfold bind at 1, with_experience_buffer at 1, zoom.
  cbn [self on_fs on_self experience_buffer set_learner].
  change (experience_buffer (self s0)) with (experience_buffer (self s)).
  destruct (buffer_save_checkpoint (experience_buffer (self s)))
    as [[bc|e] b1] eqn:Hb; [|done].
  unfold bind at 1.
  rewrite (write_ok _ name0 _ (set_ppo_learner (Some lc) d))
    by (cbn; apply lookup_insert_eq).
  unfold bind at 1, with_metrics_logger at 1.
  cbn [self on_fs on_self metrics_logger set_learner set_experience_buffer].
  change (metrics_logger (self s0)) with (metrics_logger (self s)).
  destruct (metrics_logger (self s)) as [ml|] eqn:Hml; [|done].
  destruct (metrics_save_checkpoint ml) as [[mc|e] ml1] eqn:Hm; [|done].
  unfold bind at 1.
  rewrite (write_ok _ name0 _
             (set_experience_buffer_folder (Some bc)
                (set_ppo_learner (Some lc) d)))
    by (cbn; apply lookup_insert_eq).
  unfold bind at 1 2, attr at 1, gets at 1. cbn [fst snd].
  rewrite (write_ok _ name0 _
             (set_metrics_logger_folder (Some mc)
                (set_experience_buffer_folder (Some bc)
                   (set_ppo_learner (Some lc) d))))
    by (cbn; apply lookup_insert_eq).
  unfold bind at 1 2, attr at 1, gets at 1. cbn [fst snd].
  match goal with
  | |- context [write name0 ?f ?st] =>
      rewrite (write_ok st name0 f
                 (set_current_trajectories_pkl
                    (Some (current_trajectories (self s)))
                    (set_metrics_logger_folder (Some mc)
                       (set_experience_buffer_folder (Some bc)
                          (set_ppo_learner (Some lc) d)))))
        by (cbn; apply lookup_insert_eq)
  end.
  unfold bind at 1.
  match goal with
  | |- context [write name0 ?f ?st] =>
      rewrite (write_ok st name0 f
                 (set_iteration_state_metrics_pkl
                    (Some (iteration_state_metrics (self s)))
                    (set_current_trajectories_pkl
                       (Some (current_trajectories (self s)))
                       (set_metrics_logger_folder (Some mc)
                          (set_experience_buffer_folder (Some bc)
                             (set_ppo_learner (Some lc) d))))))
        by (cbn; apply lookup_insert_eq)
  end.
  unfold bind at 1 2, gets at 1. cbn [fst snd].
  cbn [self on_fs on_self config log_to_wandb wandb_run set_metrics_logger
       set_experience_buffer set_learner].
  change (config (self s0)) with (config (self s)).
  change (wandb_run (self s0)) with (wandb_run (self s)).
  assert (Hrun : (exists run_id,
                    if log_to_wandb (config (self s))
                    then exists run, wandb_run (self s) = Some run /\
                                     run_id = Some (id run)
                    else run_id = None) \/
                 (log_to_wandb (config (self s)) = true /\
                  wandb_run (self s) = None)).
  { destruct (log_to_wandb _); [|left; by exists None].
    destruct (wandb_run _) as [run|]; [left|by right].
    exists (Some (id run)), run. done. }
  destruct Hrun as [[run_id Hrun]|[Hw Hnone]].
  2:{ rewrite Hw, Hnone. done. }
  intros _.
  rewrite (write_checkpoint_runs s lc l1 bc b1 ml mc ml1 run_id) in E0
    by done.
  injection E0 as <- <-.
  exists lc, l1, bc, b1, ml, mc, ml1, run_id. split_and!; done.
Qed.

(** *** A save folder with an entry that is no checkpoint *)

(** With an entry in the save folder whose name has a letter, a save
    whose collaborators save writes the whole new checkpoint and then
    raises the [ValueError] of [int]: nothing is pruned. *)
Theorem save_checkpoint_non_numeric_entry (s : State) lc l1 bc b1 ml mc ml1
    run_id (bad : string) :
  learner_save_checkpoint (learner (self s)) = (Ok lc, l1) ->
  buffer_save_checkpoint (experience_buffer (self s)) = (Ok bc, b1) ->
  metrics_logger (self s) = Some ml ->
  metrics_save_checkpoint ml = (Ok mc, ml1) ->
  (if log_to_wandb (config (self s))
   then exists run, wandb_run (self s) = Some run /\ run_id = Some (id run)
   else run_id = None) ->
  bad ∈ dom (fs s) -> has_letter bad = true ->
  let name := str (time_ns_at (time_ns_calls s)) in
  exists s',
    save_checkpoint s = (Raise ValueError, s') /\
    fs s' = <[name := written s lc bc mc run_id]> (fs s) /\
    dom (fs s) ⊆ dom (fs s').
Proof.
  intros Hl Hb Hml Hm Hrun Hbad Hletter name.
  pose proof (write_checkpoint_runs s lc l1 bc b1 ml mc ml1 run_id
                Hl Hb Hml Hm Hrun) as Hwrite.
  cbv zeta in Hwrite. fold name in Hwrite.
  eexists. unfold save_checkpoint, bind at 1. rewrite Hwrite.
  unfold prune, bind at 1, listdir, gets. cbn [fst snd fs].
  unfold bind at 1, lift.
  rewrite (map_res_int_raises _ bad); [|..|by apply int_letter].
  - split; [reflexivity|]. cbn. split; [done|].
    rewrite dom_insert_L. set_solver.
  - assert (Hne : name <> bad).
    { intros <-. pose proof (int_letter _ Hletter) as Hi.
      unfold name in Hi. by rewrite int_str in Hi. }
    apply elem_of_dom in Hbad as [d Hd].
    apply list_elem_of_fmap. exists (bad, d). split; [done|].
    apply elem_of_map_to_list. by rewrite lookup_insert_ne.
Qed.

(** *** The new checkpoint and the pruning *)

(** When the clock gives the new checkpoint a token above all the tokens
    in the save folder and the retention count is at least 1, a save that
    returns leaves the checkpoint it wrote: the pruning does not take
    it. *)
Theorem save_keeps_new_checkpoint (s s' : State) :
  1 <= n_checkpoints_to_keep (config (self s)) ->
  checkpoints_only (fs s) ->
  (forall old z, old ∈ dom (fs s) -> token old = Some z ->
                 z < time_ns_at (time_ns_calls s)) ->
  save_checkpoint s = (Ok tt, s') ->
  exists lc bc mc run_id,
    fs s' !! str (time_ns_at (time_ns_calls s))
    = Some (written s lc bc mc run_id).
Proof.
  intros Hkeep Honly Hnewer Hsave.
  unfold save_checkpoint, bind in Hsave.
  destruct (write_checkpoint s) as [[name|e] s1] eqn:Hwrite; [|done].
  apply write_checkpoint_inv in Hwrite
    as (lc & l1 & bc & b1 & ml & mc & ml1 & run_id & _ & _ & _ & _ & _
        & -> & ->).
  set (t := time_ns_at (time_ns_calls s)) in *.
  set (s1 := mkState _ _ _ _) in Hsave.
  assert (Hdom1 : dom (fs s1) = {[str t]} ∪ dom (fs s))
    by (unfold s1; cbn; by rewrite dom_insert_L).
  destruct (prune_spec s1) as (victims & kept & s2 & Hp & _ & Hsort
                               & Hdom & Hdom' & Hlen & Hsame & _).
  { done. }
  { intros name. rewrite Hdom1.
    intros [->%elem_of_singleton|Hin]%elem_of_union.
    - rewrite token_str. by eexists.
    - by apply Honly. }
  rewrite Hp in Hsave. simplify_eq.
  exists lc, bc, mc, run_id.
  assert (Hin : str t ∈ dom (fs s')).
  { rewrite Hdom', elem_of_list_to_set.
    assert (Ht : t ∈ victims ++ kept).
    { assert (Hs : str t ∈ dom (fs s1)) by (rewrite Hdom1; set_solver).
      rewrite Hdom, elem_of_list_to_set in Hs.
      apply list_elem_of_fmap in Hs as (t' & Heq & Ht'). apply str_inj in Heq.
      by subst. }
    apply elem_of_app in Ht as [Hv|Hk]; [|by apply list_elem_of_fmap_2].
    exfalso.
    assert (Hne : kept <> []).
    { intros ->. cbn [length] in Hlen.
      change (n_checkpoints_to_keep (config (self s1)))
        with (n_checkpoints_to_keep (config (self s))) in Hlen.
      assert (0 < Z.of_nat (size (fs s1))); [|lia].
      assert (size (fs s1) <> 0%nat); [|lia].
      rewrite <- size_dom. intros Hz%size_empty_inv.
      rewrite Hdom1 in Hz. set_solver. }
    destruct kept as [|k kept]; [done|].
    assert (Hlt : t < k).
    { eapply (StronglySorted_app_1_elem_of Z.lt); [exact Hsort|done|left]. }
    assert (Hk : str k ∈ dom (fs s1)).
    { rewrite Hdom, elem_of_list_to_set. apply list_elem_of_fmap_2.
      apply elem_of_app. right. left. }
    rewrite Hdom1 in Hk.
    apply elem_of_union in Hk as [Hk%elem_of_singleton|Hk].
    - apply str_inj in Hk. lia.
    - pose proof (Hnewer _ k Hk (token_str k)). lia. }
  rewrite (Hsame _ Hin). unfold s1. cbn. apply lookup_insert_eq.
Qed.

(** *** Loading *)

Lemma load_from_checkpoint_eq (s : State) :
  _load_from_checkpoint s
  = match checkpoint_load_folder (config (self s)) with
    | None => (Raise TypeError, s)
    | Some name =>
        match fs s !! name with
        | None => (Raise FileNotFoundError, s)
        | Some d =>
            match current_trajectories_pkl d, iteration_state_metrics_pkl d,
                  ppo_agent_json d with
            | Some trajs, Some metrics, Some st =>
                (Ok tt,
                 on_self (fun c =>
                   mk (config c) (learner c) (experience_buffer c)
                      (metrics_logger c) (obs_standardizer c)
                      (current_env_trajectories c) trajs metrics
                      (json_cur_iteration st) (json_iteration_timesteps st)
                      (json_cumulative_timesteps st)
                      (json_iteration_start_time st)
                      (json_timestep_collection_start_time st)
                      (timestep_collection_end_time c) (ts_since_last_save c)
                      (wandb_run c) (json_wandb_run_id st)) s)
            | _, _, _ => (Raise FileNotFoundError, s)
            end
        end
    end.
Proof.
  unfold _load_from_checkpoint, bind at 1, attr, gets. cbn [fst snd].
  destruct (checkpoint_load_folder (config (self s))) as [name|]; [|done].
  assert (Hmiss : forall A (file : CheckpointDir -> option A) d,
            fs s !! name = Some d -> file d = None ->
            read name file s = (Raise FileNotFoundError, s)).
  { intros A file d Hd Hf. unfold read, bind, gets. cbn. by rewrite Hd, Hf. }
  destruct (fs s !! name) as [d|] eqn:Hd.
  2:{ unfold bind at 1, read at 1, bind, gets. cbn. by rewrite Hd. }
  destruct (current_trajectories_pkl d) as [trajs|] eqn:Ht.
  2:{ unfold bind at 1. by rewrite (Hmiss _ _ d). }
  unfold bind at 1. rewrite (read_ok _ _ _ _ _ Hd Ht).
  destruct (iteration_state_metrics_pkl d) as [metrics|] eqn:Hm.
  2:{ unfold bind at 1. by rewrite (Hmiss _ _ d). }
  unfold bind at 1. rewrite (read_ok _ _ _ _ _ Hd Hm).
  destruct (ppo_agent_json d) as [st|] eqn:Hj.
  2:{ unfold bind at 1. by rewrite (Hmiss _ _ d). }
  unfold bind at 1. by rewrite (read_ok _ _ _ _ _ Hd Hj).
Qed.

(** [_load_from_checkpoint] is all or nothing: it raises [TypeError]
    without a load folder and [FileNotFoundError] when the directory or
    one of its three files is missing, and then the controller is what it
    was; otherwise it returns and has assigned the two lists, the five
    scalars and the run id, and nothing else. *)
Theorem load_from_checkpoint_all_or_nothing (s : State) :
  (forall e s', _load_from_checkpoint s = (Raise e, s') ->
     s' = s /\
     (e = TypeError /\ checkpoint_load_folder (config (self s)) = None \/
      e = FileNotFoundError /\
      exists name, checkpoint_load_folder (config (self s)) = Some name /\
        forall d, fs s !! name = Some d ->
          current_trajectories_pkl d = None \/
          iteration_state_metrics_pkl d = None \/ ppo_agent_json d = None)) /\
  (forall s', _load_from_checkpoint s = (Ok tt, s') ->
     exists name d trajs metrics st,
       checkpoint_load_folder (config (self s)) = Some name /\
       fs s !! name = Some d /\
       current_trajectories_pkl d = Some trajs /\
       iteration_state_metrics_pkl d = Some metrics /\
       ppo_agent_json d = Some st /\
       s' = on_self (fun c =>
              mk (config c) (learner c) (experience_buffer c)
                 (metrics_logger c) (obs_standardizer c)
                 (current_env_trajectories c) trajs metrics
                 (json_cur_iteration st) (json_iteration_timesteps st)
                 (json_cumulative_timesteps st)
                 (json_iteration_start_time st)
                 (json_timestep_collection_start_time st)
                 (timestep_collection_end_time c) (ts_since_last_save c)
                 (wandb_run c) (json_wandb_run_id st)) s).
Proof.
  rewrite load_from_checkpoint_eq.
  destruct (checkpoint_load_folder (config (self s))) as [name|].
  2:{ split; [|done]. intros e s' [= <- <-]. split; [done|]. by left. }
  destruct (fs s !! name) as [d|] eqn:Hd.
  2:{ split; [|done]. intros e s' [= <- <-]. split; [done|]. right.
      split; [done|]. exists name. split; [done|]. intros d. by rewrite Hd. }
  destruct (current_trajectories_pkl d) as [trajs|] eqn:Ht,
           (iteration_state_metrics_pkl d) as [metrics|] eqn:Hm,
           (ppo_agent_json d) as [st|] eqn:Hj; split;
    try (intros s' Heq; discriminate Heq);
    try (intros e s' Heq; discriminate Heq);
    try (intros e s' [= <- <-]; split; [done|]; right; split; [done|];
         exists name; split; [done|];
         intros d0 Hd0; rewrite Hd in Hd0; injection Hd0 as <-;
         rewrite ?Ht, ?Hm, ?Hj; tauto).
  intros s' [= <-]. by exists name, d, trajs, metrics, st.
Qed.

(** The run id travels through a checkpoint: a controller that resumes
    from the directory of a save that returned has as [wandb_run_id] the
    id of the run of the saved controller if that logged to wandb, and
    [None] if not. *)
Theorem wandb_run_id_round_trip (s s1 loader : State) (name : string) :
  save_checkpoint s = (Ok tt, s1) ->
  name = str (time_ns_at (time_ns_calls s)) ->
  name ∈ dom (fs s1) ->
  fs loader = fs s1 ->
  checkpoint_load_folder (config (self loader)) = Some name ->
  exists loaded,
    _load_from_checkpoint loader = (Ok tt, loaded) /\
    wandb_run_id (self loaded)
    = (if log_to_wandb (config (self s))
       then id <$> wandb_run (self s) else None) /\
    (log_to_wandb (config (self s)) = true ->
     is_Some (wandb_run_id (self loaded))).
Proof.
  intros Hsave -> Hin Hfs Hfolder.
  unfold save_checkpoint, bind in Hsave.
  destruct (write_checkpoint s) as [[name|e] s0] eqn:Hwrite; [|done].
  apply write_checkpoint_inv in Hwrite
    as (lc & l1 & bc & b1 & ml & mc & ml1 & run_id & _ & _ & _ & _ & Hrun
        & -> & ->).
  apply elem_of_dom in Hin as [d Hd].
  match type of Hsave with
  | prune ?s0 = _ =>
      assert (Hd0 : fs s0 !! str (time_ns_at (time_ns_calls s)) = Some d)
        by (apply prune_sub; by rewrite Hsave)
  end.
  cbn in Hd0. rewrite lookup_insert_eq in Hd0. simplify_eq.
  rewrite load_from_checkpoint_eq, Hfolder, Hfs, Hd. cbn.
  eexists. split; [reflexivity|]. cbn.
  destruct (log_to_wandb (config (self s))).
  - destruct Hrun as (run & -> & ->). split; [done|]. by eexists.
  - by subst.
Qed.

End Facts.
End CheckpointEdgeFacts.

(** ** Standardizing the observations of a delivery *)

Module StandardizeFacts.
Import PPOAgentController DeliverySpec.
#[local] Open Scope list_scope.
Section Facts.
Context {AgentID : Type} `{Countable AgentID}.
Context {Obs Action Reward LogProb Value StateMetrics Time : Type}.
Context {Learner ExperienceBuffer MetricsLogger ObsStandardizer : Type}.
Context {PPOData TrajectoryProcessorData AgentMetrics CollectedMetrics : Type}.
Context {LearnerCheckpoint BufferCheckpoint MetricsCheckpoint : Type}.
Context `{!Externals (AgentID:=AgentID) (Obs:=Obs) (Action:=Action)
            (Reward:=Reward) (LogProb:=LogProb) (Value:=Value)
            (StateMetrics:=StateMetrics) (Time:=Time) (Learner:=Learner)
            (ExperienceBuffer:=ExperienceBuffer) (MetricsLogger:=MetricsLogger)
            (ObsStandardizer:=ObsStandardizer) (PPOData:=PPOData)
            (TrajectoryProcessorData:=TrajectoryProcessorData)
            (AgentMetrics:=AgentMetrics) (CollectedMetrics:=CollectedMetrics)
            (LearnerCheckpoint:=LearnerCheckpoint)
            (BufferCheckpoint:=BufferCheckpoint)
            (MetricsCheckpoint:=MetricsCheckpoint)}.

Abbreviation State := (state (AgentID:=AgentID) (Obs:=Obs) (Action:=Action)
            (Reward:=Reward) (LogProb:=LogProb) (Value:=Value)
            (StateMetrics:=StateMetrics) (Time:=Time) (Learner:=Learner)
            (ExperienceBuffer:=ExperienceBuffer) (MetricsLogger:=MetricsLogger)
            (ObsStandardizer:=ObsStandardizer)
            (LearnerCheckpoint:=LearnerCheckpoint)
            (BufferCheckpoint:=BufferCheckpoint)
            (MetricsCheckpoint:=MetricsCheckpoint)).

Abbreviation Step := (Timestep.t AgentID Obs Action Reward).

Lemma restamped_nil i (ts : Step) : restamped [] i ts = ts.
Proof. unfold restamped. by rewrite !lookup_nil. Qed.

(** One more observation written back. *)
Lemma restamped_snoc (done : list Obs) (o : Obs) (timesteps : list Step) ts :
  timesteps !! (length done / 2)%nat = Some ts ->
  <[(length done / 2)%nat :=
      (if Nat.eqb (length done mod 2) 0
       then set_obs o else set_next_obs o)
        (restamped done (length done / 2) ts)]>
    (imap (restamped done) timesteps)
  = imap (restamped (done ++ [o])) timesteps.
Proof.
  intros Hts.
  pose proof (Nat.div_mod_eq (length done) 2) as Hk.
  pose proof (Nat.mod_upper_bound (length done) 2 ltac:(done)) as Hm.
  remember (length done) as k eqn:Ek.
  remember (k / 2)%nat as i eqn:Ei. clear Ei.
  apply list_eq. intros j.
  destruct (decide (j = i)) as [->|Hne].
  - rewrite list_lookup_insert_eq
      by (rewrite length_imap; by apply lookup_lt_Some in Hts).
    rewrite list_lookup_imap, Hts. cbn [fmap option_fmap option_map].
    f_equal. unfold restamped.
    destruct (Nat.eqb_spec (k mod 2) 0) as [He|Ho].
    + assert (E : (2 * i)%nat = k) by lia.
      rewrite !(lookup_ge_None_2 done) by lia.
      rewrite E, Ek. rewrite (list_lookup_middle done [] o (length done)) by reflexivity.
      by rewrite lookup_ge_None_2 by (rewrite length_app; cbn; lia).
    + assert (E : (2 * i + 1)%nat = k) by lia.
      rewrite (lookup_ge_None_2 done (2 * i + 1)) by lia.
      rewrite E, Ek.
      rewrite (list_lookup_middle done [] o (length done)) by reflexivity.
      rewrite (lookup_app_l done) by lia.
      by destruct (done !! (2 * i)%nat).
  - rewrite list_lookup_insert_ne by done.
    rewrite !list_lookup_imap. destruct (timesteps !! j) as [tj|]; [|done].
    cbn [fmap option_fmap option_map]. f_equal. unfold restamped.
    destruct (decide (j < i)%nat) as [Hlt|Hgt].
    + by rewrite !(lookup_app_l done) by lia.
    + rewrite !(lookup_ge_None_2 done) by lia.
      by rewrite !lookup_ge_None_2 by (rewrite length_app; cbn; lia).
Qed.

(** The second loop of [standardize_timestep_observations], from entry
    [length done] on. *)
Lemma write_back_loop (rest : list Obs) : forall (done : list Obs)
    (timesteps : list Step) (s : State),
  (length done <= 2 * length timesteps)%nat ->
  for_fold (imap (fun j o => (length done + j, o)%nat) rest)
           (imap (restamped done) timesteps) write_back s
  = if decide (length (done ++ rest) <= 2 * length timesteps)%nat
    then (Ok (imap (restamped (done ++ rest)) timesteps), s)
    else (Raise IndexError, s).
Proof.
  induction rest as [|o rest IH]; intros done timesteps s Hdone.
  - cbn [imap for_fold]. rewrite app_nil_r. by rewrite decide_True.
  - rewrite imap_cons. cbn [for_fold]. unfold bind, write_back at 1.
    rewrite Nat.add_0_r. set (k := length done) in *.
    pose proof (Nat.div_mod_eq k 2) as Hk.
    pose proof (Nat.mod_upper_bound k 2 ltac:(done)) as Hm.
    rewrite list_lookup_imap.
    destruct (timesteps !! (k / 2)%nat) as [ts|] eqn:Hts; cbn.
    + apply lookup_lt_Some in Hts as Hlt.
      assert (Hstep : forall st : State,
        (if Nat.eqb (k mod 2) 0
         then ret (<[(k / 2)%nat := set_obs o (restamped done (k / 2) ts)]>
                     (imap (restamped done) timesteps))
         else ret (<[(k / 2)%nat := set_next_obs o (restamped done (k / 2) ts)]>
                     (imap (restamped done) timesteps))) st
        = (Ok (imap (restamped (done ++ [o])) timesteps), st)).
      { intros st. rewrite <- (restamped_snoc done o timesteps ts) by done.
        fold k. by destruct (Nat.eqb (k mod 2) 0). }
      rewrite Hstep.
      rewrite (imap_ext _ (fun j o' => (length (done ++ [o]) + j, o')%nat))
        by (intros; cbn; rewrite length_app; cbn; f_equal; lia).
      rewrite IH by (rewrite length_app; cbn; fold k; lia).
      by rewrite <- app_assoc.
    + apply lookup_ge_None_1 in Hts.
      rewrite decide_False; [done|]. rewrite length_app. cbn. fold k. lia.
Qed.

Lemma bind_pair_length {A B} (f : A -> list B) (l : list A) :
  (forall x, length (f x) = 2%nat) -> length (l ≫= f) = (2 * length l)%nat.
Proof.
  intros Hf. induction l as [|x l IH]; [done|].
  rewrite bind_cons, length_app, Hf, IH. cbn. lia.
Qed.

(** [standardize_timestep_observations] sends the standardizer every
    agent id twice and the observations as [obs, next_obs] pairs; when
    the standardizer answers with at most two observations per timestep,
    timestep [i] gets the entries [2i] and [2i+1] of the answer as its
    [obs] and [next_obs] (as far as the answer goes) and keeps its other
    fields; a longer answer raises [IndexError]; without a standardizer
    the call raises [AttributeError]. *)
Theorem standardize_timestep_observations_layout (s : State)
    (timesteps : list Step) :
  let ids := timesteps ≫= (fun ts => [Timestep.agent_id ts; Timestep.agent_id ts]) in
  let obs := timesteps ≫= (fun ts => [Timestep.obs ts; Timestep.next_obs ts]) in
  length ids = (2 * length timesteps)%nat /\
  length obs = (2 * length timesteps)%nat /\
  (obs_standardizer (self s) = None ->
   standardize_timestep_observations timesteps s = (Raise AttributeError, s)) /\
  (forall st out st',
     obs_standardizer (self s) = Some st ->
     standardize ids obs st = (Ok out, st') ->
     let s' := on_self (set_obs_standardizer (Some st')) s in
     standardize_timestep_observations timesteps s
     = if decide (length out <= 2 * length timesteps)%nat
       then (Ok (imap (restamped out) timesteps), s')
       else (Raise IndexError, s')).
Proof.
  intros ids obs.
  split_and!.
  - by apply bind_pair_length.
  - by apply bind_pair_length.
  - intros Hnone. unfold standardize_timestep_observations, bind,
      with_obs_standardizer. by rewrite Hnone.
  - intros st out st' Hst Hrun s'.
    unfold standardize_timestep_observations, bind at 1,
      with_obs_standardizer. rewrite Hst. fold ids obs. rewrite Hrun.
    fold s'.
    pose proof (write_back_loop out [] timesteps s' ltac:(cbn; lia)) as Hloop.
    cbn [app length] in Hloop.
    rewrite (imap_ext _ pair) in Hloop by done.
    replace (imap (restamped []) timesteps) with timesteps in Hloop.
    + exact Hloop.
    + apply list_eq. intros j. rewrite list_lookup_imap.
      destruct (timesteps !! j); [|done]. cbn. by rewrite restamped_nil.
Qed.

End Facts.
End StandardizeFacts.

(** ** The reset/step decisions of one query *)

Module QueryFacts.
Import PPOAgentController DeliverySpec OdictFacts DecisionFacts.
#[local] Open Scope list_scope.

Section Odict.
Context `{EqDecision K} {V : Type}.
Implicit Types d : list (K * V).

Lemma odict_set_fresh k v d : k ∉ d.*1 -> odict_set k v d = d ++ [(k, v)].
Proof.
  induction d as [|[k' v'] d IH]; simpl; [done|].
  intros Hin. rewrite decide_False by set_solver. f_equal. apply IH.
  set_solver.
Qed.

Lemma odict_get_Some k v d : odict_get k d = Some v -> (k, v) ∈ d.
Proof.
  induction d as [|[k' v'] d IH]; simpl; [done|].
  case_decide as E; [intros [= <-]; subst; left|right; auto].
Qed.

Lemma odict_get_elem k v d : NoDup d.*1 -> (k, v) ∈ d -> odict_get k d = Some v.
Proof.
  induction d as [|[k' v'] d IH]; simpl; [by inversion 2|].
  intros [Hnotin Hnd]%NoDup_cons [[= <- <-]|Hin]%elem_of_cons.
  - by rewrite decide_True.
  - rewrite decide_False; [by apply IH|].
    intros ->. apply Hnotin. apply list_elem_of_fmap. by exists (k, v).
Qed.

Lemma odict_get_is_None k d : odict_get k d = None -> k ∉ d.*1.
Proof.
  induction d as [|[k' v'] d IH]; simpl; [set_solver|].
  case_decide; [done|]. intros Hn%IH. set_solver.
Qed.

Lemma odict_pop_filter k d :
  NoDup d.*1 -> odict_pop k d = filter (fun item => item.1 <> k) d.
Proof.
  induction d as [|[k' v'] d IH]; simpl; [done|].
  intros [Hnotin Hnd]%NoDup_cons. case_decide as E.
  - subst. rewrite filter_cons_False by (cbn; tauto).
    symmetry. clear IH Hnd. induction d as [|[k0 v0] d IH]; [done|].
    rewrite filter_cons_True by (cbn; set_solver). f_equal. apply IH.
    set_solver.
  - rewrite filter_cons_True by done. f_equal. by apply IH.
Qed.

End Odict.

Lemma filter_ext_elem {A} (P1 P2 : A -> Prop) `{!forall x, Decision (P1 x)}
    `{!forall x, Decision (P2 x)} (l : list A) :
  (forall x, x ∈ l -> P1 x <-> P2 x) -> filter P1 l = filter P2 l.
Proof.
  induction l as [|a l IH]; intros Hiff; [done|].
  rewrite !filter_cons.
  rewrite IH by (intros x Hx; apply Hiff; by right).
  apply decide_ext. apply Hiff. by left.
Qed.

Section Facts.
Context {AgentID : Type} `{Countable AgentID}.
Context {Obs Action Reward LogProb Value StateMetrics Time : Type}.
Context {Learner ExperienceBuffer MetricsLogger ObsStandardizer : Type}.
Context {PPOData TrajectoryProcessorData AgentMetrics CollectedMetrics : Type}.
Context {LearnerCheckpoint BufferCheckpoint MetricsCheckpoint : Type}.
Context `{!Externals (AgentID:=AgentID) (Obs:=Obs) (Action:=Action)
            (Reward:=Reward) (LogProb:=LogProb) (Value:=Value)
            (StateMetrics:=StateMetrics) (Time:=Time) (Learner:=Learner)
            (ExperienceBuffer:=ExperienceBuffer) (MetricsLogger:=MetricsLogger)
            (ObsStandardizer:=ObsStandardizer) (PPOData:=PPOData)
            (TrajectoryProcessorData:=TrajectoryProcessorData)
            (AgentMetrics:=AgentMetrics) (CollectedMetrics:=CollectedMetrics)
            (LearnerCheckpoint:=LearnerCheckpoint)
            (BufferCheckpoint:=BufferCheckpoint)
            (MetricsCheckpoint:=MetricsCheckpoint)}.

Abbreviation State := (state (AgentID:=AgentID) (Obs:=Obs) (Action:=Action)
            (Reward:=Reward) (LogProb:=LogProb) (Value:=Value)
            (StateMetrics:=StateMetrics) (Time:=Time) (Learner:=Learner)
            (ExperienceBuffer:=ExperienceBuffer) (MetricsLogger:=MetricsLogger)
            (ObsStandardizer:=ObsStandardizer)
            (LearnerCheckpoint:=LearnerCheckpoint)
            (BufferCheckpoint:=BufferCheckpoint)
            (MetricsCheckpoint:=MetricsCheckpoint)).

Abbreviation Tracker := (EnvTrajectories.t AgentID Obs Action Reward LogProb).
Abbreviation Traj := (Trajectory.t AgentID Obs Action Reward LogProb Value).

Lemma answer_get (trackers : list (string * Tracker)) env_id :
  answer trackers env_id
  = match odict_get env_id trackers with
    | Some tracker => if all_done tracker then RESET_RESPONSE else STEP_RESPONSE
    | None => STEP_RESPONSE
    end.
Proof. unfold answer, resets. by destruct (odict_get _ _). Qed.

Lemma still_open_nil (trackers : list (string * Tracker)) :
  still_open [] trackers = trackers.
Proof.
  unfold still_open. induction trackers as [|x l IH]; [done|].
  rewrite filter_cons_True, IH; [done|].
  intros [Hx _]. by inversion Hx.
Qed.

(** One round that does not close a tracker. *)
Lemma still_open_skip (trackers : list (string * Tracker)) env_id rest :
  NoDup trackers.*1 -> resets trackers env_id = false ->
  still_open (env_id :: rest) trackers = still_open rest trackers.
Proof.
  intros Hnd Hres. unfold still_open. apply filter_ext_elem.
  intros [k tr] Hin. unfold closed_by. cbn.
  rewrite elem_of_cons.
  split.
  - intros Hn [Hk Hd]. apply Hn. split; [by right|done].
  - intros Hn [[->|Hk] Hd]; [|by apply Hn].
    unfold resets in Hres. rewrite (odict_get_elem _ _ _ Hnd Hin) in Hres.
    congruence.
Qed.

(** One round that closes one. *)
Lemma still_open_pop (trackers : list (string * Tracker)) env_id tracker rest :
  NoDup trackers.*1 -> odict_get env_id trackers = Some tracker ->
  all_done tracker = true ->
  still_open rest (odict_pop env_id trackers)
  = still_open (env_id :: rest) trackers.
Proof.
  intros Hnd Hget Hdone. unfold still_open.
  rewrite odict_pop_filter, list_filter_filter by done.
  apply filter_ext_elem. intros [k tr] Hin. unfold closed_by. cbn.
  rewrite elem_of_cons. split.
  - intros [Hn Hk] [[->|Hr] Hd]; [done|]. by apply Hn.
  - intros Hn. split.
    + intros [Hr Hd]. apply Hn. split; [by right|done].
    + intros ->. apply Hn. split; [by left|].
      rewrite (odict_get_elem _ _ _ Hnd Hin) in Hget. congruence.
Qed.

Lemma released_cons tensor (trackers : list (string * Tracker)) env_id rest :
  released (Value:=Value) tensor trackers (env_id :: rest)
  = released tensor trackers [env_id] ++ released tensor trackers rest.
Proof. unfold released. rewrite !bind_cons. cbn. by rewrite app_nil_r. Qed.

(** The loop of [choose_env_actions]. *)
Lemma choose_loop (state_info : list string) :
  forall (responses : list (string * EnvActionResponse)) (s : State) r s',
  NoDup (current_env_trajectories (self s)).*1 -> NoDup state_info ->
  (forall env_id, env_id ∈ state_info -> env_id ∉ responses.*1) ->
  for_fold state_info responses choose_env_action s = (Ok r, s') ->
  r = responses
      ++ ((fun env_id => (env_id, answer (current_env_trajectories (self s))
                                     env_id)) <$> state_info) /\
  s' = QuerySpec.queried state_info s.
Proof.
  induction state_info as [|env_id rest IH];
    intros responses s r s' Hnd Hids Hfresh Hrun.
  - cbn in Hrun. injection Hrun as <- <-. rewrite app_nil_r. split; [done|].
    unfold QuerySpec.queried. rewrite still_open_nil.
    change (released tensor0 (current_env_trajectories (self s)) [])
      with (@nil Traj).
    destruct s as [[] ? ? ?].
    unfold on_self, set_current_trajectories, set_current_env_trajectories.
    cbn. by rewrite app_nil_r.
  - apply NoDup_cons in Hids as [Hnotin Hids].
    set (trackers := current_env_trajectories (self s)) in *.
    assert (Hset : forall v, odict_set env_id v responses
                             = responses ++ [(env_id, v)]).
    { intros v. apply odict_set_fresh, Hfresh. by left. }
    assert (Hfresh' : forall v env_id', env_id' ∈ rest ->
                        env_id' ∉ (responses ++ [(env_id, v)]).*1).
    { intros v e He. rewrite fmap_app, elem_of_app. cbn.
      intros [Hin|Hin%list_elem_of_singleton].
      - by apply (Hfresh e); [right|].
      - by subst. }
    cbn [for_fold] in Hrun. unfold bind at 1 in Hrun.
    unfold choose_env_action at 1, bind at 1, attr, gets in Hrun.
    cbn [fst snd] in Hrun. fold trackers in Hrun.
    rewrite !Hset in Hrun. rewrite fmap_cons, answer_get.
    destruct (odict_get env_id trackers) as [tracker|] eqn:Hget.
    + fold (all_done tracker) in Hrun.
      destruct (all_done tracker) eqn:Hdone.
      * unfold bind at 1, assign at 1, modify at 1 in Hrun.
        cbn [fst snd] in Hrun. unfold bind at 1, lift at 1 in Hrun.
        destruct (EnvTrajectories.get_trajectories tensor0 tracker)
          as [trajs|e] eqn:Htrajs; [|done].
        unfold bind at 1, extend_current_trajectories at 1, assign at 1,
          modify at 1, ret at 1 in Hrun. cbn [fst snd] in Hrun.
        apply IH in Hrun as [-> ->]; [|cbn; by apply odict_pop_keys|done|
                                      by apply Hfresh'].
        cbn [self on_self current_env_trajectories
             set_current_env_trajectories set_current_trajectories].
        split.
        -- rewrite <- app_assoc. cbn. do 2 f_equal.
           apply list_fmap_ext. intros i e He. f_equal.
           rewrite !answer_get, odict_get_pop_ne; [done|].
           intros ->. apply Hnotin. by eapply list_elem_of_lookup_2.
        -- unfold QuerySpec.queried.
           cbn [self on_self current_env_trajectories current_trajectories
                set_current_env_trajectories set_current_trajectories].
           fold trackers. rewrite released_cons.
           rewrite (still_open_pop trackers env_id tracker) by done.
           assert (Hrel : released tensor0 (odict_pop env_id trackers) rest
                          = released tensor0 trackers rest).
           { unfold released. apply Forall_bind_ext, Forall_forall.
             intros e He. rewrite odict_get_pop_ne; [done|].
             intros ->. done. }
           rewrite Hrel.
           assert (Hone : released tensor0 trackers [env_id] = trajs).
           { unfold released. cbn. rewrite Hget, Hdone, Htrajs.
             by rewrite app_nil_r. }
           rewrite Hone. destruct s as [[] ? ? ?].
           unfold on_self, set_current_trajectories,
             set_current_env_trajectories.
           cbn. by rewrite <- app_assoc.
      * unfold ret at 1 in Hrun.
        apply IH in Hrun as [-> ->]; [|done|done|by apply Hfresh'].
        split; [by rewrite <- app_assoc|].
        unfold QuerySpec.queried. fold trackers. rewrite released_cons.
        rewrite (still_open_skip trackers env_id rest)
          by (try done; unfold resets; by rewrite Hget).
        assert (Hone : released tensor0 trackers [env_id] = []).
        { unfold released. cbn. by rewrite Hget, Hdone. }
        by rewrite Hone.
    + unfold ret at 1 in Hrun.
      apply IH in Hrun as [-> ->]; [|done|done|by apply Hfresh'].
      split; [by rewrite <- app_assoc|].
      unfold QuerySpec.queried. fold trackers. rewrite released_cons.
      rewrite (still_open_skip trackers env_id rest)
        by (try done; unfold resets; by rewrite Hget).
      assert (Hone : released tensor0 trackers [env_id] = []).
      { unfold released. cbn. by rewrite Hget. }
      by rewrite Hone.
Qed.

(** A query that closes nothing. *)
Lemma choose_loop_idle (state_info : list string) :
  forall (responses : list (string * EnvActionResponse)) (s : State),
  NoDup state_info ->
  (forall env_id, env_id ∈ state_info -> env_id ∉ responses.*1) ->
  (forall env_id, env_id ∈ state_info ->
     resets (current_env_trajectories (self s)) env_id = false) ->
  for_fold state_info responses choose_env_action s
  = (Ok (responses ++ ((fun env_id => (env_id, STEP_RESPONSE)) <$> state_info)),
     s).
Proof.
  induction state_info as [|env_id rest IH]; intros responses s Hids Hfresh Hidle.
  - cbn. by rewrite app_nil_r.
  - apply NoDup_cons in Hids as [Hnotin Hids].
    cbn [for_fold]. unfold bind at 1.
    assert (Hstep : choose_env_action responses env_id s
                    = (Ok (responses ++ [(env_id, STEP_RESPONSE)]), s)).
    { unfold choose_env_action, bind, attr, gets. cbn [fst snd].
      rewrite !odict_set_fresh by (apply Hfresh; by left).
      pose proof (Hidle env_id ltac:(left)) as Hres. unfold resets in Hres.
      destruct (odict_get env_id (current_env_trajectories (self s)))
        as [tracker|]; [|reflexivity].
      fold (all_done tracker). rewrite Hres. reflexivity. }
    rewrite Hstep, IH; [by rewrite <- app_assoc|done| |].
    + intros e He. rewrite fmap_app, elem_of_app. cbn.
      intros [Hin|Hin%list_elem_of_singleton].
      * by apply (Hfresh e); [right|].
      * by subst.
    + intros e He. apply Hidle. by right.
Qed.

Lemma resets_still_open (trackers : list (string * Tracker)) state_info env_id :
  env_id ∈ state_info -> resets (still_open state_info trackers) env_id = false.
Proof.
  intros Hin. unfold resets.
  destruct (odict_get env_id _) as [tracker|] eqn:Hget; [|done].
  apply odict_get_Some in Hget. unfold still_open in Hget.
  apply list_elem_of_filter in Hget as [Hopen _].
  destruct (all_done tracker) eqn:Hdone; [|done].
  exfalso. apply Hopen. by split.
Qed.

(** [choose_env_actions] as a whole, when it returns: every queried
    environment gets one answer, in the order of the query, RESET if it
    had a tracker with all agents done and STEP if not; the trackers
    answered with RESET are gone from the dict, the others stay in their
    order; the trajectories of the closed trackers are appended to the
    completed list in the order of the query; nothing else changes. *)
Theorem choose_env_actions_query (s s' : State) (state_info : list string)
    (responses : list (string * EnvActionResponse)) :
  NoDup (current_env_trajectories (self s)).*1 -> NoDup state_info ->
  choose_env_actions state_info s = (Ok responses, s') ->
  let trackers := current_env_trajectories (self s) in
  responses = (fun env_id => (env_id, answer trackers env_id)) <$> state_info /\
  responses.*1 = state_info /\
  current_env_trajectories (self s') = still_open state_info trackers /\
  current_trajectories (self s')
  = current_trajectories (self s) ++ released tensor0 trackers state_info /\
  s' = QuerySpec.queried state_info s.
Proof.
  intros Hnd Hids Hrun trackers.
  apply choose_loop in Hrun as [-> ->]; [|done|done|by set_solver].
  cbn [app]. split_and!; try done.
  rewrite <- list_fmap_compose. by rewrite list_fmap_id.
Qed.

(** A second query with the same environments answers STEP throughout
    and changes nothing: each tracker is closed once. *)
Theorem choose_env_actions_again (s s' : State) (state_info : list string)
    (responses : list (string * EnvActionResponse)) :
  NoDup (current_env_trajectories (self s)).*1 -> NoDup state_info ->
  choose_env_actions state_info s = (Ok responses, s') ->
  choose_env_actions state_info s'
  = (Ok ((fun env_id => (env_id, STEP_RESPONSE)) <$> state_info), s').
Proof.
  intros Hnd Hids Hrun.
  apply choose_loop in Hrun as [_ ->]; [|done|done|by set_solver].
  unfold choose_env_actions. rewrite choose_loop_idle; try done.
  - set_solver.
  - intros e He. unfold QuerySpec.queried. cbn.
    by apply resets_still_open.
Qed.

End Facts.
End QueryFacts.

(** ** Deliveries: counting, learning and saving *)

Module DeliveryFacts.
Import PPOAgentController ControllerSpec DeliverySpec FrameSpec.
Import TrackerSpec TrackerFacts OdictFacts QueryFacts LearnFacts FrameFacts.
Import StandardizeFacts CheckpointEdgeFacts.
#[local] Open Scope list_scope.
Section Facts.
Context {AgentID : Type} `{Countable AgentID}.
Context {Obs Action Reward LogProb Value StateMetrics Time : Type}.
Context {Learner ExperienceBuffer MetricsLogger ObsStandardizer : Type}.
Context {PPOData TrajectoryProcessorData AgentMetrics CollectedMetrics : Type}.
Context {LearnerCheckpoint BufferCheckpoint MetricsCheckpoint : Type}.
Context `{!Externals (AgentID:=AgentID) (Obs:=Obs) (Action:=Action)
            (Reward:=Reward) (LogProb:=LogProb) (Value:=Value)
            (StateMetrics:=StateMetrics) (Time:=Time) (Learner:=Learner)
            (ExperienceBuffer:=ExperienceBuffer) (MetricsLogger:=MetricsLogger)
            (ObsStandardizer:=ObsStandardizer) (PPOData:=PPOData)
            (TrajectoryProcessorData:=TrajectoryProcessorData)
            (AgentMetrics:=AgentMetrics) (CollectedMetrics:=CollectedMetrics)
            (LearnerCheckpoint:=LearnerCheckpoint)
            (BufferCheckpoint:=BufferCheckpoint)
            (MetricsCheckpoint:=MetricsCheckpoint)}.

Abbreviation State := (state (AgentID:=AgentID) (Obs:=Obs) (Action:=Action)
            (Reward:=Reward) (LogProb:=LogProb) (Value:=Value)
            (StateMetrics:=StateMetrics) (Time:=Time) (Learner:=Learner)
            (ExperienceBuffer:=ExperienceBuffer) (MetricsLogger:=MetricsLogger)
            (ObsStandardizer:=ObsStandardizer)
            (LearnerCheckpoint:=LearnerCheckpoint)
            (BufferCheckpoint:=BufferCheckpoint)
            (MetricsCheckpoint:=MetricsCheckpoint)).

Abbreviation Step := (Timestep.t AgentID Obs Action Reward).
Abbreviation Tracker := (EnvTrajectories.t AgentID Obs Action Reward LogProb).
Abbreviation Delivery := (string * (list Step * list LogProb * StateMetrics))%type.

Lemma add_steps_bound (timesteps : list Step) row (tr tr' : Tracker) n :
  EnvTrajectories.add_steps timesteps row tr = (Ok n, tr') ->
  (n <= length timesteps)%nat.
Proof.
  rewrite add_steps_unfold.
  destruct (for_fold _ _ _ _) as [[m|e] s1] eqn:E; [|done].
  intros [= <- _]. apply loop_count in E. lia.
Qed.


Lemma keeps_standardize (timesteps : list Step) :
  keeps (standardize_timestep_observations timesteps : M State _).
Proof.
  unfold standardize_timestep_observations.
  apply (preserves_bind bookkeeping).
  - intros s. unfold with_obs_standardizer.
    destruct (obs_standardizer (self s)); [|done]. by destruct (standardize _ _ _).
  - intros out. apply (preserves_for_fold bookkeeping).
    intros acc [i o]. unfold write_back.
    destruct (acc !! _); [|by intros s]. by destruct (Nat.eqb _ _); intros s.
Qed.

Lemma keeps_process_env acc (item : Delivery) :
  keeps (process_env acc item : M State _).
Proof.
  destruct acc as [added metrics], item as [env_id [[ts lp] m]].
  unfold process_env.
  apply (preserves_bind bookkeeping); [by intros s|]. intros std.
  apply (preserves_bind bookkeeping).
  { destruct std; [apply keeps_standardize|by intros s]. }
  intros ts'. apply (preserves_bind bookkeeping); [|by intros ? s].
  destruct ts' as [|t0 ts']; [by intros s|].
  apply (preserves_bind bookkeeping); [by intros s|]. intros trackers.
  apply (preserves_bind bookkeeping).
  { by destruct (odict_get env_id trackers); intros s. }
  intros _. apply (preserves_bind bookkeeping); [|by intros ? s].
  apply keeps_with_env_trajectories.
Qed.



Lemma standardize_frame (timesteps timesteps' : list Step) (s s' : State) :
  standardize_timestep_observations timesteps s = (Ok timesteps', s') ->
  current_env_trajectories (self s') = current_env_trajectories (self s) /\
  current_trajectories (self s') = current_trajectories (self s) /\
  Timestep.agent_id <$> timesteps' = Timestep.agent_id <$> timesteps.
Proof.
  unfold standardize_timestep_observations, bind at 1, with_obs_standardizer.
  destruct (obs_standardizer (self s)) as [st|]; [|done].
  destruct (standardize _ _ st) as [[out|e] st']; [|done].
  pose proof (write_back_loop out [] timesteps
                (on_self (set_obs_standardizer (Some st')) s)
                ltac:(cbn; lia)) as Hloop.
  cbn [app length] in Hloop. rewrite (imap_ext _ pair) in Hloop by done.
  replace (imap (restamped []) timesteps) with timesteps in Hloop.
  - rewrite Hloop. case_decide; [|done]. intros [= <- <-].
    split_and!; try done.
    apply list_eq. intros j. rewrite !list_lookup_fmap, list_lookup_imap.
    destruct (timesteps !! j) as [ts|]; [|done]. cbn. f_equal.
    unfold restamped. by destruct (out !! _), (out !! _).
  - apply list_eq. intros j. rewrite list_lookup_imap.
    destruct (timesteps !! j); [|done]. cbn. by rewrite restamped_nil.
Qed.

(** *** What the trackers take *)









(** What a learning step that returns leaves of the bookkeeping. *)
Lemma learn_returns (s s' : State) :
  _learn s = (Ok tt, s') ->
  config (self s') = config (self s) /\
  cur_iteration (self s') = cur_iteration (self s) /\
  cumulative_timesteps (self s') = cumulative_timesteps (self s) /\
  iteration_timesteps (self s') = 0 /\
  ts_since_last_save (self s')
  = ts_since_last_save (self s) + iteration_timesteps (self s) /\
  current_env_trajectories (self s') = [] /\
  current_trajectories (self s') = [] /\
  iteration_state_metrics (self s') = [] /\
  fs s' = fs s /\ time_ns_calls s' = time_ns_calls s.
Proof.
  unfold _learn, bind at 1.
  pose proof (keeps_learn_collect s) as H1.
  destruct (learn_collect s) as [[[tpd ppo]|e] s1]; [|done].
  unfold bind at 1, perf_counter at 1. cbn [fst snd].
  set (s2 := mkState _ _ _ _).
  unfold bind at 1.
  pose proof (keeps_learn_report (perf_counter_at (perf_counter_calls s1))
                tpd ppo s2) as H2.
  destruct (learn_report _ _ _ s2) as [[[]|e] s3]; [|done].
  unfold learn_reset, bind, assign, modify, perf_counter. cbn.
  intros [= <-]. cbn.
  unfold bookkeeping in *. cbn in *. simplify_eq.
  split_and!; try done; congruence.
Qed.



(** After a learning step that returns, a query answers STEP for every
    environment and changes nothing: the learning step leaves no tracker
    to reset, also for the environments whose trajectories it cut. *)
Theorem learn_then_step (s s1 : State) (state_info : list string) :
  _learn s = (Ok tt, s1) -> NoDup state_info ->
  choose_env_actions state_info s1
  = (Ok ((fun env_id => (env_id, STEP_RESPONSE)) <$> state_info), s1).
Proof.
  intros (_ & _ & _ & _ & _ & Hnone & _)%learn_returns Hids.
  unfold choose_env_actions. rewrite QueryFacts.choose_loop_idle; try done.
  - set_solver.
  - intros e _. by rewrite Hnone.
Qed.

End Facts.
End DeliveryFacts.

(** ** Accounting of timesteps *)

Module AccountFacts.
Import PPOAgentController ControllerSpec DeliverySpec FrameSpec AccountSpec.
Import TrackerSpec TrackerFacts OdictFacts QueryFacts LearnFacts FrameFacts.
Import StandardizeFacts DeliveryFacts.
#[local] Open Scope list_scope.
Section Facts.
Context {AgentID : Type} `{Countable AgentID}.
Context {Obs Action Reward LogProb Value StateMetrics Time : Type}.
Context {Learner ExperienceBuffer MetricsLogger ObsStandardizer : Type}.
Context {PPOData TrajectoryProcessorData AgentMetrics CollectedMetrics : Type}.
Context {LearnerCheckpoint BufferCheckpoint MetricsCheckpoint : Type}.
Context `{!Externals (AgentID:=AgentID) (Obs:=Obs) (Action:=Action)
            (Reward:=Reward) (LogProb:=LogProb) (Value:=Value)
            (StateMetrics:=StateMetrics) (Time:=Time) (Learner:=Learner)
            (ExperienceBuffer:=ExperienceBuffer) (MetricsLogger:=MetricsLogger)
            (ObsStandardizer:=ObsStandardizer) (PPOData:=PPOData)
            (TrajectoryProcessorData:=TrajectoryProcessorData)
            (AgentMetrics:=AgentMetrics) (CollectedMetrics:=CollectedMetrics)
            (LearnerCheckpoint:=LearnerCheckpoint)
            (BufferCheckpoint:=BufferCheckpoint)
            (MetricsCheckpoint:=MetricsCheckpoint)}.

Abbreviation State := (state (AgentID:=AgentID) (Obs:=Obs) (Action:=Action)
            (Reward:=Reward) (LogProb:=LogProb) (Value:=Value)
            (StateMetrics:=StateMetrics) (Time:=Time) (Learner:=Learner)
            (ExperienceBuffer:=ExperienceBuffer) (MetricsLogger:=MetricsLogger)
            (ObsStandardizer:=ObsStandardizer)
            (LearnerCheckpoint:=LearnerCheckpoint)
            (BufferCheckpoint:=BufferCheckpoint)
            (MetricsCheckpoint:=MetricsCheckpoint)).

Abbreviation Step := (Timestep.t AgentID Obs Action Reward).
Abbreviation Tracker := (EnvTrajectories.t AgentID Obs Action Reward LogProb).
Abbreviation Traj := (Trajectory.t AgentID Obs Action Reward LogProb Value).
Abbreviation Delivery := (string * (list Step * list LogProb * StateMetrics))%type.

(** *** One tracker *)

Lemma sum_steps_other (m : gmap AgentID (list Obs)) a lo (l : list AgentID) :
  a ∉ l ->
  sum_list ((fun b => length (default [] (<[a := lo]> m !! b))) <$> l)
  = sum_list ((fun b => length (default [] (m !! b))) <$> l).
Proof.
  induction l as [|b l IH]; [done|]. intros Hnotin.
  rewrite !fmap_cons. cbn [sum_list].
  rewrite lookup_insert_ne by set_solver. f_equal. apply IH. set_solver.
Qed.

Lemma sum_steps_append (m : gmap AgentID (list Obs)) a lo x (l : list AgentID) :
  NoDup l -> a ∈ l -> m !! a = Some lo ->
  sum_list ((fun b => length (default [] (<[a := lo ++ [x]]> m !! b))) <$> l)
  = S (sum_list ((fun b => length (default [] (m !! b))) <$> l)).
Proof.
  induction l as [|b l IH]; [by inversion 2|].
  intros [Hnotin Hnd]%NoDup_cons Hin Hm. rewrite !fmap_cons. cbn [sum_list].
  destruct (decide (b = a)) as [->|Hne].
  - rewrite lookup_insert_eq, Hm, sum_steps_other by done. cbn.
    rewrite length_app. cbn. lia.
  - rewrite lookup_insert_ne by done.
    rewrite IH; [lia|done| |done]. set_solver.
Qed.

Ltac run_step :=
  unfold EnvTrajectories.add_step, EnvTrajectories.append_obs,
    EnvTrajectories.append_action, EnvTrajectories.append_reward,
    bind, getitem, modify, ret, gets; simpl.

Lemma add_step_steps n m (ts : Step) (s s' : Tracker) :
  sound s -> EnvTrajectories.add_step n ts s = (Ok m, s') ->
  (total_steps s' + n = total_steps s + m)%nat.
Proof.
  intros [Hwf Hnd].
  destruct (EnvTrajectories.dones s !! Timestep.agent_id ts) as [b|] eqn:Hd.
  2:{ run_step. by rewrite Hd. }
  pose proof (wf_key _ _ _ Hwf Hd) as Hin.
  destruct (wf_tracked _ _ Hwf Hin) as ([lo Ho] & [la Ha] & [lr Hr] & _).
  run_step. rewrite Hd. destruct b; simpl; [by intros [= <- <-]|].
  rewrite Ho; cbn. rewrite Ha; cbn. rewrite Hr; cbn.
  assert (Hsum : sum_list
            ((fun b => length (default []
               (<[Timestep.agent_id ts := lo ++ [Timestep.obs ts]]>
                  (EnvTrajectories.obs_lists s) !! b)))
               <$> EnvTrajectories.agent_ids s)
          = S (total_steps s)) by by apply sum_steps_append.
  destruct (_ || _); cbn; intros [= <- <-]; unfold total_steps, steps_of; cbn;
    rewrite Hsum; unfold total_steps, steps_of; lia.
Qed.

Lemma add_step_sound n (ts : Step) (s : Tracker) :
  sound s -> sound (EnvTrajectories.add_step n ts s).2.
Proof.
  intros [Hwf Hnd]. split; [by apply add_step_wf|].
  by rewrite (proj1 (add_step_frame n ts s)).
Qed.

Lemma loop_steps (timesteps : list Step) : forall n m (s s' : Tracker),
  sound s -> for_fold timesteps n EnvTrajectories.add_step s = (Ok m, s') ->
  (total_steps s' + n = total_steps s + m)%nat /\ sound s'.
Proof.
  induction timesteps as [|ts rest IH]; intros n m s s' Hs.
  - cbn. intros [= <- <-]. split; [lia|done].
  - cbn [for_fold]. unfold bind.
    pose proof (add_step_sound n ts s Hs) as Hs1.
    destruct (EnvTrajectories.add_step n ts s) as [[k|e] s1] eqn:E; [|done].
    apply add_step_steps in E; [|done]. cbn in Hs1.
    intros [H1 H2]%IH; [|done]. split; [lia|done].
Qed.

(** [add_steps] returns the number of timesteps that the tracker has
    more. *)
Lemma add_steps_steps (timesteps : list Step) row (s s' : Tracker) n :
  sound s -> EnvTrajectories.add_steps timesteps row s = (Ok n, s') ->
  total_steps s' = (total_steps s + n)%nat /\ sound s'.
Proof.
  intros Hs. rewrite add_steps_unfold.
  destruct (for_fold _ _ _ _) as [[m|e] s1] eqn:E; [|done].
  apply loop_steps in E as [Hsteps [Hwf Hnd]]; [|done].
  intros [= <- <-]. split; [unfold total_steps, steps_of in *; cbn; lia|].
  split; [|done]. destruct Hwf as (?&?&?&?&?&?). by repeat split.
Qed.

Lemma init_steps (ids : list AgentID) :
  NoDup ids ->
  total_steps (EnvTrajectories.init ids : Tracker) = 0%nat /\
  sound (EnvTrajectories.init ids : Tracker).
Proof.
  intros Hnd.
  destruct (init_loop_lists ids (EnvTrajectories.mk ids ∅ ∅ ∅ ∅ ∅ ∅ [] : Tracker))
    as (H1 & _);
    try (cbn; intros ? ?; rewrite lookup_empty; congruence).
  split; [|split; [apply init_wf|]].
  - unfold total_steps, steps_of, EnvTrajectories.init in *. cbn in *.
    set (m := EnvTrajectories.obs_lists _) in *.
    assert (Hz : forall l : list AgentID,
              sum_list ((fun a => length (default [] (m !! a))) <$> l) = 0%nat).
    { induction l as [|a l IH]; [done|]. rewrite fmap_cons. cbn [sum_list].
      rewrite IH. destruct (m !! a) as [lo|] eqn:E; [|done].
      by rewrite (H1 _ _ E). }
    rewrite <- (Hz ids). f_equal.
    pose proof (init_loop_dom ids (EnvTrajectories.mk ids ∅ ∅ ∅ ∅ ∅ ∅ [] : Tracker))
      as (Hids & _). cbn in Hids. by rewrite Hids.
  - unfold EnvTrajectories.init. cbn.
    pose proof (init_loop_dom ids (EnvTrajectories.mk ids ∅ ∅ ∅ ∅ ∅ ∅ [] : Tracker))
      as (Hids & _). cbn in Hids. by rewrite Hids.
Qed.

Lemma trajectories_from_steps (s : Tracker) rows (l : list AgentID) :
  forall idx (trajs : list Traj),
  EnvTrajectories.trajectories_from tensor0 s rows idx l = Ok trajs ->
  held_completed trajs = sum_list (steps_of s <$> l).
Proof.
  induction l as [|a l IH]; intros idx trajs.
  - cbn. by intros [= <-].
  - cbn [EnvTrajectories.trajectories_from].
    destruct (EnvTrajectories.trajectory_of tensor0 s rows idx a)
      as [tr|e] eqn:Etr; [|done].
    destruct (EnvTrajectories.trajectories_from tensor0 s rows (S idx) l)
      as [trs|e] eqn:Etrs; [|done].
    intros [= <-]. apply IH in Etrs.
    unfold held_completed in *. rewrite !fmap_cons. cbn [sum_list].
    rewrite Etrs. f_equal.
    unfold EnvTrajectories.trajectory_of in Etr. unfold steps_of.
    destruct (EnvTrajectories.obs_lists s !! a) as [lo|]; [|done].
    destruct (EnvTrajectories.action_lists s !! a); [|done].
    destruct (EnvTrajectories.column rows idx); [|done].
    destruct (EnvTrajectories.reward_lists s !! a); [|done].
    destruct (EnvTrajectories.final_obs s !! a); [|done].
    destruct (EnvTrajectories.truncateds s !! a); [|done].
    by injection Etr as <-.
Qed.

(** The trajectories of a tracker hold its timesteps. *)
Lemma get_trajectories_steps (s : Tracker) (trajs : list Traj) :
  EnvTrajectories.get_trajectories tensor0 s = Ok trajs ->
  held_completed trajs = total_steps s.
Proof.
  unfold EnvTrajectories.get_trajectories.
  destruct (EnvTrajectories.stack _) as [rows|e]; [|done].
  apply trajectories_from_steps.
Qed.

(** What [add_steps] returns is what the tracker has grown by: in a
    tracker made for distinct agents, a call that returns [n] leaves [n]
    observations more than there were, and [n] is at most the number of
    timesteps of the call. *)
Theorem add_steps_counts_growth (s s' : Tracker) (timesteps : list Step)
    (log_probs : list LogProb) (n : nat) :
  reachable s -> NoDup (EnvTrajectories.agent_ids s) ->
  EnvTrajectories.add_steps timesteps log_probs s = (Ok n, s') ->
  total_steps s' = (total_steps s + n)%nat /\
  (n <= length timesteps)%nat /\
  EnvTrajectories.agent_ids s' = EnvTrajectories.agent_ids s.
Proof.
  intros Hreach%reachable_wf Hnd Hrun.
  pose proof (add_steps_bound _ _ _ _ _ Hrun) as Hbound.
  pose proof (proj1 (loop_frame timesteps 0%nat s)) as Hids.
  apply add_steps_steps in Hrun as Hsteps; [|done].
  split_and!; [apply Hsteps|done|].
  rewrite add_steps_unfold in Hrun.
  destruct (for_fold _ _ _ _) as [[m|e] s1]; [|done].
  injection Hrun as _ <-. done.
Qed.

(** *** The dict of trackers *)

Lemma held_open_set_fresh k (v : Tracker) d :
  k ∉ d.*1 -> held_open (odict_set k v d) = (held_open d + total_steps v)%nat.
Proof.
  intros Hk. rewrite odict_set_fresh by done. unfold held_open.
  rewrite fmap_app, sum_list_with_app. cbn. lia.
Qed.

Lemma held_open_set_old k (v v0 : Tracker) d :
  odict_get k d = Some v0 ->
  (held_open (odict_set k v d) + total_steps v0
   = held_open d + total_steps v)%nat.
Proof.
  induction d as [|[k' v'] d IH]; [done|]. cbn [odict_get odict_set].
  case_decide as E.
  - intros [= ->]. unfold held_open. rewrite !fmap_cons. cbn. lia.
  - intros Hget%IH. unfold held_open in *. rewrite !fmap_cons. cbn in *. lia.
Qed.

Lemma held_open_pop k (v : Tracker) d :
  odict_get k d = Some v ->
  (held_open (odict_pop k d) + total_steps v = held_open d)%nat.
Proof.
  induction d as [|[k' v'] d IH]; [done|]. cbn [odict_get odict_pop].
  case_decide as E.
  - intros [= ->]. unfold held_open. rewrite !fmap_cons. cbn. lia.
  - intros Hget%IH. unfold held_open in *. rewrite !fmap_cons. cbn in *. lia.
Qed.

Lemma odict_set_keys {V} k (v : V) (d : list (string * V)) :
  NoDup d.*1 -> NoDup (odict_set k v d).*1.
Proof.
  induction d as [|[k' v'] d IH]; cbn.
  - intros _. apply NoDup_singleton.
  - intros [Hnotin Hnd]%NoDup_cons. case_decide as E; cbn.
    + subst. by apply NoDup_cons.
    + apply NoDup_cons. split; [|by apply IH].
      intros Hin. apply Hnotin. clear -Hin E.
      induction d as [|[k0 v0] d IH]; cbn in *; [set_solver|].
      case_decide; cbn in *; set_solver.
Qed.

Lemma sound_set (k : string) (v : Tracker) (d : list (string * Tracker)) :
  Forall (fun item => sound item.2) d -> sound v ->
  Forall (fun item : string * Tracker => sound item.2) (odict_set k v d).
Proof.
  intros Hd Hv. induction Hd as [|[k' v'] d Hx Hd IH]; cbn.
  - by constructor.
  - case_decide; constructor; done.
Qed.

Lemma sound_pop (k : string) (d : list (string * Tracker)) :
  Forall (fun item : string * Tracker => sound item.2) d ->
  Forall (fun item : string * Tracker => sound item.2) (odict_pop k d).
Proof.
  intros Hd. induction Hd as [|[k' v'] d Hx Hd IH]; cbn; [done|].
  case_decide; [done|by constructor].
Qed.

Lemma sound_get (k : string) (v : Tracker) (d : list (string * Tracker)) :
  Forall (fun item => sound item.2) d -> odict_get k d = Some v -> sound v.
Proof.
  intros Hd Hget%odict_get_Some. rewrite Forall_forall in Hd.
  by apply Hd in Hget.
Qed.

(** *** One delivery *)

(** One round of the loop of [process_timestep_data]: the trackers hold
    as many timesteps more as are counted. *)
Lemma process_env_held added metrics (item : Delivery) (s s1 : State)
    added' metrics' :
  NoDup (current_env_trajectories (self s)).*1 ->
  Forall (fun item => sound item.2) (current_env_trajectories (self s)) ->
  NoDup (Timestep.agent_id <$> item.2.1.1) ->
  process_env (added, metrics) item s = (Ok (added', metrics'), s1) ->
  NoDup (current_env_trajectories (self s1)).*1 /\
  Forall (fun item => sound item.2) (current_env_trajectories (self s1)) /\
  Z.of_nat (held_open (current_env_trajectories (self s1)))
  = Z.of_nat (held_open (current_env_trajectories (self s))) + (added' - added) /\
  current_trajectories (self s1) = current_trajectories (self s).
Proof.
  destruct item as [env_id [[ts lp] m]]. cbn [fst snd].
  intros Hkeys Hsound Hids.
  unfold process_env, bind at 1, attr at 1, gets at 1. cbn [fst snd].
  unfold bind at 1.
  set (std := match obs_standardizer (self s) with
              | Some _ => standardize_timestep_observations ts
              | None => ret ts
              end).
  assert (Hstd : forall ts' s',
            std s = (Ok ts', s') ->
            current_env_trajectories (self s') = current_env_trajectories (self s) /\
            current_trajectories (self s') = current_trajectories (self s) /\
            Timestep.agent_id <$> ts' = Timestep.agent_id <$> ts).
  { unfold std. destruct (obs_standardizer (self s)).
    - intros ts' s'. apply standardize_frame.
    - by intros ts' s' [= <- <-]. }
  destruct (std s) as [[ts'|e] s0]; [|done].
  destruct (Hstd _ _ eq_refl) as (Htr0 & Hco0 & Hids0). clear Hstd std.
  rewrite <- Htr0 in Hkeys, Hsound. rewrite <- Htr0, <- Hco0.
  rewrite <- Hids0 in Hids. clear Htr0 Hco0 Hids0.
  unfold bind at 1.
  destruct ts' as [|t0 ts'].
  - unfold ret. intros [= <- _ <-]. split_and!; try done. lia.
  - set (steps := t0 :: ts') in *.
    unfold bind at 1, attr at 1, gets at 1. cbn [fst snd].
    unfold bind at 1.
    set (trackers := current_env_trajectories (self s0)) in *.
    destruct (odict_get env_id trackers) as [tr|] eqn:Hget.
    + unfold ret at 1. unfold bind at 1, with_env_trajectories at 1.
      fold trackers. rewrite Hget.
      destruct (EnvTrajectories.add_steps steps lp tr)
        as [[n|e] tr'] eqn:Eadd; [|done].
      apply add_steps_steps in Eadd as [Hsteps Hs'];
        [|by eapply sound_get].
      unfold ret. intros [= <- _ <-].
      cbn [self on_self current_env_trajectories current_trajectories
           set_current_env_trajectories].
      fold trackers.
      split_and!.
      * by apply odict_set_keys.
      * by apply sound_set.
      * pose proof (held_open_set_old env_id tr' tr trackers Hget). lia.
      * done.
    + unfold assign at 1, modify at 1.
      unfold bind at 1, with_env_trajectories at 1. cbn [fst snd].
      cbn [self on_self current_env_trajectories set_current_env_trajectories].
      rewrite odict_get_set_eq.
      destruct (init_steps (Timestep.agent_id <$> steps) Hids) as [Hzero Hs0].
      destruct (EnvTrajectories.add_steps steps lp _)
        as [[n|e] tr'] eqn:Eadd; [|done].
      apply add_steps_steps in Eadd as [Hsteps Hs']; [|done].
      unfold ret. intros [= <- _ <-].
      cbn [self on_self current_env_trajectories current_trajectories
           set_current_env_trajectories].
      fold trackers.
      apply odict_get_is_None in Hget as Hfresh.
      split_and!.
      * by apply odict_set_keys, odict_set_keys.
      * by apply sound_set; [apply sound_set|].
      * pose proof (held_open_set_old env_id tr'
                      (EnvTrajectories.init (Timestep.agent_id <$> steps))
                      (odict_set env_id
                         (EnvTrajectories.init (Timestep.agent_id <$> steps))
                         trackers)
                      (odict_get_set_eq _ _ _)) as H1.
        pose proof (held_open_set_fresh env_id
                      (EnvTrajectories.init (Timestep.agent_id <$> steps))
                      trackers Hfresh) as H2.
        change (Timestep.agent_id t0 :: list_fmap _ _ Timestep.agent_id ts')
          with (Timestep.agent_id <$> steps).
        lia.
      * done.
Qed.

Lemma process_loop_held (data : list Delivery) :
  forall added metrics (s s1 : State) added' metrics',
  NoDup (current_env_trajectories (self s)).*1 ->
  Forall (fun item => sound item.2) (current_env_trajectories (self s)) ->
  Forall (fun item : Delivery => NoDup (Timestep.agent_id <$> item.2.1.1)) data ->
  for_fold data (added, metrics) process_env s = (Ok (added', metrics'), s1) ->
  NoDup (current_env_trajectories (self s1)).*1 /\
  Forall (fun item => sound item.2) (current_env_trajectories (self s1)) /\
  Z.of_nat (held_open (current_env_trajectories (self s1)))
  = Z.of_nat (held_open (current_env_trajectories (self s))) + (added' - added) /\
  current_trajectories (self s1) = current_trajectories (self s).
Proof.
  induction data as [|item data IH];
    intros added metrics s s1 added' metrics' Hkeys Hsound Hdata.
  - cbn. intros [= <- _ <-]. split_and!; try done. lia.
  - apply Forall_cons in Hdata as [Hitem Hdata].
    cbn [for_fold]. unfold bind at 1.
    destruct (process_env (added, metrics) item s) as [[[a m]|e] s0] eqn:E;
      [|done].
    apply process_env_held in E as (Hkeys0 & Hsound0 & Hheld0 & Hco0);
      [|done..].
    intros (Hkeys1 & Hsound1 & Hheld1 & Hco1)%IH; [|done..].
    split_and!; try done; [lia|congruence].
Qed.

Lemma accounted_ext (s s' : State) :
  current_env_trajectories (self s') = current_env_trajectories (self s) ->
  current_trajectories (self s') = current_trajectories (self s) ->
  iteration_timesteps (self s') = iteration_timesteps (self s) ->
  accounted s -> accounted s'.
Proof.
  intros Htr Hco Hit (Hkeys & Hsound & Hheld). unfold accounted, held.
  rewrite Htr, Hco, Hit. done.
Qed.

(** Every timestep is counted once: when each environment of a delivery
    brings distinct agents and [process_timestep_data] returns,
    [iteration_timesteps] is again the number of timesteps held in the
    open trackers and the completed trajectories, whether the delivery
    led to a learning step or a checkpoint or not. *)
Theorem process_timestep_data_accounted (s s' : State) (data : list Delivery) :
  accounted s ->
  Forall (fun item : Delivery => NoDup (Timestep.agent_id <$> item.2.1.1)) data ->
  process_timestep_data data s = (Ok tt, s') ->
  accounted s'.
Proof.
  intros (Hkeys & Hsound & Hheld) Hdata.
  unfold process_timestep_data, bind at 1.
  pose proof (preserves_for_fold bookkeeping data process_env
                keeps_process_env (0, []) s) as Hk.
  destruct (for_fold data (0, []) process_env s)
    as [[[added metrics]|e] s1] eqn:Eloop; [|done].
  apply process_loop_held in Eloop as (Hkeys1 & Hsound1 & Hheld1 & Hco1);
    [|done..].
  cbn [snd] in Hk. unfold bookkeeping in Hk.
  injection Hk as _ _ Hit _ _ _ _ _ _ _ _ _ _ _ _.
  unfold bind at 1 2 3, assign, modify. cbn [fst snd].
  unfold bind at 1, gets at 1. cbn [fst snd].
  set (s2 := on_self _ (on_self _ (on_self _ s1))).
  assert (Hacc2 : accounted s2).
  { unfold accounted, held, s2. cbn. split_and!; try done.
    rewrite Hit, Hco1, Hheld. unfold held, held_open, held_completed in *. lia. }
  clearbody s2. clear dependent s1. clear Hkeys Hsound Hheld.
  unfold bind at 1.
  match goal with
  | |- context [match ?m s2 with _ => _ end] =>
      assert (Hlearn : forall s3, m s2 = (Ok tt, s3) -> accounted s3);
      [|destruct (m s2) as [[[]|e] s3]; [|done]]
  end.
  { intros s3. destruct (_ >=? _).
    - unfold bind at 1, perf_counter at 1. cbn [fst snd].
      unfold bind at 1. cbn [fst snd].
      intros (_ & _ & _ & E4 & _ & E6 & E7 & _)%learn_returns.
      unfold accounted, held. rewrite E4, E6, E7. cbn.
      split_and!; [constructor|constructor|done].
    - by intros [= <-]. }
  specialize (Hlearn s3 eq_refl).
  unfold bind at 1, gets at 1. cbn [fst snd].
  destruct (_ >=? _).
  - unfold bind at 1.
    destruct (save_checkpoint s3) as [[[]|e] s4] eqn:Esave; [|done].
    intros [= <-].
    assert (Hown : own_attributes s4 = own_attributes s3).
    { assert (Hp : preserves own_attributes (save_checkpoint : M State unit)).
      { unfold save_checkpoint.
        apply preserves_bind; [apply own_write_checkpoint|]. intros _.
        apply own_prune. }
      specialize (Hp s3). by rewrite Esave in Hp. }
    unfold own_attributes in Hown.
    injection Hown as _ _ Ha3 Ha4 _ _ Ha7 _ _.
    by apply (accounted_ext s3).
  - by intros [= <-].
Qed.

(** *** One query *)

Lemma choose_env_action_accounted responses env_id (s s1 : State) r :
  accounted s -> choose_env_action responses env_id s = (Ok r, s1) ->
  accounted s1.
Proof.
  intros (Hkeys & Hsound & Hheld).
  unfold choose_env_action, bind at 1, attr, gets. cbn [fst snd].
  destruct (odict_get env_id _) as [tracker|] eqn:Hget.
  2:{ by intros [= _ <-]. }
  destruct (all _).
  2:{ by intros [= _ <-]. }
  unfold bind at 1, assign at 1, modify at 1. cbn [fst snd].
  unfold bind at 1, lift at 1.
  destruct (EnvTrajectories.get_trajectories tensor0 tracker)
    as [trajs|e] eqn:Htrajs; [|done].
  unfold bind, extend_current_trajectories, assign, modify, ret.
  cbn [fst snd]. intros [= _ <-].
  apply get_trajectories_steps in Htrajs.
  pose proof (held_open_pop _ _ _ Hget) as Hpop.
  unfold accounted, held in *. cbn.
  split_and!.
  - by apply odict_pop_keys.
  - by apply sound_pop.
  - rewrite Hheld. unfold held_open, held_completed in *.
    rewrite fmap_app, sum_list_with_app. lia.
Qed.

(** A query moves timesteps from trackers to completed trajectories and
    loses or doubles none: after [choose_env_actions] returns,
    [iteration_timesteps] is still the number of timesteps held. *)
Theorem choose_env_actions_accounted (s s' : State) (state_info : list string)
    (responses : list (string * EnvActionResponse)) :
  accounted s ->
  choose_env_actions state_info s = (Ok responses, s') ->
  accounted s'.
Proof.
  unfold choose_env_actions. generalize (@nil (string * EnvActionResponse)).
  revert s. induction state_info as [|env_id rest IH]; intros s acc Hacc.
  - cbn. by intros [= _ <-].
  - cbn [for_fold]. unfold bind at 1.
    destruct (choose_env_action acc env_id s) as [[acc'|e] s1] eqn:E; [|done].
    apply choose_env_action_accounted in E; [|done].
    by apply IH.
Qed.

End Facts.
End AccountFacts.

(** ** The value backfill and the length of the critic's answer *)

Module BackfillEdgeFacts.
Import PPOAgentController BackfillSpec PyFacts BackfillFacts.
#[local] Arguments index : simpl never.
#[local] Arguments slice : simpl never.
#[local] Open Scope list_scope.
Section Facts.
Context {AgentID : Type} `{Countable AgentID}.
Context {Obs Action Reward LogProb Value StateMetrics Time : Type}.
Context {Learner ExperienceBuffer MetricsLogger ObsStandardizer : Type}.
Context {PPOData TrajectoryProcessorData AgentMetrics CollectedMetrics : Type}.
Context {LearnerCheckpoint BufferCheckpoint MetricsCheckpoint : Type}.
Context `{!Externals (AgentID:=AgentID) (Obs:=Obs) (Action:=Action)
            (Reward:=Reward) (LogProb:=LogProb) (Value:=Value)
            (StateMetrics:=StateMetrics) (Time:=Time) (Learner:=Learner)
            (ExperienceBuffer:=ExperienceBuffer) (MetricsLogger:=MetricsLogger)
            (ObsStandardizer:=ObsStandardizer) (PPOData:=PPOData)
            (TrajectoryProcessorData:=TrajectoryProcessorData)
            (AgentMetrics:=AgentMetrics) (CollectedMetrics:=CollectedMetrics)
            (LearnerCheckpoint:=LearnerCheckpoint)
            (BufferCheckpoint:=BufferCheckpoint)
            (MetricsCheckpoint:=MetricsCheckpoint)}.

Abbreviation State := (state (AgentID:=AgentID) (Obs:=Obs) (Action:=Action)
            (Reward:=Reward) (LogProb:=LogProb) (Value:=Value)
            (StateMetrics:=StateMetrics) (Time:=Time) (Learner:=Learner)
            (ExperienceBuffer:=ExperienceBuffer) (MetricsLogger:=MetricsLogger)
            (ObsStandardizer:=ObsStandardizer)
            (LearnerCheckpoint:=LearnerCheckpoint)
            (BufferCheckpoint:=BufferCheckpoint)
            (MetricsCheckpoint:=MetricsCheckpoint)).

Abbreviation Traj := (Trajectory.t AgentID Obs Action Reward LogProb Value).

Lemma index_beyond {A} (l : list A) (i : nat) :
  (length l <= i)%nat -> index l (Z.of_nat i) = Raise IndexError.
Proof.
  intros Hi. unfold index.
  destruct (Z.ltb_spec (Z.of_nat i) 0) as [?|_]; [lia|].
  destruct (Z.ltb_spec (Z.of_nat i) (Z.of_nat (length l))) as [?|_]; [lia|].
  by rewrite andb_false_r.
Qed.

(** The round of a trajectory whose last slot the answer does not have. *)
Lemma backfill_short (result : list Value) (s : State) done_ tr rest st :
  current_trajectories (self s) = done_ ++ tr :: rest ->
  (length result < st + request_len tr)%nat ->
  exists s',
    backfill result
      (length done_, (Z.of_nat st, Z.of_nat (st + request_len tr))) s
    = (Raise IndexError, s').
Proof.
  intros Hs Hlen. unfold request_len in Hlen.
  assert (E : Z.of_nat (st + request_len tr) - 1
              = Z.of_nat (st + length (Trajectory.obs_list tr)))
    by (unfold request_len; lia).
  unfold backfill, update_trajectory, bind, attr, gets, assign, modify, lift.
  cbn. rewrite Hs, list_lookup_middle by done.
  rewrite !E, index_beyond by lia. by eexists.
Qed.

Lemma backfill_loop_short (result : list Value) (todo : list Traj) :
  forall done_ st (s : State),
  current_trajectories (self s) = done_ ++ todo ->
  (st <= length result < st + sum_list (request_len <$> todo))%nat ->
  exists s',
    for_each (imap (fun i r => ((length done_ + i)%nat, r))
                   (ranges_from st todo))
             (backfill result) s
    = (Raise IndexError, s').
Proof.
  induction todo as [|tr rest IH]; intros done_ st s Hs Hlen.
  - cbn in Hlen. lia.
  - cbn [ranges_from]. rewrite imap_cons. cbn [for_each].
    unfold bind. rewrite Nat.add_0_r.
    rewrite request_sum_cons in Hlen.
    destruct (decide (st + request_len tr <= length result)%nat) as [Hfits|Hnot].
    + rewrite (backfill_step result s done_ tr rest st Hs) by lia.
      rewrite (imap_ext _ (fun i r =>
                 ((length (done_ ++ [backfilled1 result st tr]) + i)%nat, r))).
      2:{ intros i r _. cbn. rewrite length_app. cbn. f_equal. lia. }
      apply (IH (done_ ++ [backfilled1 result st tr])).
      * cbn. by rewrite <- app_assoc.
      * lia.
    + destruct (backfill_short result s done_ tr rest st Hs) as [s' ->]; [lia|].
      by exists s'.
Qed.

(** What is written does not depend on the values after the request. *)
Lemma backfilled_take (result : list Value) (trajs : list Traj) :
  forall st n,
  (st + sum_list (request_len <$> trajs) <= n)%nat ->
  backfilled (take n result) st trajs = backfilled result st trajs.
Proof.
  induction trajs as [|tr rest IH]; intros st n Hn; [done|].
  rewrite request_sum_cons in Hn. cbn [backfilled]. f_equal.
  - unfold backfilled1, request_len in *. f_equal.
    + f_equal. rewrite !take_drop_commute, take_take. do 2 f_equal. lia.
    + f_equal. by rewrite lookup_take_lt by lia.
  - apply IH. lia.
Qed.

(** [_update_value_predictions] and the length of the critic's answer:
    an answer with fewer values than the request has entries raises
    [IndexError], after the learner ran; an answer with as many or more
    is taken, and the values after the request are not read. *)
Theorem value_backfill_answer_length (s : State) (result : list Value) l' :
  let trajs := current_trajectories (self s) in
  let total := length (trajs ≫= request_obs) in
  critic (trajs ≫= request_agent_ids) (trajs ≫= request_obs)
         (learner (self s)) = (Ok result, l') ->
  total = sum_list ((fun tr => S (length (Trajectory.obs_list tr))) <$> trajs) /\
  ((length result < total)%nat ->
   exists s', _update_value_predictions s = (Raise IndexError, s') /\
              learner (self s') = l') /\
  ((total <= length result)%nat ->
   _update_value_predictions s
   = (Ok tt, on_self (set_current_trajectories (backfilled result 0 trajs))
               (on_self (set_learner l') s)) /\
   backfilled result 0 trajs = backfilled (take total result) 0 trajs).
Proof.
  intros trajs total Hcritic.
  assert (Htotal : total = sum_list (request_len <$> trajs))
    by apply request_obs_length.
  assert (Hrun : forall r,
    (for_each (imap pair (ranges_from 0 trajs)) (backfill result)
       (on_self (set_learner l') s) = r) ->
    _update_value_predictions s = r).
  { intros r <-.
    unfold _update_value_predictions, bind at 1, attr, gets. cbn.
    fold trajs. rewrite flatten_request_eq.
    unfold bind, with_learner, zoom. by rewrite Hcritic. }
  split_and!.
  - done.
  - intros Hshort.
    destruct (backfill_loop_short result trajs [] 0%nat
                (on_self (set_learner l') s)) as [s' Hloop]; [done|lia|].
    exists s'. split; [by apply Hrun|].
    assert (Hframe : forall l : list (nat * (Z * Z)),
              FrameSpec.preserves (fun st : State => learner (self st))
                (for_each l (backfill result))).
    { intros l. apply FrameFacts.preserves_for_each. intros [idx [start stop]].
      assert (Hupd : forall i f,
                FrameSpec.preserves (fun st : State => learner (self st))
                  (update_trajectory i f)).
      { intros i f st. unfold update_trajectory, bind, attr, gets. cbn.
        by destruct (_ !! i). }
      unfold backfill.
      apply FrameFacts.preserves_bind; [apply Hupd|]. intros _.
      apply FrameFacts.preserves_bind; [apply FrameFacts.preserves_lift|].
      intros v. apply Hupd. }
    match type of Hloop with
    | for_each ?l _ _ = _ =>
        specialize (Hframe l (on_self (set_learner l') s))
    end.
    by rewrite Hloop in Hframe.
  - intros Hlong. split.
    + apply Hrun. rewrite (backfill_loop result trajs [] 0%nat); [done|done|lia].
    + symmetry. apply backfilled_take. lia.
Qed.

End Facts.
End BackfillEdgeFacts.

(** ** The further properties on the concrete trackers and controllers *)

Module TrackerChecks.
Import EnvTrajectories TrackerSpec TrackerInvariant AccountSpec Scenario.
Open Scope string_scope.

Lemma tracker1_reachable : reachable tracker1.
Proof. apply reachable_add_steps, reachable_init. Defined.

(** A call for [B], for an unknown [C] and for [A]: the step of [B] is
    taken, then [KeyError]; no row is appended. *)
Lemma add_steps_unknown_agent_witness :
  let pre := [step "B" 2 false false] in
  let ts := step "C" 1 false false in
  let post := [step "A" 2 false false] in
  exists s',
    add_steps (pre ++ ts :: post)%list [21; 22] tracker1 = (Raise KeyError, s') /\
    obs_lists s' !! "B" = Some [1; 2] /\
    obs_lists s' !! "A" = Some [1] /\
    log_probs_list s' = [[11; 12]].
Proof.
  intros pre ts post.
  assert (Hpre : Forall (fun ts' => Timestep.agent_id ts' ∈ agent_ids tracker1)
                   pre).
  { apply Forall_cons. split; [|constructor].
    apply (bool_decide_unpack _). vm_compute. exact I. }
  assert (Hnotin : Timestep.agent_id ts ∉ agent_ids tracker1).
  { apply (bool_decide_unpack _). vm_compute. exact I. }
  destruct (TrackerEdgeFacts.add_steps_unknown_agent tracker1 pre ts post
              [21; 22] tracker1_reachable Hpre Hnotin)
    as (Hrun & Hs' & Hrows & _).
  eexists. split; [exact Hrun|]. rewrite Hs'.
  split_and!; vm_compute; reflexivity.
Defined.

(** A tracker just made has no row to stack. *)
Lemma get_trajectories_errors_witness :
  get_trajectories 0 tracker0 = Raise RuntimeError /\
  exists trajs, get_trajectories 0 tracker3 = Ok trajs /\
                Trajectory.agent_id <$> trajs = ["A"; "B"].
Proof.
  split.
  - apply (TrackerEdgeFacts.get_trajectories_errors 0 tracker0
             (reachable_init _)). reflexivity.
  - destruct (TrackerEdgeFacts.get_trajectories_errors 0 tracker3
                (reachable_add_steps _ _ _ TrackerFacts.tracker2_reachable))
      as (_ & _ & Hwide).
    specialize (Hwide 2%nat). rewrite decide_True in Hwide by (vm_compute; lia).
    apply Hwide; [by vm_compute|].
    vm_compute. repeat constructor.
Defined.

Lemma reachable_coherent_witness : coherent "A" tracker2 /\ coherent "B" tracker2.
Proof.
  split; apply (TrackerEdgeFacts.reachable_coherent tracker2 _
                  TrackerFacts.tracker2_reachable);
    apply (bool_decide_unpack _); vm_compute; exact I.
Defined.

(** The second call of the scenario adds two timesteps to the two of the
    first. *)
Lemma add_steps_counts_growth_witness :
  exists s', add_steps call2.1 call2.2 tracker1 = (Ok 2%nat, s') /\
             total_steps tracker1 = 2%nat /\ total_steps s' = 4%nat.
Proof.
  set (s' := (add_steps call2.1 call2.2 tracker1).2). exists s'.
  assert (E : add_steps call2.1 call2.2 tracker1 = (Ok 2%nat, s'))
    by (vm_compute; reflexivity).
  assert (Hnd : NoDup (agent_ids tracker1)).
  { apply (bool_decide_unpack _). vm_compute. exact I. }
  destruct (AccountFacts.add_steps_counts_growth tracker1 s' call2.1 call2.2
              2%nat tracker1_reachable Hnd E) as (Hgrow & _ & _).
  split; [exact E|]. split; [by vm_compute|]. rewrite Hgrow. by vm_compute.
Defined.

End TrackerChecks.

Module CheckpointChecks.
Import PPOAgentController CheckpointSpec FolderSpec FrameSpec NameFacts.
Open Scope string_scope.

Lemma checkpoints_tokens (n : nat) old z :
  old ∈ dom (Demo.checkpoints n) -> token old = Some z -> z <= Z.of_nat n.
Proof.
  unfold Demo.checkpoints.
  rewrite dom_list_to_map_L, elem_of_list_to_set, <- list_fmap_compose.
  intros (k & -> & Hk%elem_of_seq)%list_elem_of_fmap. cbn.
  rewrite token_str. intros [= <-]. lia.
Qed.

(** With a directory [latest] next to the checkpoints 1 and 2, the save
    writes checkpoint 3 and raises; the four directories are there. *)
Lemma save_checkpoint_non_numeric_entry_witness :
  exists s',
    save_checkpoint Cases.with_stray = (Raise ValueError, s') /\
    dom (fs s') = list_to_set ["1"; "2"; "3"; "latest"].
Proof.
  assert (Hbad : "latest" ∈ dom (fs Cases.with_stray)).
  { apply (bool_decide_unpack _). vm_compute. exact I. }
  assert (Hl : learner_save_checkpoint (learner (self Cases.with_stray))
               = (Ok tt, tt)) by reflexivity.
  assert (Hb : buffer_save_checkpoint (experience_buffer (self Cases.with_stray))
               = (Ok tt, tt)) by reflexivity.
  assert (Hml : metrics_logger (self Cases.with_stray) = Some tt)
    by reflexivity.
  assert (Hm : metrics_save_checkpoint tt = (Ok tt, tt)) by reflexivity.
  assert (Hrun : if log_to_wandb (config (self Cases.with_stray))
                 then exists run, wandb_run (self Cases.with_stray) = Some run /\
                                  None = Some (id run)
                 else @None string = None) by reflexivity.
  assert (Hletter : has_letter "latest" = true) by reflexivity.
  destruct (CheckpointEdgeFacts.save_checkpoint_non_numeric_entry
              Cases.with_stray tt tt tt tt tt tt tt None "latest"
              Hl Hb Hml Hm Hrun Hbad Hletter)
    as (s' & Hsave & Hfs & _).
  exists s'. split; [exact Hsave|]. rewrite Hfs. by vm_compute.
Defined.

(** The save folder holds the tokens 1 to 6 and the clock gives 7: the
    new checkpoint outlives the pruning. *)
Lemma save_keeps_new_checkpoint_witness :
  exists s' d,
    save_checkpoint (Demo.with_checkpoints 5 6) = (Ok tt, s') /\
    fs s' !! "7" = Some d /\
    current_trajectories_pkl d = Some [] /\ is_Some (ppo_agent_json d).
Proof.
  set (s' := (save_checkpoint (Demo.with_checkpoints 5 6)).2).
  assert (E : save_checkpoint (Demo.with_checkpoints 5 6) = (Ok tt, s'))
    by (vm_compute; reflexivity).
  assert (Hkeep : 1 <= n_checkpoints_to_keep
                         (config (self (Demo.with_checkpoints 5 6))))
    by (by vm_compute).
  assert (Hnewer : forall old z,
            old ∈ dom (fs (Demo.with_checkpoints 5 6)) -> token old = Some z ->
            z < time_ns_at (time_ns_calls (Demo.with_checkpoints 5 6))).
  { intros old z Hin Ht.
    pose proof (checkpoints_tokens 6 old z Hin Ht) as Hle.
    change (time_ns_at (time_ns_calls (Demo.with_checkpoints 5 6))) with 7.
    lia. }
  destruct (CheckpointEdgeFacts.save_keeps_new_checkpoint
              (Demo.with_checkpoints 5 6) s' Hkeep
              (ControllerChecks.checkpoints_conform 6) Hnewer E)
    as (lc & bc & mc & run_id & Hd).
  exists s', (written (Demo.with_checkpoints 5 6) lc bc mc run_id).
  split; [exact E|]. split; [exact Hd|]. split; [reflexivity|].
  by eexists.
Defined.

(** The run id of the logging controller comes back from its
    checkpoint. *)
Lemma wandb_run_id_round_trip_witness :
  exists saved loaded,
    save_checkpoint Cases.logging = (Ok tt, saved) /\
    _load_from_checkpoint (Demo.resuming "0" saved) = (Ok tt, loaded) /\
    wandb_run_id (self (Demo.resuming "0" saved)) = None /\
    wandb_run_id (self loaded) = Some "run-7".
Proof.
  set (saved := (save_checkpoint Cases.logging).2).
  assert (E : save_checkpoint Cases.logging = (Ok tt, saved))
    by (vm_compute; reflexivity).
  assert (Hname : "0" = str (time_ns_at (time_ns_calls Cases.logging)))
    by (vm_compute; reflexivity).
  assert (Hin : "0" ∈ dom (fs saved))
    by (apply (bool_decide_unpack _); vm_compute; exact I).
  assert (Hfs : fs (Demo.resuming "0" saved) = fs saved)
    by (vm_compute; reflexivity).
  assert (Hfolder : checkpoint_load_folder
                      (config (self (Demo.resuming "0" saved))) = Some "0")
    by (vm_compute; reflexivity).
  destruct (CheckpointEdgeFacts.wandb_run_id_round_trip Cases.logging saved
              (Demo.resuming "0" saved) "0" E Hname Hin Hfs Hfolder)
    as (loaded & Hload & Hid & _).
  exists saved, loaded.
  split_and!; [exact E|exact Hload|by vm_compute|].
  rewrite Hid. reflexivity.
Defined.

(** A load from a folder that is not there, and one without a folder,
    leave the controller. *)
Lemma load_from_checkpoint_all_or_nothing_witness :
  (exists s', _load_from_checkpoint (Demo.resuming "9" Demo.fresh)
              = (Raise FileNotFoundError, s') /\
              s' = Demo.resuming "9" Demo.fresh) /\
  (exists s', _load_from_checkpoint Demo.fresh = (Raise TypeError, s') /\
              s' = Demo.fresh /\
              checkpoint_load_folder (config (self Demo.fresh)) = None).
Proof.
  set (missing := (_load_from_checkpoint (Demo.resuming "9" Demo.fresh)).2).
  set (unset := (_load_from_checkpoint Demo.fresh).2).
  assert (E1 : _load_from_checkpoint (Demo.resuming "9" Demo.fresh)
               = (Raise FileNotFoundError, missing))
    by (vm_compute; reflexivity).
  assert (E2 : _load_from_checkpoint Demo.fresh = (Raise TypeError, unset))
    by (vm_compute; reflexivity).
  split.
  - exists missing. split; [exact E1|].
    exact (proj1 (proj1 (CheckpointEdgeFacts.load_from_checkpoint_all_or_nothing
                           (Demo.resuming "9" Demo.fresh)) _ _ E1)).
  - exists unset. split; [exact E2|].
    destruct (proj1 (CheckpointEdgeFacts.load_from_checkpoint_all_or_nothing
                       Demo.fresh) _ _ E2) as [Hs [[_ Hnone]|[He _]]].
    + by split.
    + discriminate He.
Defined.

End CheckpointChecks.

Module ControllerCases.
Import PPOAgentController DeliverySpec AccountSpec BackfillSpec.
Open Scope string_scope.

(** The standardizer of the concrete controller returns what it gets:
    the timesteps come back as they went. *)
Lemma standardize_timestep_observations_layout_witness :
  standardize_timestep_observations Scenario.call1.1 Cases.standardizing
  = (Ok Scenario.call1.1, Cases.standardizing) /\
  standardize_timestep_observations Scenario.call1.1 Demo.fresh
  = (Raise AttributeError, Demo.fresh).
Proof.
  pose proof (StandardizeFacts.standardize_timestep_observations_layout
                Cases.standardizing Scenario.call1.1) as Hwith.
  pose proof (StandardizeFacts.standardize_timestep_observations_layout
                Demo.fresh Scenario.call1.1) as Hwithout.
  cbv zeta in Hwith, Hwithout.
  destruct Hwith as (_ & _ & _ & Hok).
  destruct Hwithout as (_ & _ & Hnone & _).
  split.
  - assert (Hst : obs_standardizer (self Cases.standardizing) = Some tt)
      by (vm_compute; reflexivity).
    specialize (Hok tt _ tt Hst ltac:(vm_compute; reflexivity)).
    etransitivity; [exact Hok|]. vm_compute. reflexivity.
  - apply Hnone. vm_compute. reflexivity.
Defined.

Lemma collecting_keys : NoDup (current_env_trajectories (self Demo.collecting)).*1.
Proof. apply (bool_decide_unpack _). vm_compute. exact I. Qed.

Lemma three_envs : NoDup ["env0"; "env1"; "env2"].
Proof. apply (bool_decide_unpack _). vm_compute. exact I. Qed.

(** The query of three environments, of which the second has a tracker
    with all agents done. *)
Lemma choose_env_actions_query_witness :
  exists s',
    choose_env_actions ["env0"; "env1"; "env2"] Demo.collecting
    = (Ok [("env0", STEP_RESPONSE); ("env1", RESET_RESPONSE);
           ("env2", STEP_RESPONSE)], s') /\
    (current_env_trajectories (self s')).*1 = ["env0"] /\
    length (current_trajectories (self s')) = 2%nat.
Proof.
  set (run := choose_env_actions ["env0"; "env1"; "env2"] Demo.collecting).
  assert (E : run = (Ok [("env0", STEP_RESPONSE); ("env1", RESET_RESPONSE);
                         ("env2", STEP_RESPONSE)], run.2))
    by (vm_compute; reflexivity).
  destruct (QueryFacts.choose_env_actions_query Demo.collecting run.2
              ["env0"; "env1"; "env2"] _ collecting_keys three_envs E)
    as (_ & _ & Hopen & Hdone & _).
  exists run.2. split; [exact E|]. rewrite Hopen, Hdone.
  split; vm_compute; reflexivity.
Defined.

(** Asked again, the three environments all step. *)
Lemma choose_env_actions_again_witness :
  choose_env_actions ["env0"; "env1"; "env2"] Demo.decided
  = (Ok [("env0", STEP_RESPONSE); ("env1", STEP_RESPONSE);
         ("env2", STEP_RESPONSE)], Demo.decided).
Proof.
  assert (E : choose_env_actions ["env0"; "env1"; "env2"] Demo.collecting
              = (Ok [("env0", STEP_RESPONSE); ("env1", RESET_RESPONSE);
                     ("env2", STEP_RESPONSE)], Demo.decided))
    by (vm_compute; reflexivity).
  exact (QueryFacts.choose_env_actions_again Demo.collecting Demo.decided
           ["env0"; "env1"; "env2"] _ collecting_keys three_envs E).
Defined.


(** After the learning step of the concrete controller, all step. *)
Lemma learn_then_step_witness :
  exists s1,
    _learn Demo.before_learning = (Ok tt, s1) /\
    choose_env_actions ["env0"; "env1"; "env2"] s1
    = (Ok [("env0", STEP_RESPONSE); ("env1", STEP_RESPONSE);
           ("env2", STEP_RESPONSE)], s1).
Proof.
  set (s1 := (_learn Demo.before_learning).2). exists s1.
  assert (E : _learn Demo.before_learning = (Ok tt, s1))
    by (vm_compute; reflexivity).
  split; [exact E|].
  exact (DeliveryFacts.learn_then_step Demo.before_learning s1
           ["env0"; "env1"; "env2"] E three_envs).
Defined.

End ControllerCases.

Module AccountChecks.
Import PPOAgentController DeliverySpec AccountSpec BackfillSpec.
Open Scope string_scope.

Lemma fresh_accounted : accounted Demo.fresh.
Proof. split_and!; [constructor|constructor|reflexivity]. Qed.

Lemma sound_decide (tracker : EnvTrajectories.t string Z Z Z Z) :
  bool_decide (NoDup (EnvTrajectories.agent_ids tracker)) = true ->
  (let ids : gset string := list_to_set (EnvTrajectories.agent_ids tracker) in
   bool_decide (dom (EnvTrajectories.obs_lists tracker) = ids) &&
   bool_decide (dom (EnvTrajectories.action_lists tracker) = ids) &&
   bool_decide (dom (EnvTrajectories.reward_lists tracker) = ids) &&
   bool_decide (dom (EnvTrajectories.final_obs tracker) = ids) &&
   bool_decide (dom (EnvTrajectories.dones tracker) = ids) &&
   bool_decide (dom (EnvTrajectories.truncateds tracker) = ids)) = true ->
  sound tracker.
Proof.
  intros Hnd Hwf. split; [|by apply bool_decide_eq_true in Hnd].
  cbv zeta in Hwf. rewrite !andb_true_iff, !bool_decide_eq_true in Hwf.
  unfold TrackerSpec.wf. tauto.
Qed.

Lemma collecting_accounted : accounted Demo.collecting.
Proof.
  split_and!.
  - apply ControllerCases.collecting_keys.
  - assert (E : current_env_trajectories (self Demo.collecting)
                = [("env0", Scenario.tracker2); ("env1", Scenario.tracker3)])
      by (vm_compute; reflexivity).
    rewrite E.
    apply Forall_cons. split; [|apply Forall_cons; split; [|constructor]];
      apply sound_decide; vm_compute; reflexivity.
  - vm_compute. reflexivity.
Qed.

(** The first delivery to a fresh controller: four timesteps, all
    held. *)
Lemma process_timestep_data_accounted_witness :
  exists s',
    process_timestep_data Cases.first_delivery Demo.fresh = (Ok tt, s') /\
    accounted s' /\ iteration_timesteps (self s') = 4 /\ held s' = 4.
Proof.
  set (s' := (process_timestep_data Cases.first_delivery Demo.fresh).2).
  assert (E : process_timestep_data Cases.first_delivery Demo.fresh
              = (Ok tt, s')) by (vm_compute; reflexivity).
  assert (Hdata : Forall (fun item : string * (list _ * list Z * Z) =>
                            NoDup (Timestep.agent_id <$> item.2.1.1))
                    Cases.first_delivery).
  { repeat constructor; apply (bool_decide_unpack _); vm_compute; exact I. }
  pose proof (AccountFacts.process_timestep_data_accounted Demo.fresh s'
                Cases.first_delivery fresh_accounted Hdata E) as Hacc.
  exists s'. split; [exact E|]. split; [exact Hacc|].
  destruct Hacc as (_ & _ & Hheld). rewrite <- Hheld.
  split; vm_compute; reflexivity.
Defined.

(** The query moves the four timesteps of [env1] to the completed
    list; nine are held before and after. *)
Lemma choose_env_actions_accounted_witness :
  accounted Demo.decided /\ held Demo.collecting = 9 /\ held Demo.decided = 9.
Proof.
  assert (E : choose_env_actions ["env0"; "env1"; "env2"] Demo.collecting
              = (Ok [("env0", STEP_RESPONSE); ("env1", RESET_RESPONSE);
                     ("env2", STEP_RESPONSE)], Demo.decided))
    by (vm_compute; reflexivity).
  pose proof (AccountFacts.choose_env_actions_accounted Demo.collecting
                Demo.decided _ _ collecting_accounted E) as Hacc.
  split; [exact Hacc|]. split; vm_compute; reflexivity.
Defined.

(** The critic of the concrete controller answers with the twelve
    values asked for; one that answers with eleven makes the backfill
    raise. *)
Lemma value_backfill_answer_length_witness :
  _update_value_predictions Demo.three_trajectories
  = (Ok tt,
     on_self (set_current_trajectories
                (backfilled (Z.of_nat <$> seq 0 12) 0
                   (current_trajectories (self Demo.three_trajectories))))
       Demo.three_trajectories) /\
  exists s',
    _update_value_predictions (H0:=Cases.short_externals)
      Demo.three_trajectories = (Raise IndexError, s').
Proof.
  split.
  - destruct (BackfillEdgeFacts.value_backfill_answer_length
                Demo.three_trajectories (Z.of_nat <$> seq 0 12) tt)
      as (_ & _ & Hlong); [reflexivity|].
    destruct Hlong as [Hrun _]; [vm_compute; lia|].
    rewrite Hrun. reflexivity.
  - destruct (BackfillEdgeFacts.value_backfill_answer_length
                (Externals0:=Cases.short_externals)
                Demo.three_trajectories (Z.of_nat <$> seq 0 11) tt)
      as (_ & Hshort & _); [reflexivity|].
    destruct Hshort as (s' & Hrun & _); [vm_compute; lia|].
    by exists s'.
Defined.

End AccountChecks.
